(** * Webhook notification pipeline of the WhatsApp REST bridge

    A shallow embedding of [infrastructure/whatsapp/webhook.go] (payload
    construction, message-kind classification, signed delivery with retry)
    and of the [POST /call-ended] handler of the REST command, followed by
    the properties proved about them.

    Go maps of type [map[string]interface{}] are finite maps from strings to
    a closed type of values; Go [(value, error)] results are a [result];
    [time.Duration] is a 64-bit signed count of nanoseconds; a
    [bytes.Buffer] is the bytes not yet read from it; the network, the clock
    and the WhatsApp client are explicit collaborators. *)

From Stdlib Require Import ZArith Lia Bool Ascii String DecimalString.
From stdpp Require Import base option list gmap strings.

Local Open Scope Z_scope.
Local Open Scope string_scope.

(** ** Go runtime pieces used by the two files *)

Module Go.

(** [error] values. [WebhookError] is the error type of the repository's
    [pkg/error] package; every other error (transport, parsing, download)
    is an [ExternalError]. Both print their message under [%v]. *)
Inductive error : Type :=
| WebhookError (msg : string)
| ExternalError (msg : string).

Definition Error (e : error) : string :=
  match e with
  | WebhookError msg => msg
  | ExternalError msg => msg
  end.

(** [%v] applied to an [error] interface value, which may be nil. *)
Definition fmt_v_err (e : option error) : string :=
  match e with
  | Some e => Error e
  | None => "<nil>"
  end.

(** A Go pair [(v, err)] with the usual convention. *)
Inductive result (A : Type) : Type :=
| Ok (v : A)
| Err (e : error).
Arguments Ok {A} v.
Arguments Err {A} e.

(** [%d] on an [int]. *)
Definition fmt_d (n : Z) : string := NilZero.string_of_int (Z.to_int n).

(** Signed 64-bit wrap-around, for arithmetic on [time.Duration]. *)
Definition wrap64 (z : Z) : Z := (z + 2 ^ 63) mod 2 ^ 64 - 2 ^ 63.

Definition Nanosecond : Z := 1.
Definition Second : Z := 1000000000 * Nanosecond.
Definition Minute : Z := 60 * Second.

(** [strings.HasPrefix]. *)
Fixpoint HasPrefix (s prefix : string) : bool :=
  match prefix, s with
  | EmptyString, _ => true
  | String p prefix', String c s' => Ascii.eqb c p && HasPrefix s' prefix'
  | String _ _, EmptyString => false
  end.

(** [strings.Contains]. *)
Fixpoint Contains (s substr : string) : bool :=
  HasPrefix s substr
  || match s with
     | EmptyString => false
     | String _ s' => Contains s' substr
     end.

(** [strings.HasSuffix]. *)
Definition HasSuffix (s suffix : string) : bool :=
  (String.length suffix <=? String.length s)%nat
  && String.eqb
       (substring (String.length s - String.length suffix)
                  (String.length suffix) s)
       suffix.

(** [strings.ReplaceAll] for a non-empty [old] (the only use in the
    source passes a two-character literal). [skip] counts the characters
    of a match that are still to be dropped. *)
Fixpoint replaceFrom (skip : nat) (s old new : string) : string :=
  match s with
  | EmptyString => EmptyString
  | String c s' =>
      match skip with
      | S k => replaceFrom k s' old new
      | O =>
          if HasPrefix s old
          then new +:+ replaceFrom (String.length old - 1) s' old new
          else String c (replaceFrom O s' old new)
      end
  end.

Definition ReplaceAll (s old new : string) : string := replaceFrom O s old new.

(** The character class [\s] of Go's [regexp]: tab, newline, form feed,
    carriage return, space. *)
Definition isSpace (c : ascii) : bool :=
  let n := nat_of_ascii c in
  (n =? 9)%nat || (n =? 10)%nat || (n =? 12)%nat || (n =? 13)%nat || (n =? 32)%nat.

(** Does some character that is not [\s] start the string? ([[^\s]+]
    needs one; a multi-byte rune never contains a [\s] byte.) *)
Definition startsNonSpace (s : string) : bool :=
  match s with
  | EmptyString => false
  | String c _ => negb (isSpace c)
  end.

(** The pattern [https?://[^\s]+] anchored at the start of [s]. *)
Definition urlAt (s : string) : bool :=
  (HasPrefix s "http://" && startsNonSpace (substring 7 (String.length s - 7) s))
  || (HasPrefix s "https://" && startsNonSpace (substring 8 (String.length s - 8) s)).

(** [regexp.MustCompile(`https?://[^\s]+`).MatchString]: an unanchored
    search, so a match may start at any position. *)
Fixpoint urlRegexMatchString (s : string) : bool :=
  urlAt s
  || match s with
     | EmptyString => false
     | String _ s' => urlRegexMatchString s'
     end.

(** [bytes.Buffer], as the bytes that have not been read yet. Reading
    advances the buffer: [Next n] hands out the next [n] bytes, or the whole
    rest when fewer are left, with the buffer that remains. *)
Definition Buffer : Type := string.

Definition NewBuffer (buf : string) : Buffer := buf.

Fixpoint Next (n : nat) (b : Buffer) : string * Buffer :=
  match n, b with
  | S n', String c b' => let '(data, rest) := Next n' b' in (String c data, rest)
  | _, _ => (EmptyString, b)
  end.

End Go.

Export Go.

(** ** The protocol library's event model (whatsmeow), as far as the code
       reads it *)

Module Events.

(** [types.JID]; only its [String()] form is ever used. *)
Record JID : Type := { jidString : string }.

Record ExtendedTextMessage : Type :=
  { extText : string; extTitle : string; extDescription : string }.
Record AudioMessage : Type := { audioURL : string; audioPTT : bool }.
Record ImageMessage : Type := { imageURL : string; imageCaption : string }.
Record VideoMessage : Type := { videoURL : string; videoCaption : string }.
Record DocumentMessage : Type := { documentURL : string; documentFileName : string }.
Record StickerMessage : Type := { stickerURL : string }.
Record ContactMessage : Type := { contactDisplayName : string; contactVcard : string }.
Record ContactsArrayMessage : Type := { contactsArray : list ContactMessage }.
Record LocationMessage : Type := { degreesLatitude : Z; degreesLongitude : Z }.
Record LiveLocationMessage : Type := { liveLatitude : Z; liveLongitude : Z }.
Record ListMessage : Type := { listTitle : string }.
Record OrderMessage : Type := { orderID : string }.
Record PaymentInviteMessage : Type := { paymentServiceType : Z }.
Record PollCreationMessage : Type := { pollName : string }.
Record MessageKey : Type := { keyID : string }.
Record PollUpdateMessage : Type := { pollCreationMessageKey : option MessageKey }.
Record ReactionMessage : Type := { reactionText : string }.

(** [waE2E.Message]: a protobuf struct of optional fields. Each [GetX()]
    of the source is the field [X]; a nil pointer is [None]. *)
Record Message : Type :=
  { Conversation : string;
    ExtendedText : option ExtendedTextMessage;
    Audio : option AudioMessage;
    Image : option ImageMessage;
    Video : option VideoMessage;
    Document : option DocumentMessage;
    Sticker : option StickerMessage;
    Contact : option ContactMessage;
    ContactsArray : option ContactsArrayMessage;
    Location : option LocationMessage;
    LiveLocation : option LiveLocationMessage;
    List : option ListMessage;
    Order : option OrderMessage;
    PaymentInvite : option PaymentInviteMessage;
    PollCreationV3 : option PollCreationMessage;
    PollCreationV4 : option PollCreationMessage;
    PollCreationV5 : option PollCreationMessage;
    PollUpdate : option PollUpdateMessage;
    Reaction : option ReactionMessage }.

(** [types.MessageInfo]: [SourceString] is the result of the method of
    that name, [Timestamp] a Unix time. *)
Record MessageInfo : Type :=
  { Chat : JID;
    SourceString : string;
    ID : string;
    Type_ : string;
    PushName : string;
    Timestamp : Z }.

(** [events.Message]. *)
Record Event : Type :=
  { Info : MessageInfo; Msg : Message; IsViewOnce : bool }.

(** The argument of [ExtractMedia] ([whatsmeow.DownloadableMessage]). *)
Inductive Downloadable : Type :=
| DAudio (m : AudioMessage)
| DDocument (m : DocumentMessage)
| DImage (m : ImageMessage)
| DSticker (m : StickerMessage)
| DVideo (m : VideoMessage).

(** Protobuf getters on a possibly nil sub-message return the zero value. *)
Definition GetID (k : option MessageKey) : string :=
  match k with Some k => keyID k | None => EmptyString end.

(** How many of the union's variants are populated. *)
Definition isSomeN {A} (o : option A) : nat :=
  match o with Some _ => 1%nat | None => 0%nat end.

Definition populated (m : Message) : nat :=
  ((if String.eqb (Conversation m) EmptyString then 0 else 1)
   + isSomeN (ExtendedText m) + isSomeN (Audio m) + isSomeN (Image m)
   + isSomeN (Video m) + isSomeN (Document m) + isSomeN (Sticker m)
   + isSomeN (Contact m) + isSomeN (ContactsArray m) + isSomeN (Location m)
   + isSomeN (LiveLocation m) + isSomeN (List m) + isSomeN (Order m)
   + isSomeN (PaymentInvite m) + isSomeN (PollCreationV3 m)
   + isSomeN (PollCreationV4 m) + isSomeN (PollCreationV5 m)
   + isSomeN (PollUpdate m) + isSomeN (Reaction m))%nat.

End Events.

Export Events.

(** ** [infrastructure/whatsapp]: payload values and collaborators *)

Module Whatsapp.

(** The structs returned by [buildEventMessage] and [buildEventReaction]. *)
Record evtMessage : Type :=
  { msgID : string; msgText : string; msgRepliedId : string; msgQuotedMessage : string }.
Record evtReaction : Type := { reactID : string; reactMessage : string }.

(** Values stored in the nested [messageData] map. *)
Inductive mvalue : Type :=
| MString (s : string)
| MPollUpdate (PollID : string) (SelectedOptions : list string).

(** Values stored in the top-level [body] map. *)
Inductive value : Type :=
| VString (s : string)
| VBool (b : bool)
| VMessageData (m : gmap string mvalue)
| VReaction (r : evtReaction)
| VContacts (l : list (string * string))
| VList (m : ListMessage)
| VLiveLocation (m : LiveLocationMessage)
| VLocation (m : LocationMessage)
| VOrder (m : OrderMessage).

Abbreviation Payload := (gmap string value).

(** The package [config]. *)
Record Config : Type :=
  { WhatsappWebhook : list string;
    WhatsappWebhookSecret : string;
    AppPort : string;
    PathMedia : string }.

(** The logged-in client: [waCli.Store.ID] may be nil. *)
Record Client : Type := { StoreID : option JID }.

(** What the payload builder calls but does not define: helpers of the
    package that live in other files, the protocol library, the formatter
    and the regular-expression engine. *)
Class Collaborators : Type :=
  { config : Config;
    buildEventMessage : Event -> evtMessage;
    buildEventReaction : Event -> evtReaction;
    buildForwarded : Event -> bool;
    (** [fmt.Sprintf] with the verb [%+v] on [evt.Message] *)
    fmtMessage : Message -> string;
    (** [Timestamp.Format(time.RFC3339)] *)
    formatRFC3339 : Z -> string;
    ParseJID : string -> result JID;
    GetGroupName : JID -> result string;
    GetWaCli : option Client;
    extractPhoneNumber : string -> string;
    ExtractMedia : string -> Downloadable -> result string;
    (** [FindAllStringSubmatch(rawMessage, -1)] of the contact pattern,
        which captures a display name and a vcard *)
    contactsFindAll : string -> list (list string) }.

#[global] Instance result_ret : MRet result := fun _ v => Ok v.
#[global] Instance result_bind : MBind result :=
  fun _ _ f r => match r with Ok v => f v | Err e => Err e end.

Definition notNil {A} (o : option A) : bool :=
  match o with Some _ => true | None => false end.

Definition nonEmpty (s : string) : bool := negb (String.eqb s EmptyString).

Definition newline : string := String (ascii_of_nat 10) EmptyString.

Section Builder.
Context `{!Collaborators}.

(** The test shared by lines 137 and 242 of the source. *)
Definition multiContactInMedia (evt : Event) : bool :=
  String.eqb (Type_ (Info evt)) "media"
  && Contains (fmtMessage (Msg evt)) "contactsArrayMessage".

Definition determineMessageType (evt : Event) (text : string) : string :=
  let m := Msg evt in
  match Audio m with
  | Some audio => if audioPTT audio then "voice_message" else "audio_message"
  | None =>
  if notNil (Image m) then "image_message" else
  if notNil (Video m) then "video_message" else
  if notNil (Document m) then "document_message" else
  if notNil (Sticker m) then "sticker_message" else
  if notNil (Contact m) then "contact_message" else
  if multiContactInMedia evt then "contact_message" else
  if notNil (Location m) then "location_message" else
  if notNil (LiveLocation m) then "live_location_message" else
  if notNil (List m) then "list_message" else
  if notNil (Order m) then "order" else
  if notNil (PaymentInvite m) then "payment" else
  if notNil (PollCreationV3 m) || notNil (PollCreationV4 m)
     || notNil (PollCreationV5 m) then "poll_message" else
  if notNil (PollUpdate m) then "poll_message" else
  if notNil (Reaction m) then "reaction_message" else
  if nonEmpty (Conversation m) || notNil (ExtendedText m) then
    if urlRegexMatchString text then "link_message" else "text_message"
  else "unknown"
  end.

(** The loop over the regular-expression matches (lines 144-154). *)
Fixpoint contactsOfMatches (matches : list (list string)) : list (string * string) :=
  match matches with
  | [] => []
  | [_; displayName; vcard] :: rest =>
      (displayName, ReplaceAll vcard "\n" newline) :: contactsOfMatches rest
  | _ :: rest => contactsOfMatches rest
  end.

(** Lines 51-81: the nested [messageData] map. *)
Definition buildMessageData (evt : Event) (message : evtMessage) : gmap string mvalue :=
  let messageData : gmap string mvalue := ∅ in
  let messageData := <["ID" := MString (msgID message)]> messageData in
  let messageData := <["MessageOrigin" := MString (msgQuotedMessage message)]> messageData in
  let messageData := <["RepliedId" := MString (msgRepliedId message)]> messageData in
  let messageData :=
    match ExtendedText (Msg evt) with
    | Some extendedText =>
        if urlRegexMatchString (extText extendedText) then
          let messageData :=
            if nonEmpty (extTitle extendedText)
            then <["TitleLink" := MString (extTitle extendedText)]> messageData
            else messageData in
          let messageData :=
            if nonEmpty (extDescription extendedText)
            then <["LinkDescription" := MString (extDescription extendedText)]> messageData
            else messageData in
          <["TextMessage" := MString (extText extendedText)]> messageData
        else <["TextMessage" := MString (msgText message)]> messageData
    | None => <["TextMessage" := MString (msgText message)]> messageData
    end in
  match PollUpdate (Msg evt) with
  | Some pollUpdate =>
      <["PollUpdate" := MPollUpdate (GetID (pollCreationMessageKey pollUpdate)) []]> messageData
  | None => messageData
  end.

(** Lines 45-99: everything before the chat identity is parsed. *)
Definition buildHeader (evt : Event) : Payload :=
  let message := buildEventMessage evt in
  let waReaction := buildEventReaction evt in
  let forwarded := buildForwarded evt in
  let body : Payload := ∅ in
  let body :=
    if nonEmpty (SourceString (Info evt))
    then <["SenderNumber" := VString (SourceString (Info evt))]> body else body in
  let body := <["message" := VMessageData (buildMessageData evt message)]> body in
  let body :=
    if nonEmpty (PushName (Info evt))
    then <["PushName" := VString (PushName (Info evt))]> body else body in
  let body :=
    if nonEmpty (reactMessage waReaction)
    then <["reaction" := VReaction waReaction]> body else body in
  let body :=
    if IsViewOnce evt then <["view_once" := VBool (IsViewOnce evt)]> body else body in
  let body :=
    if forwarded then <["forwarded" := VBool forwarded]> body else body in
  let timestamp := formatRFC3339 (Timestamp (Info evt)) in
  if nonEmpty timestamp then <["timestamp" := VString timestamp]> body else body.

(** Lines 105-158: group flag, own-number flag, kind, port, contacts. *)
Definition buildIdentity (evt : Event) (jid : JID) (body : Payload) : Payload :=
  let message := buildEventMessage evt in
  let IsGroup := Contains (jidString (Chat (Info evt))) "@g.us" in
  let body := <["IsGroup" := VBool IsGroup]> body in
  let body :=
    if IsGroup then
      match GetGroupName jid with
      | Err _ => body
      | Ok GroupName =>
          if nonEmpty GroupName then <["GroupName" := VString GroupName]> body else body
      end
    else body in
  let MyNumber :=
    match GetWaCli with
    | Some waCli =>
        match StoreID waCli with
        | Some id =>
            String.eqb (extractPhoneNumber (SourceString (Info evt)))
                       (extractPhoneNumber (jidString id))
        | None => false
        end
    | None => false
    end in
  let body := <["MyNumber" := VBool MyNumber]> body in
  let body := <["Type" := VString (determineMessageType evt (msgText message))]> body in
  let body := <["Port" := VString (AppPort config)]> body in
  let body :=
    match Contact (Msg evt) with
    | Some contactMessage =>
        <["contact" := VContacts [(contactDisplayName contactMessage,
                                   contactVcard contactMessage)]]> body
    | None => body
    end in
  if multiContactInMedia evt then
    let rawMessage := fmtMessage (Msg evt) in
    let contacts := contactsOfMatches (contactsFindAll rawMessage) in
    let body := <["contact" := VContacts contacts]> body in
    <["Type" := VString "contact_message"]> body
  else body.

(** Lines 160-213: media download and the pass-through objects; the
    first failed download ends the call. *)
Definition attachContent (evt : Event) (body : Payload) : result Payload :=
  let m := Msg evt in
  body ←
    match Audio m with
    | Some audioMedia =>
        match ExtractMedia (PathMedia config) (DAudio audioMedia) with
        | Err err => Err (WebhookError ("Failed to download audio: " +:+ Error err))
        | Ok path => Ok (<["audio" := VString path]> body)
        end
    | None => Ok body
    end;
  body ←
    match Document m with
    | Some documentMessage =>
        match ExtractMedia (PathMedia config) (DDocument documentMessage) with
        | Err err => Err (WebhookError ("Failed to download document: " +:+ Error err))
        | Ok path => Ok (<["document" := VString path]> body)
        end
    | None => Ok body
    end;
  body ←
    match Image m with
    | Some imageMedia =>
        match ExtractMedia (PathMedia config) (DImage imageMedia) with
        | Err err => Err (WebhookError ("Failed to download image: " +:+ Error err))
        | Ok path => Ok (<["image" := VString path]> body)
        end
    | None => Ok body
    end;
  let body := match List m with
              | Some listMessage => <["list" := VList listMessage]> body
              | None => body end in
  let body := match LiveLocation m with
              | Some liveLocationMessage =>
                  <["live_location" := VLiveLocation liveLocationMessage]> body
              | None => body end in
  let body := match Location m with
              | Some locationMessage => <["location" := VLocation locationMessage]> body
              | None => body end in
  let body := match Order m with
              | Some orderMessage => <["order" := VOrder orderMessage]> body
              | None => body end in
  body ←
    match Sticker m with
    | Some stickerMedia =>
        match ExtractMedia (PathMedia config) (DSticker stickerMedia) with
        | Err err => Err (WebhookError ("Failed to download sticker: " +:+ Error err))
        | Ok path => Ok (<["sticker" := VString path]> body)
        end
    | None => Ok body
    end;
  match Video m with
  | Some videoMedia =>
      match ExtractMedia (PathMedia config) (DVideo videoMedia) with
      | Err err => Err (WebhookError ("Failed to download video: " +:+ Error err))
      | Ok path => Ok (<["video" := VString path]> body)
      end
  | None => Ok body
  end.

Definition createPayload (evt : Event) : result Payload :=
  let body := buildHeader evt in
  match ParseJID (jidString (Chat (Info evt))) with
  | Err err => Err (WebhookError ("Invalid JID: " +:+ Error err))
  | Ok jid => attachContent evt (buildIdentity evt jid body)
  end.

End Builder.

(** *** Delivery *)

(** [http.Request], as far as [http.NewRequest] and [SubmitWebhook] set it
    up. The record holds what stays the same from one attempt to the next:
    the method, the URL, the headers and the length [http.NewRequest]
    declares for a [bytes.Buffer] body. The field [Body] of the Go struct is
    a reader on that buffer, that is a pointer to state which [client.Do]
    consumes; the buffer is threaded through the loop beside the record. *)
Record Request : Type :=
  { Method : string; URL : string; ContentLength : Z; Header : gmap string string }.

Definition HeaderSet (key val : string) (req : Request) : Request :=
  {| Method := Method req; URL := URL req; ContentLength := ContentLength req;
     Header := <[key := val]> (Header req) |}.

(** What a delivery does to the outside world, in order: a call of
    [client.Do] takes bytes from the body of its request ([EvRead], possibly
    none) and returns ([EvDo]); [time.Sleep] passes time. *)
Inductive NetEvent : Type :=
| EvDo (req : Request) (err : option error)
| EvSleep (d : Z)
| EvRead (data : string).

(** The serializer, the signer and the network. What a call of [client.Do]
    reads and returns may depend on everything that happened before it. *)
Class Transport : Type :=
  { jsonMarshal : Payload -> result string;
    (** [url.Parse] inside [http.NewRequest] *)
    urlParseError : string -> option error;
    getMessageDigestOrSignature : string -> string -> result string;
    (** [client.Do(req)] with the 10-second client: what it returns, *)
    clientDo : list NetEvent -> Request -> option error;
    (** and how many bytes it asks of the body of [req] before it returns *)
    clientRead : list NetEvent -> Request -> nat }.

(** Computations that act on the network and the clock: the history of
    events so far is threaded through. *)
Definition IO (A : Type) : Type := list NetEvent -> A * list NetEvent.

#[global] Instance IO_ret : MRet IO := fun _ v h => (v, h).
#[global] Instance IO_bind : MBind IO :=
  fun _ _ f m h => let '(v, h') := m h in f v h'.

Definition run {A} (m : IO A) (h : list NetEvent) : A * list NetEvent := m h.

Definition Sleep (d : Z) : IO unit := fun h => (tt, (h ++ [EvSleep d])%list).

Section Delivery.
Context `{!Transport}.

(** [client.Do(req)], [body] being what is left in the buffer behind
    [req.Body]: the call reads from the buffer, which keeps what it did not
    read, and nothing puts the bytes back. *)
Definition Do (req : Request) (body : Buffer) : IO (option error * Buffer) :=
  fun h =>
    let '(data, body) := Next (clientRead h req) body in
    let err := clientDo h req in
    ((err, body), (h ++ [EvRead data; EvDo req err])%list).

(** [http.NewRequest] on a [*bytes.Buffer]: the request declares the
    length of the buffer and reads its body from it. *)
Definition NewRequest (method url : string) (body : Buffer) : result (Request * Buffer) :=
  match urlParseError url with
  | Some err => Err err
  | None =>
      Ok ({| Method := method; URL := url;
             ContentLength := Z.of_nat (String.length body); Header := ∅ |}, body)
  end.

Definition maxAttempts : Z := 5.

(** How the [for] loop of lines 305-313 is left. *)
Inductive LoopExit : Type :=
| Returned
| Exhausted (attempt : Z) (err : option error).

(** The loop, with [remaining = maxAttempts - attempt] iterations to go;
    [err] is the variable of that name, last assigned by [client.Do]. Every
    iteration passes the same [req], whose body is what the earlier
    iterations left of it. *)
Fixpoint retryLoop (remaining : nat) (req : Request) (body : Buffer)
    (attempt sleepDuration : Z) (err : option error) : IO LoopExit :=
  match remaining with
  | O => mret (Exhausted attempt err)
  | S remaining' =>
      '(err, body) ← Do req body;
      match err with
      | None => mret Returned
      | Some _ =>
          _ ← Sleep sleepDuration;
          retryLoop remaining' req body (attempt + 1) (wrap64 (sleepDuration * 2)) err
      end
  end.

Definition SubmitWebhook (secret : string) (payload : Payload) (url : string)
    : IO (option error) :=
  match jsonMarshal payload with
  | Err err => mret (Some (WebhookError ("Failed to marshal body: " +:+ Error err)))
  | Ok postBody =>
  match NewRequest "POST" url (NewBuffer postBody) with
  | Err err =>
      mret (Some (WebhookError ("Error when creating HTTP request: " +:+ Error err)))
  | Ok (req, body) =>
  match getMessageDigestOrSignature postBody secret with
  | Err err => mret (Some (WebhookError ("Error when creating signature: " +:+ Error err)))
  | Ok signature =>
      let req := HeaderSet "Content-Type" "application/json" req in
      let req := HeaderSet "X-Hub-Signature-256" ("sha256=" +:+ signature) req in
      exit ← retryLoop (Z.to_nat (maxAttempts - 0)) req body 0 (1 * Second) None;
      match exit with
      | Returned => mret None
      | Exhausted attempt err =>
          mret (Some (WebhookError
            ("Failed after " +:+ fmt_d attempt +:+ " attempts: " +:+ fmt_v_err err)))
      end
  end end end.

(** The request [SubmitWebhook] sends, when it gets as far as sending. *)
Definition requestFor (secret : string) (payload : Payload) (url : string)
    : option Request :=
  match jsonMarshal payload with
  | Err _ => None
  | Ok postBody =>
      match NewRequest "POST" url (NewBuffer postBody),
            getMessageDigestOrSignature postBody secret with
      | Ok (req, _), Ok signature =>
          Some (HeaderSet "X-Hub-Signature-256" ("sha256=" +:+ signature)
                  (HeaderSet "Content-Type" "application/json" req))
      | _, _ => None
      end
  end.

(** The loop of [forwardToWebhook] (lines 27-31). *)
Fixpoint forwardLoop (secret : string) (payload : Payload) (urls : list string)
    : IO (option error) :=
  match urls with
  | [] => mret None
  | url :: urls' =>
      err ← SubmitWebhook secret payload url;
      match err with
      | Some err => mret (Some err)
      | None => forwardLoop secret payload urls'
      end
  end.

(** The loop of the call-ended notification ([cmd], lines 303-307): a
    failed delivery is logged and the next URL is tried. *)
Fixpoint notifyLoop (secret : string) (payload : Payload) (urls : list string)
    : IO unit :=
  match urls with
  | [] => mret tt
  | url :: urls' =>
      _ ← SubmitWebhook secret payload url;
      notifyLoop secret payload urls'
  end.

Context `{!Collaborators}.

Definition forwardToWebhook (evt : Event) : IO (option error) :=
  match createPayload evt with
  | Err err => mret (Some err)
  | Ok payload =>
      forwardLoop (WhatsappWebhookSecret config) payload (WhatsappWebhook config)
  end.

End Delivery.

(** Reading a history: the URLs requested, in order. *)
Fixpoint attemptedURLs (h : list NetEvent) : list string :=
  match h with
  | [] => []
  | EvDo req _ :: h' => URL req :: attemptedURLs h'
  | EvSleep _ :: h' => attemptedURLs h'
  | EvRead _ :: h' => attemptedURLs h'
  end.

Definition attempts (h : list NetEvent) : nat := length (attemptedURLs h).

Fixpoint sleeps (h : list NetEvent) : list Z :=
  match h with
  | [] => []
  | EvSleep d :: h' => d :: sleeps h'
  | EvDo _ _ :: h' => sleeps h'
  | EvRead _ :: h' => sleeps h'
  end.

Definition isDo (e : NetEvent) : bool :=
  match e with EvDo _ _ => true | EvSleep _ | EvRead _ => false end.

(** The sleeps that have a later request after them: the delays between
    attempts. *)
Fixpoint interAttemptDelays (h : list NetEvent) : list Z :=
  match h with
  | [] => []
  | EvSleep d :: h' =>
      if existsb isDo h' then d :: interAttemptDelays h' else interAttemptDelays h'
  | EvDo _ _ :: h' => interAttemptDelays h'
  | EvRead _ :: h' => interAttemptDelays h'
  end.

End Whatsapp.

Export Whatsapp.

(** ** [cmd]: the [POST /call-ended] handler and its dedup cache *)

Module Cmd.

Definition cacheTTL : Z := 5 * Minute.

(** The parsed request body. *)
Record CallEndedRequest : Type := { CallID : string; Phone : string }.

(** An HTTP response carrying a [fiber.Map] of strings. *)
Record Response : Type := { Status : Z; JSON : gmap string string }.

(** The notification goroutine started after a successful reject. *)
Record NotifyJob : Type := { jobPhone : string; jobCallID : string }.

(** The process-wide state the handler touches: the [sync.Map] from cache
    key to insertion time, the goroutines sleeping until they delete a key
    (deadline and key), the [RejectCall] invocations made so far, and the
    notification goroutines started so far. *)
Record World : Type :=
  { callWebhookCache : gmap string Z;
    timers : list (Z * string);
    rejected : list (JID * string);
    notifications : list NotifyJob }.

Definition emptyWorld : World :=
  {| callWebhookCache := ∅; timers := []; rejected := []; notifications := [] |}.

(** [sync.Map.LoadOrStore]: one atomic step returning the value now in
    the map, whether it was already there, and the map afterwards. *)
Definition LoadOrStore (m : gmap string Z) (key : string) (value : Z)
    : Z * bool * gmap string Z :=
  match m !! key with
  | Some actual => (actual, true, m)
  | None => (value, false, <[key := value]> m)
  end.

(** [sync.Map.Delete]. *)
Definition Delete (m : gmap string Z) (key : string) : gmap string Z := delete key m.

(** What the handler calls in the [whatsapp] package and on the client. *)
Class CallCollaborators : Type :=
  { whatsappParseJID : string -> result JID;
    (** [waCli.RejectCall]; its outcome may depend on earlier invocations *)
    RejectCall : list (JID * string) -> JID -> string -> option error }.

Definition respond (status : Z) (json : gmap string string) : Response :=
  {| Status := status; JSON := json |}.

Definition StatusOK : Z := 200.
Definition StatusBadRequest : Z := 400.
Definition StatusInternalServerError : Z := 500.

(** The timers whose sleep is over at time [t] run their [Delete]. *)
Definition due (t : Z) (timer : Z * string) : bool := (fst timer <=? t)%Z.

Definition fireTimers (t : Z) (w : World) : World :=
  {| callWebhookCache :=
       fold_left (fun m timer => if due t timer then Delete m (snd timer) else m)
                 (timers w) (callWebhookCache w);
     timers := List.filter (fun timer => negb (due t timer)) (timers w);
     rejected := rejected w;
     notifications := notifications w |}.

Section Handler.
Context `{!Collaborators} `{!CallCollaborators}.

(** The handler body (lines 249-316), run at time [now] on the parsed
    body ([None] when [BodyParser] fails). *)
Definition callEnded (now : Z) (body : option CallEndedRequest) (w : World)
    : Response * World :=
  match body with
  | None => (respond StatusBadRequest {["error" := "Invalid request body"]}, w)
  | Some request =>
  if String.eqb (CallID request) EmptyString || String.eqb (Phone request) EmptyString
  then (respond StatusBadRequest {["error" := "call_id and Phone are required"]}, w)
  else
  match GetWaCli with
  | None =>
      (respond StatusInternalServerError
         {["error" := "WhatsApp client not initialized"]}, w)
  | Some waCli =>
  match whatsappParseJID (Phone request) with
  | Err err =>
      (respond StatusBadRequest {["error" := "Invalid Phone: " +:+ Error err]}, w)
  | Ok jid =>
      let cacheKey := CallID request +:+ ":" +:+ Phone request in
      let '(_, exists_, cache) := LoadOrStore (callWebhookCache w) cacheKey now in
      if exists_ then
        (respond StatusOK
           (<["status" := "call rejected (already processed)"]>
            (<["call_id" := CallID request]> {["Phone" := Phone request]})),
         {| callWebhookCache := cache; timers := timers w;
            rejected := rejected w; notifications := notifications w |})
      else
        let timers' := (timers w ++ [(now + cacheTTL, cacheKey)])%list in
        let err := RejectCall (rejected w) jid (CallID request) in
        let rejected' := (rejected w ++ [(jid, CallID request)])%list in
        match err with
        | Some err =>
            (respond StatusInternalServerError
               {["error" := "Failed to reject call: " +:+ Error err]},
             {| callWebhookCache := Delete cache cacheKey; timers := timers';
                rejected := rejected'; notifications := notifications w |})
        | None =>
            let notifications' :=
              if (0 <? Z.of_nat (length (WhatsappWebhook config)))%Z
              then (notifications w ++
                      [{| jobPhone := Phone request; jobCallID := CallID request |}])%list
              else notifications w in
            (respond StatusOK
               (<["status" := "call rejected"]>
                (<["call_id" := CallID request]> {["Phone" := Phone request]})),
             {| callWebhookCache := cache; timers := timers';
                rejected := rejected'; notifications := notifications' |})
        end
  end end end.

(** A request arriving at time [now]: the timers that are due have run. *)
Definition observe (now : Z) (body : option CallEndedRequest) (w : World)
    : Response * World :=
  callEnded now body (fireTimers now w).

(** The notification goroutine (lines 294-308), started at time [now]. *)
Definition callRejectedPayload (job : NotifyJob) (now : Z) : Payload :=
  <["SenderNumber" := VString (jobPhone job)]>
  (<["Call_Id" := VString (jobCallID job)]>
   (<["Type" := VString "call_received"]>
    (<["Status_Call" := VString "rejected"]>
     (<["timestamp" := VString (formatRFC3339 now)]>
      {["IsGroup" := VBool false]})))).

Definition runNotify `{!Transport} (job : NotifyJob) (now : Z) : IO unit :=
  notifyLoop (WhatsappWebhookSecret config) (callRejectedPayload job now)
             (WhatsappWebhook config).

End Handler.

Definition alreadyProcessed (r : Response) : bool :=
  bool_decide (JSON r !! "status" = Some "call rejected (already processed)").

End Cmd.

Export Cmd.

(** ** A concrete environment, for running the code on examples *)

Module Sample.

Definition quote : string := String (ascii_of_nat 34) EmptyString.

(** One field in the text format of a protobuf message. *)
Definition field (name text : string) : string :=
  name +:+ ":" +:+ quote +:+ text +:+ quote +:+ " ".

Definition group {A} (name : string) (o : option A) (inside : A -> string) : string :=
  match o with
  | Some m => name +:+ ":{" +:+ inside m +:+ "} "
  | None => EmptyString
  end.

(** The populated fields of a message, by name, with their text. *)
Definition renderMessage (m : Message) : string :=
  (if nonEmpty (Conversation m) then field "conversation" (Conversation m) else EmptyString)
  +:+ group "extendedTextMessage" (ExtendedText m)
        (fun e => field "text" (extText e) +:+ field "title" (extTitle e)
                  +:+ field "description" (extDescription e))
  +:+ group "audioMessage" (Audio m) (fun a => field "URL" (audioURL a))
  +:+ group "imageMessage" (Image m)
        (fun i => field "URL" (imageURL i) +:+ field "caption" (imageCaption i))
  +:+ group "videoMessage" (Video m)
        (fun v => field "URL" (videoURL v) +:+ field "caption" (videoCaption v))
  +:+ group "documentMessage" (Document m)
        (fun d => field "URL" (documentURL d) +:+ field "fileName" (documentFileName d))
  +:+ group "stickerMessage" (Sticker m) (fun s => field "URL" (stickerURL s))
  +:+ group "contactMessage" (Contact m)
        (fun c => field "displayName" (contactDisplayName c) +:+ field "vcard" (contactVcard c))
  +:+ group "contactsArrayMessage" (ContactsArray m)
        (fun cs => String.concat EmptyString
           (map (fun c => "contacts:{" +:+ field "displayName" (contactDisplayName c)
                          +:+ field "vcard" (contactVcard c) +:+ "} ")
                (contactsArray cs)))
  +:+ group "locationMessage" (Location m) (fun _ => EmptyString)
  +:+ group "liveLocationMessage" (LiveLocation m) (fun _ => EmptyString)
  +:+ group "listMessage" (List m) (fun l => field "title" (listTitle l))
  +:+ group "orderMessage" (Order m) (fun o => field "orderID" (orderID o))
  +:+ group "paymentInviteMessage" (PaymentInvite m) (fun _ => EmptyString)
  +:+ group "pollCreationMessageV3" (PollCreationV3 m) (fun p => field "name" (pollName p))
  +:+ group "pollCreationMessageV4" (PollCreationV4 m) (fun p => field "name" (pollName p))
  +:+ group "pollCreationMessageV5" (PollCreationV5 m) (fun p => field "name" (pollName p))
  +:+ group "pollUpdateMessage" (PollUpdate m)
        (fun p => field "id" (GetID (pollCreationMessageKey p)))
  +:+ group "reactionMessage" (Reaction m) (fun r => field "text" (reactionText r)).

Definition isDigit (c : ascii) : bool :=
  let n := nat_of_ascii c in (48 <=? n)%nat && (n <=? 57)%nat.

Fixpoint digitsOf (s : string) : string :=
  match s with
  | EmptyString => EmptyString
  | String c s' => if isDigit c then String c (digitsOf s') else digitsOf s'
  end.

Definition mediaURL (d : Downloadable) : string :=
  match d with
  | DAudio m => audioURL m
  | DDocument m => documentURL m
  | DImage m => imageURL m
  | DSticker m => stickerURL m
  | DVideo m => videoURL m
  end.

Definition sampleConfig : Config :=
  {| WhatsappWebhook := ["http://a.example/hook"; "http://b.example/hook"];
     WhatsappWebhookSecret := "secret";
     AppPort := "3000";
     PathMedia := "statics/media" |}.

(** Text is resolved from the extended text when there is one, else from
    the conversation; a chat identity parses unless it has a space; a media
    download fails when the reference has no URL; the group lookup knows
    one group. *)
Definition sampleCollaborators : Collaborators :=
  {| config := sampleConfig;
     buildEventMessage := fun evt =>
       {| msgID := ID (Info evt);
          msgText := match ExtendedText (Msg evt) with
                     | Some e => extText e
                     | None => Conversation (Msg evt)
                     end;
          msgRepliedId := EmptyString;
          msgQuotedMessage := EmptyString |};
     buildEventReaction := fun evt =>
       {| reactID := EmptyString;
          reactMessage := match Reaction (Msg evt) with
                          | Some r => reactionText r
                          | None => EmptyString
                          end |};
     buildForwarded := fun _ => false;
     fmtMessage := renderMessage;
     formatRFC3339 := fun t => fmt_d t;
     ParseJID := fun s =>
       if Contains s " " then Err (ExternalError "malformed JID")
       else Ok {| jidString := s |};
     GetGroupName := fun jid =>
       if String.eqb (jidString jid) "120363@g.us" then Ok "Family"
       else Err (ExternalError "group not found");
     GetWaCli := Some {| StoreID := Some {| jidString := "5511999@s.whatsapp.net" |} |};
     extractPhoneNumber := digitsOf;
     ExtractMedia := fun dir d =>
       if String.eqb (mediaURL d) EmptyString then Err (ExternalError "no media URL")
       else Ok (dir +:+ "/" +:+ digitsOf (mediaURL d));
     contactsFindAll := fun _ => [] |}.

(** A network on which the first subscriber refuses every connection, so
    that nothing of the body is read, and every other host takes the whole
    request and answers. *)
Definition sampleTransport : Transport :=
  {| jsonMarshal := fun _ => Ok "{}";
     urlParseError := fun url =>
       if HasPrefix url "http" then None
       else Some (ExternalError "unsupported protocol scheme");
     getMessageDigestOrSignature := fun _ _ => Ok "c0ffee";
     clientDo := fun _ req =>
       if String.eqb (URL req) "http://a.example/hook"
       then Some (ExternalError "connection refused")
       else None;
     clientRead := fun _ req =>
       if String.eqb (URL req) "http://a.example/hook"
       then 0%nat
       else Z.to_nat (ContentLength req) |}.

(** A network that refuses the first two connections and answers from the
    third request on. *)
Definition flakyTransport : Transport :=
  {| jsonMarshal := fun _ => Ok "{}";
     urlParseError := fun _ => None;
     getMessageDigestOrSignature := fun _ _ => Ok "c0ffee";
     clientDo := fun h _ =>
       if (attempts h <? 2)%nat then Some (ExternalError "connection refused") else None;
     clientRead := fun h req =>
       if (attempts h <? 2)%nat then 0%nat else Z.to_nat (ContentLength req) |}.

(** A client on which every call can be rejected, and one on which none can. *)
Definition sampleCalls : CallCollaborators :=
  {| whatsappParseJID := fun phone => Ok {| jidString := digitsOf phone +:+ "@s.whatsapp.net" |};
     RejectCall := fun _ _ _ => None |}.

Definition failingCalls : CallCollaborators :=
  {| whatsappParseJID := fun phone => Ok {| jidString := digitsOf phone +:+ "@s.whatsapp.net" |};
     RejectCall := fun _ _ _ => Some (ExternalError "websocket not connected") |}.

Definition sampleInfo (chat type : string) : MessageInfo :=
  {| Chat := {| jidString := chat |};
     SourceString := chat;
     ID := "3EB0A1";
     Type_ := type;
     PushName := "Ana";
     Timestamp := 1700000000 |}.

Definition textEvent (chat type text : string) : Event :=
  {| Info := sampleInfo chat type;
     Msg := {| Conversation := text; ExtendedText := None; Audio := None;
               Image := None; Video := None; Document := None; Sticker := None;
               Contact := None; ContactsArray := None; Location := None;
               LiveLocation := None; List := None; Order := None;
               PaymentInvite := None; PollCreationV3 := None; PollCreationV4 := None;
               PollCreationV5 := None; PollUpdate := None; Reaction := None |};
     IsViewOnce := false |}.

Definition imageEvent (chat type url caption : string) : Event :=
  {| Info := sampleInfo chat type;
     Msg := {| Conversation := EmptyString; ExtendedText := None; Audio := None;
               Image := Some {| imageURL := url; imageCaption := caption |};
               Video := None; Document := None; Sticker := None;
               Contact := None; ContactsArray := None; Location := None;
               LiveLocation := None; List := None; Order := None;
               PaymentInvite := None; PollCreationV3 := None; PollCreationV4 := None;
               PollCreationV5 := None; PollUpdate := None; Reaction := None |};
     IsViewOnce := false |}.

Definition callRequest : CallEndedRequest := {| CallID := "ABC"; Phone := "+1555" |}.

(** The request both sample networks receive for an empty payload. *)
Definition sampleRequest (url : string) : Request :=
  {| Method := "POST"; URL := url; ContentLength := 2;
     Header := <["X-Hub-Signature-256" := "sha256=c0ffee"]>
               (<["Content-Type" := "application/json"]> ∅) |}.

End Sample.

(** ** Vocabulary of the statements *)

Module Vocabulary.

(** The history left by rounds that all failed: per round what the request
    read of its body, the request with its error and a sleep, the sleep
    doubling from [d]. *)
Fixpoint failedRounds (req : Request) (rounds : list (string * error)) (d : Z)
    : list NetEvent :=
  match rounds with
  | [] => []
  | (data, e) :: rounds' =>
      EvRead data :: EvDo req (Some e) :: EvSleep d
        :: failedRounds req rounds' (wrap64 (d * 2))
  end.

(** What those rounds read, put together. *)
Fixpoint readIn (rounds : list (string * error)) : string :=
  match rounds with
  | [] => EmptyString
  | (data, _) :: rounds' => data +:+ readIn rounds'
  end.

(** The value of the loop variable [err] after those rounds. *)
Definition lastErr (errs : list error) (err : option error) : option error :=
  match last errs with
  | Some e => Some e
  | None => err
  end.

Definition seconds (n : Z) : Z := n * Second.

(** The dedup guard of the call-ended handler: the [LoadOrStore] of line
    273 read as its answer to the question whether the caller is the first
    observer of [key], with the cache it leaves. *)
Definition Guard (m : gmap string Z) (key : string) (now : Z) : bool * gmap string Z :=
  let '(_, exists_, m') := LoadOrStore m key now in (negb exists_, m').

Definition cacheKeyOf (request : CallEndedRequest) : string :=
  CallID request +:+ ":" +:+ Phone request.

(** The tagged union the protocol intends: one populated variant. *)
Inductive Variant : Type :=
| VarText (s : string)
| VarExtendedText (m : ExtendedTextMessage)
| VarAudio (m : AudioMessage)
| VarImage (m : ImageMessage)
| VarVideo (m : VideoMessage)
| VarDocument (m : DocumentMessage)
| VarSticker (m : StickerMessage)
| VarContact (m : ContactMessage)
| VarContactsArray (m : ContactsArrayMessage)
| VarLocation (m : LocationMessage)
| VarLiveLocation (m : LiveLocationMessage)
| VarList (m : ListMessage)
| VarOrder (m : OrderMessage)
| VarPaymentInvite (m : PaymentInviteMessage)
| VarPollCreationV3 (m : PollCreationMessage)
| VarPollCreationV4 (m : PollCreationMessage)
| VarPollCreationV5 (m : PollCreationMessage)
| VarPollUpdate (m : PollUpdateMessage)
| VarReaction (m : ReactionMessage).

Definition ofVariant (v : Variant) : Message :=
  {| Conversation := match v with VarText s => s | _ => EmptyString end;
     ExtendedText := match v with VarExtendedText m => Some m | _ => None end;
     Audio := match v with VarAudio m => Some m | _ => None end;
     Image := match v with VarImage m => Some m | _ => None end;
     Video := match v with VarVideo m => Some m | _ => None end;
     Document := match v with VarDocument m => Some m | _ => None end;
     Sticker := match v with VarSticker m => Some m | _ => None end;
     Contact := match v with VarContact m => Some m | _ => None end;
     ContactsArray := match v with VarContactsArray m => Some m | _ => None end;
     Location := match v with VarLocation m => Some m | _ => None end;
     LiveLocation := match v with VarLiveLocation m => Some m | _ => None end;
     List := match v with VarList m => Some m | _ => None end;
     Order := match v with VarOrder m => Some m | _ => None end;
     PaymentInvite := match v with VarPaymentInvite m => Some m | _ => None end;
     PollCreationV3 := match v with VarPollCreationV3 m => Some m | _ => None end;
     PollCreationV4 := match v with VarPollCreationV4 m => Some m | _ => None end;
     PollCreationV5 := match v with VarPollCreationV5 m => Some m | _ => None end;
     PollUpdate := match v with VarPollUpdate m => Some m | _ => None end;
     Reaction := match v with VarReaction m => Some m | _ => None end |}.

(** The media references of an event, in the order the builder downloads
    them. *)
Definition downloads (m : Message) : list Downloadable :=
  (option_list (DAudio <$> Audio m) ++ option_list (DDocument <$> Document m)
   ++ option_list (DImage <$> Image m) ++ option_list (DSticker <$> Sticker m)
   ++ option_list (DVideo <$> Video m))%list.

(** One download step and one pass-through step of [attachContent]. *)
Definition download `{!Collaborators} {A} (key what : string) (ref : A -> Downloadable)
    (o : option A) (body : Payload) : result Payload :=
  match o with
  | Some m =>
      match ExtractMedia (PathMedia config) (ref m) with
      | Err err => Err (WebhookError ("Failed to download " +:+ what +:+ ": " +:+ Error err))
      | Ok path => Ok (<[key := VString path]> body)
      end
  | None => Ok body
  end.

Definition passThrough {A} (key : string) (val : A -> value) (o : option A)
    (body : Payload) : Payload :=
  match o with
  | Some m => <[key := val m]> body
  | None => body
  end.

Definition extractFails `{!Collaborators} (d : Downloadable) : bool :=
  match ExtractMedia (PathMedia config) d with Err _ => true | Ok _ => false end.

(** Some media reference of the event cannot be extracted. *)
Definition mediaFails `{!Collaborators} (evt : Event) : bool :=
  existsb extractFails (downloads (Msg evt)).

(** Keys of a payload. *)
Definition mediaKeys : list string := ["audio"; "document"; "image"; "sticker"; "video"].

Definition contentKeys : list string :=
  (mediaKeys ++ ["contact"; "list"; "live_location"; "location"; "order"])%list.

Definition present (body : Payload) (key : string) : bool :=
  match body !! key with Some _ => true | None => false end.

Definition presentKeys (body : Payload) (keys : list string) : list string :=
  List.filter (present body) keys.

(** The kinds that go with a media or content key. *)
Definition kindsOfKey (key : string) : list string :=
  if String.eqb key "audio" then ["voice_message"; "audio_message"]
  else if String.eqb key "document" then ["document_message"]
  else if String.eqb key "image" then ["image_message"]
  else if String.eqb key "sticker" then ["sticker_message"]
  else if String.eqb key "video" then ["video_message"]
  else if String.eqb key "contact" then ["contact_message"]
  else if String.eqb key "list" then ["list_message"]
  else if String.eqb key "live_location" then ["live_location_message"]
  else if String.eqb key "location" then ["location_message"]
  else if String.eqb key "order" then ["order"]
  else [].

Definition consistent (kind key : string) : bool :=
  existsb (String.eqb kind) (kindsOfKey key).

(** No rule of the classifier before the text rule applies. *)
Definition reachesTextRule `{!Collaborators} (evt : Event) : bool :=
  let m := Msg evt in
  negb (notNil (Audio m) || notNil (Image m) || notNil (Video m) || notNil (Document m)
        || notNil (Sticker m) || notNil (Contact m) || multiContactInMedia evt
        || notNil (Location m) || notNil (LiveLocation m) || notNil (List m)
        || notNil (Order m) || notNil (PaymentInvite m) || notNil (PollCreationV3 m)
        || notNil (PollCreationV4 m) || notNil (PollCreationV5 m)
        || notNil (PollUpdate m) || notNil (Reaction m)).

End Vocabulary.

Export Vocabulary.

(** ** Go library pieces used by the media endpoints *)

Module GoText.

(** [os.IsPathSeparator] on the platforms the service is built for. *)
Definition isPathSeparator (c : ascii) : bool := Ascii.eqb c "/".

(** The backwards scan of [filepath.Ext], read from the front: what the
    part of the path after the current position decides. [Some e] when that
    part has a dot or a separator (the last of them decides, and [e] is the
    extension or empty), [None] when it has neither. *)
Fixpoint extScan (path : string) : option string :=
  match path with
  | EmptyString => None
  | String c rest =>
      match extScan rest with
      | Some e => Some e
      | None =>
          if Ascii.eqb c "." then Some (String c rest)
          else if isPathSeparator c then Some EmptyString
          else None
      end
  end.

(** [filepath.Ext]. *)
Definition Ext (path : string) : string := default EmptyString (extScan path).

(** [strings.TrimPrefix]. *)
Definition TrimPrefix (s prefix : string) : string :=
  if HasPrefix s prefix
  then substring (String.length prefix) (String.length s - String.length prefix) s
  else s.

Definition isASCIIByte (c : ascii) : bool := (nat_of_ascii c <? 128)%nat.

Fixpoint isASCII (s : string) : bool :=
  match s with
  | EmptyString => true
  | String c s' => isASCIIByte c && isASCII s'
  end.

Definition lowerByte (c : ascii) : ascii :=
  let n := nat_of_ascii c in
  if (65 <=? n)%nat && (n <=? 90)%nat then ascii_of_nat (n + 32) else c.

Fixpoint mapBytes (f : ascii -> ascii) (s : string) : string :=
  match s with
  | EmptyString => EmptyString
  | String c s' => String (f c) (mapBytes f s')
  end.

(** What the standard library does outside ASCII, and the content sniffer. *)
Class Library : Type :=
  { (** [strings.Map(unicode.ToLower, s)] *)
    unicodeToLower : string -> string;
    (** [http.DetectContentType] *)
    DetectContentType : string -> string }.

(** [strings.ToLower]: bytes are mapped one by one when the string is ASCII. *)
Definition ToLower `{!Library} (s : string) : string :=
  if isASCII s then mapBytes lowerByte s else unicodeToLower s.

(** The text before the first [sep] and, when there is one, the text after
    it: [strings.SplitN(s, sep, 2)] for a one-character separator, and
    [strings.Split(s, sep)[0]] in the first component. *)
Fixpoint cut (sep : ascii) (s : string) : string * option string :=
  match s with
  | EmptyString => (EmptyString, None)
  | String c s' =>
      if Ascii.eqb c sep then (EmptyString, Some s')
      else let '(before, after) := cut sep s' in (String c before, after)
  end.

(** The verb [%x] on a byte slice: two lower-case hexadecimal digits per
    byte. *)
Definition hexDigit (n : nat) : ascii :=
  if (n <? 10)%nat then ascii_of_nat (48 + n) else ascii_of_nat (87 + n).

Fixpoint fmt_x (bytes : string) : string :=
  match bytes with
  | EmptyString => EmptyString
  | String c rest =>
      String (hexDigit (nat_of_ascii c / 16))
        (String (hexDigit (nat_of_ascii c mod 16)) (fmt_x rest))
  end.

End GoText.

Export GoText.

(** ** [cmd]: MIME types of the media endpoints, and [getPollOptionTitle] *)

Module Media.

Section Mime.
Context `{!Library}.

Definition determineMimeType (filename : string) : string :=
  let ext := ToLower (TrimPrefix (Ext filename) ".") in
  if String.eqb ext "mp3" then "audio/mpeg"
  else if String.eqb ext "ogg" then "audio/ogg"
  else if String.eqb ext "wav" then "audio/wav"
  else if String.eqb ext "aac" then "audio/aac"
  else if String.eqb ext "opus" then "audio/opus"
  else if String.eqb ext "mp4" then "video/mp4"
  else if String.eqb ext "jpg" || String.eqb ext "jpeg" then "image/jpeg"
  else if String.eqb ext "png" then "image/png"
  else if String.eqb ext "gif" then "image/gif"
  else if String.eqb ext "pdf" then "application/pdf"
  else if String.eqb ext "doc" || String.eqb ext "docx" then "application/msword"
  else if String.eqb ext "xls" || String.eqb ext "xlsx" then "application/vnd.ms-excel"
  else EmptyString.

(** The [switch] of the audio endpoint (lines 373-384): the MIME type the
    audio is sent with, or nothing when the format is refused with a 400. *)
Definition normalizeAudioMime (mimeType : string) : option string :=
  if String.eqb mimeType "audio/opus" || String.eqb mimeType "audio/ogg" then Some "audio/ogg"
  else if String.eqb mimeType "audio/mpeg" || String.eqb mimeType "audio/mp3"
       then Some "audio/mpeg"
  else if String.eqb mimeType "audio/wav" then Some "audio/wav"
  else if String.eqb mimeType "audio/aac" then Some "audio/aac"
  else None.

(** Where the audio endpoint takes its bytes from (lines 348-371). *)
Inductive MediaSource : Type :=
| Inline (mimeType base64 : string)
| InvalidInline
| FromFile (path : string).

Definition audioMediaSource (media : string) : MediaSource :=
  if HasPrefix media "data:audio/" || Contains media "," then
    match cut "," media with
    | (head, Some base64) => Inline (TrimPrefix (fst (cut ";" head)) "data:") base64
    | (_, None) => InvalidInline
    end
  else FromFile media.

(** The MIME type of a file that was read (lines 366-370). *)
Definition fileMimeType (path data : string) : string :=
  let mimeType := determineMimeType path in
  if String.eqb mimeType EmptyString then DetectContentType data else mimeType.

End Mime.

(** [getPollOptionTitle] of [webhook.go]; the context and the event are not
    used. *)
Definition getPollOptionTitle (option : string) : string := "Option_" +:+ fmt_x option.

End Media.

Export Media.

(** ** [cmd]: the send-message, delete-message and mark-read handlers *)

Module Rest.

(** The parsed bodies of the three requests. *)
Record SendMessageRequest : Type :=
  { smPhone : string; smJid : string; smMessage : string; smReplyMessageID : string }.

Record DeleteMessageRequest : Type := { dmPhone : string; dmMessageID : string }.

Record MarkReadRequest : Type :=
  { mrPhone : string; mrMessageID : string; mrSender : string; mrPlayed : bool }.

(** The text message [/send/message] builds: an extended text, with a
    context when it quotes; the quoted message itself is always the empty
    conversation. *)
Record ContextInfo : Type :=
  { StanzaID : string; Participant : string; QuotedConversation : string }.

Record OutgoingText : Type := { outText : string; outContextInfo : option ContextInfo }.

Inductive ReceiptType : Type :=
| ReceiptTypeRead
| ReceiptTypePlayed.

(** What a handler asks of the client, in order. *)
Inductive ClientCall : Type :=
| CallSendMessage (to : JID) (msg : OutgoingText)
| CallRevokeMessage (chat : JID) (messageID : string)
| CallMarkRead (ids : list string) (timestamp : Z) (chat sender : JID)
               (receipt : list ReceiptType).

(** The client methods the three handlers call. *)
Class ClientAPI : Type :=
  { IsConnected : bool;
    IsLoggedIn : bool;
    SendMessage : JID -> OutgoingText -> option error;
    RevokeMessage : JID -> string -> option error;
    MarkRead : list string -> Z -> JID -> JID -> list ReceiptType -> option error }.

(** The zero value of [types.JID], whose string form is empty. *)
Definition zeroJID : JID := {| jidString := EmptyString |}.

Definition errorResponse (status : Z) (message : string) : Response :=
  respond status {["error" := message]}.

Definition statusResponse (message : string) : Response :=
  respond StatusOK {["status" := message]}.

Section Handlers.
Context `{!Collaborators} `{!CallCollaborators} `{!ClientAPI}.

(** [POST /send/message] (lines 117-193). *)
Definition sendMessage (body : option SendMessageRequest) : Response * list ClientCall :=
  match body with
  | None => (errorResponse StatusBadRequest "Corpo da requisição inválido", [])
  | Some request =>
  if String.eqb (smPhone request) EmptyString && String.eqb (smJid request) EmptyString
  then (errorResponse StatusBadRequest "Phone ou Jid é obrigatório", [])
  else if String.eqb (smMessage request) EmptyString
  then (errorResponse StatusBadRequest "Message é obrigatório", [])
  else
  match GetWaCli with
  | None => (errorResponse StatusInternalServerError "Cliente WhatsApp não inicializado", [])
  | Some waCli =>
  if negb IsConnected || negb IsLoggedIn
  then (errorResponse StatusInternalServerError
          "Cliente WhatsApp não conectado ou logado", [])
  else
  let parsed :=
    if nonEmpty (smJid request) then
      match whatsappParseJID (smJid request) with
      | Err err => inl (errorResponse StatusBadRequest ("Jid inválido: " +:+ Error err))
      | Ok jid => inr jid
      end
    else
      match whatsappParseJID (smPhone request) with
      | Err err => inl (errorResponse StatusBadRequest ("Phone inválido: " +:+ Error err))
      | Ok jid => inr jid
      end in
  match parsed with
  | inl response => (response, [])
  | inr jid =>
  let quoted : Response + option ContextInfo :=
    if nonEmpty (smReplyMessageID request) then
      let withParticipant participant :=
        inr (Some {| StanzaID := smReplyMessageID request;
                     Participant := participant;
                     QuotedConversation := EmptyString |}) in
      if Contains (jidString jid) "@g.us" then
        if String.eqb (smPhone request) EmptyString
        then inl (errorResponse StatusBadRequest
                    "Phone é obrigatório para citações em grupos")
        else
          match whatsappParseJID (smPhone request) with
          | Err err =>
              inl (errorResponse StatusBadRequest
                     ("Phone inválido para citação: " +:+ Error err))
          | Ok senderJID => withParticipant (jidString senderJID)
          end
      else withParticipant (jidString jid)
    else inr None in
  match quoted with
  | inl response => (response, [])
  | inr context =>
      let msg := {| outText := smMessage request; outContextInfo := context |} in
      match SendMessage jid msg with
      | Some err =>
          (errorResponse StatusInternalServerError
             ("Falha ao enviar mensagem: " +:+ Error err),
           [CallSendMessage jid msg])
      | None => (statusResponse "Mensagem enviada", [CallSendMessage jid msg])
      end
  end end end end.

(** [POST /chat/delete-message] (lines 637-676). *)
Definition deleteMessage (body : option DeleteMessageRequest)
    : Response * list ClientCall :=
  match body with
  | None => (errorResponse StatusBadRequest "Invalid request body", [])
  | Some request =>
  if String.eqb (dmPhone request) EmptyString || String.eqb (dmMessageID request) EmptyString
  then (errorResponse StatusBadRequest "Phone and message_id are required", [])
  else
  match GetWaCli with
  | None => (errorResponse StatusInternalServerError "WhatsApp client not initialized", [])
  | Some waCli =>
  if negb IsConnected || negb IsLoggedIn
  then (errorResponse StatusInternalServerError
          "WhatsApp client not connected or logged in", [])
  else
  match whatsappParseJID (dmPhone request) with
  | Err err => (errorResponse StatusBadRequest ("Invalid Phone: " +:+ Error err), [])
  | Ok jid =>
      let messageID := dmMessageID request in
      match RevokeMessage jid messageID with
      | Some err =>
          if Contains (Error err) "too old" || Contains (Error err) "not allowed"
          then (errorResponse StatusBadRequest
                  "Message deletion not allowed: likely too old or not sent by you",
                [CallRevokeMessage jid messageID])
          else (errorResponse StatusInternalServerError
                  ("Failed to revoke message: " +:+ Error err),
                [CallRevokeMessage jid messageID])
      | None =>
          (statusResponse ("Message " +:+ messageID +:+ " deleted"),
           [CallRevokeMessage jid messageID])
      end
  end end end.

(** [POST /chat/mark-read] (lines 678-736), run at time [now]. *)
Definition markRead (now : Z) (body : option MarkReadRequest)
    : Response * list ClientCall :=
  match body with
  | None => (errorResponse StatusBadRequest "Invalid request body", [])
  | Some request =>
  if String.eqb (mrPhone request) EmptyString || String.eqb (mrMessageID request) EmptyString
  then (errorResponse StatusBadRequest "Phone and message_id are required", [])
  else
  match GetWaCli with
  | None => (errorResponse StatusInternalServerError "WhatsApp client not initialized", [])
  | Some waCli =>
  if negb IsConnected || negb IsLoggedIn
  then (errorResponse StatusInternalServerError
          "WhatsApp client not connected or logged in", [])
  else
  match whatsappParseJID (mrPhone request) with
  | Err err => (errorResponse StatusBadRequest ("Invalid Phone: " +:+ Error err), [])
  | Ok chatJID =>
  let sender : Response + JID :=
    if nonEmpty (mrSender request) then
      match whatsappParseJID (mrSender request) with
      | Err err => inl (errorResponse StatusBadRequest ("Invalid sender JID: " +:+ Error err))
      | Ok senderJID => inr senderJID
      end
    else if Contains (jidString chatJID) "@g.us"
    then inl (errorResponse StatusBadRequest "Sender is required for group chats")
    else inr zeroJID in
  match sender with
  | inl response => (response, [])
  | inr senderJID =>
      let messageID := mrMessageID request in
      let timestamp := now in
      let receiptTypeExtra :=
        if mrPlayed request then [ReceiptTypePlayed] else [ReceiptTypeRead] in
      let call := CallMarkRead [messageID] timestamp chatJID senderJID receiptTypeExtra in
      match MarkRead [messageID] timestamp chatJID senderJID receiptTypeExtra with
      | Some err =>
          (errorResponse StatusInternalServerError
             ("Failed to mark message as read: " +:+ Error err), [call])
      | None => (statusResponse ("Message " +:+ messageID +:+ " marked as read"), [call])
      end
  end end end end.

End Handlers.

End Rest.

Export Rest.

(** ** Further concrete environments *)

Module Fixtures.

(** A network on which every request is answered. *)
Definition answeringTransport : Transport :=
  {| jsonMarshal := fun _ => Ok "{}";
     urlParseError := fun _ => None;
     getMessageDigestOrSignature := fun _ _ => Ok "c0ffee";
     clientDo := fun _ _ => None;
     clientRead := fun _ req => Z.to_nat (ContentLength req) |}.

(** A network on which every request is sent out in full and then times
    out waiting for the answer. *)
Definition silentTransport : Transport :=
  {| jsonMarshal := fun _ => Ok "{}";
     urlParseError := fun _ => None;
     getMessageDigestOrSignature := fun _ _ => Ok "c0ffee";
     clientDo := fun _ _ => Some (ExternalError "context deadline exceeded");
     clientRead := fun _ req => Z.to_nat (ContentLength req) |}.

(** An event with exactly the given variant. *)
Definition variantEvent (chat type : string) (v : Variant) : Event :=
  {| Info := Sample.sampleInfo chat type; Msg := ofVariant v; IsViewOnce := false |}.

Definition voiceNote : AudioMessage :=
  {| audioURL := "https://mmg.example/2"; audioPTT := true |}.

Definition twoContacts : ContactsArrayMessage :=
  {| contactsArray := [{| contactDisplayName := "Ana"; contactVcard := "BEGIN:VCARD" |};
                       {| contactDisplayName := "Bia"; contactVcard := "BEGIN:VCARD" |}] |}.

(** A client on which the first reject-call fails and every later one
    succeeds. *)
Definition recoveringCalls : CallCollaborators :=
  {| whatsappParseJID := fun phone =>
       Ok {| jidString := Sample.digitsOf phone +:+ "@s.whatsapp.net" |};
     RejectCall := fun log _ _ =>
       match log with
       | [] => Some (ExternalError "websocket not connected")
       | _ :: _ => None
       end |}.

(** A standard library that leaves non-ASCII text alone and sniffs nothing. *)
Definition plainLibrary : Library :=
  {| unicodeToLower := fun s => s;
     DetectContentType := fun _ => "application/octet-stream" |}.

(** A parser that keeps an identity with a domain and puts a bare phone
    number in the user domain; a connected client that accepts everything
    except revoking the message called OLD. *)
Definition restCalls : CallCollaborators :=
  {| whatsappParseJID := fun s =>
       if Contains s "@" then Ok {| jidString := s |}
       else Ok {| jidString := Sample.digitsOf s +:+ "@s.whatsapp.net" |};
     RejectCall := fun _ _ _ => None |}.

Definition sampleClient : ClientAPI :=
  {| IsConnected := true;
     IsLoggedIn := true;
     SendMessage := fun _ _ => None;
     RevokeMessage := fun _ messageID =>
       if String.eqb messageID "OLD" then Some (ExternalError "message too old") else None;
     MarkRead := fun _ _ _ _ _ => None |}.

Definition groupReply : SendMessageRequest :=
  {| smPhone := "+55 11 888"; smJid := "120363@g.us"; smMessage := "ok";
     smReplyMessageID := "3EB0A1" |}.

End Fixtures.

Export Fixtures.

(** ** Further vocabulary: histories, keys and kinds *)

Module Terms.

(** The requests of a history, in order, and how many of them failed. *)
Fixpoint requests (h : list NetEvent) : list Request :=
  match h with
  | [] => []
  | EvDo req _ :: h' => req :: requests h'
  | EvSleep _ :: h' => requests h'
  | EvRead _ :: h' => requests h'
  end.

(** What the requests returned, in order. *)
Fixpoint outcomes (h : list NetEvent) : list (option error) :=
  match h with
  | [] => []
  | EvDo _ err :: h' => err :: outcomes h'
  | _ :: h' => outcomes h'
  end.

(** What each request read of the body, in order, and all of it together. *)
Fixpoint reads (h : list NetEvent) : list string :=
  match h with
  | [] => []
  | EvRead data :: h' => data :: reads h'
  | _ :: h' => reads h'
  end.

Definition bytesRead (h : list NetEvent) : string := foldr String.append EmptyString (reads h).

(** A history without its reads: the requests and the sleeps. *)
Fixpoint callsOf (h : list NetEvent) : list NetEvent :=
  match h with
  | [] => []
  | EvRead _ :: h' => callsOf h'
  | e :: h' => e :: callsOf h'
  end.

(** The history of rounds that all failed, without the reads. *)
Fixpoint failedCalls (req : Request) (errs : list error) (d : Z) : list NetEvent :=
  match errs with
  | [] => []
  | e :: errs' => EvDo req (Some e) :: EvSleep d :: failedCalls req errs' (wrap64 (d * 2))
  end.

(** How often a URL occurs in a list, and how often it was requested. *)
Fixpoint occurrences (url : string) (urls : list string) : nat :=
  match urls with
  | [] => 0%nat
  | u :: urls' => ((if String.eqb url u then 1 else 0) + occurrences url urls')%nat
  end.

Definition requestsTo (url : string) (h : list NetEvent) : nat :=
  occurrences url (attemptedURLs h).

Fixpoint failures (h : list NetEvent) : nat :=
  match h with
  | [] => 0%nat
  | EvDo _ (Some _) :: h' => S (failures h')
  | _ :: h' => failures h'
  end.

(** The sleeps of the retry policy, in order. *)
Definition backoffSchedule : list Z :=
  [seconds 1; seconds 2; seconds 4; seconds 8; seconds 16].

Definition totalSleep (h : list NetEvent) : Z := foldr Z.add 0 (sleeps h).

(** The kinds the classifier can answer. *)
Definition messageKinds : list string :=
  ["voice_message"; "audio_message"; "image_message"; "video_message";
   "document_message"; "sticker_message"; "contact_message"; "location_message";
   "live_location_message"; "list_message"; "order"; "payment"; "poll_message";
   "reaction_message"; "link_message"; "text_message"; "unknown"].

(** The kind that goes with a variant when it is the only one populated and
    the multi-contact rule does not apply. *)
Definition kindOfVariant (v : Variant) (text : string) : string :=
  match v with
  | VarText s =>
      if nonEmpty s
      then if urlRegexMatchString text then "link_message" else "text_message"
      else "unknown"
  | VarExtendedText _ => if urlRegexMatchString text then "link_message" else "text_message"
  | VarAudio m => if audioPTT m then "voice_message" else "audio_message"
  | VarImage _ => "image_message"
  | VarVideo _ => "video_message"
  | VarDocument _ => "document_message"
  | VarSticker _ => "sticker_message"
  | VarContact _ => "contact_message"
  | VarContactsArray _ => "unknown"
  | VarLocation _ => "location_message"
  | VarLiveLocation _ => "live_location_message"
  | VarList _ => "list_message"
  | VarOrder _ => "order"
  | VarPaymentInvite _ => "payment"
  | VarPollCreationV3 _ | VarPollCreationV4 _ | VarPollCreationV5 _ => "poll_message"
  | VarPollUpdate _ => "poll_message"
  | VarReaction _ => "reaction_message"
  end.

(** Every key a payload of [createPayload] can have. *)
Definition payloadKeys : list string :=
  ["SenderNumber"; "message"; "PushName"; "reaction"; "view_once"; "forwarded";
   "timestamp"; "IsGroup"; "GroupName"; "MyNumber"; "Type"; "Port"; "contact";
   "audio"; "document"; "image"; "list"; "live_location"; "location"; "order";
   "sticker"; "video"].

(** Every key the nested message can have. *)
Definition messageDataKeys : list string :=
  ["ID"; "MessageOrigin"; "RepliedId"; "TextMessage"; "TitleLink"; "LinkDescription";
   "PollUpdate"].

(** The extensions [determineMimeType] knows, with their types. *)
Definition knownExtensions : list (string * string) :=
  [("mp3", "audio/mpeg"); ("ogg", "audio/ogg"); ("wav", "audio/wav"); ("aac", "audio/aac");
   ("opus", "audio/opus"); ("mp4", "video/mp4"); ("jpg", "image/jpeg");
   ("jpeg", "image/jpeg"); ("png", "image/png"); ("gif", "image/gif");
   ("pdf", "application/pdf"); ("doc", "application/msword");
   ("docx", "application/msword"); ("xls", "application/vnd.ms-excel");
   ("xlsx", "application/vnd.ms-excel")].

(** The type an audio file with a known extension is sent with; nothing
    for the extensions of other media. *)
Definition audioSentAs : list (string * option string) :=
  [("mp3", Some "audio/mpeg"); ("ogg", Some "audio/ogg"); ("wav", Some "audio/wav");
   ("aac", Some "audio/aac"); ("opus", Some "audio/ogg"); ("mp4", None); ("jpg", None);
   ("jpeg", None); ("png", None); ("gif", None); ("pdf", None); ("doc", None);
   ("docx", None); ("xls", None); ("xlsx", None)].

(** Reading the verb [%x] back: the bytes of a string of hexadecimal digit
    pairs. *)
Definition unhexDigit (a : ascii) : nat :=
  let n := nat_of_ascii a in if (n <? 58)%nat then (n - 48)%nat else (n - 87)%nat.

Fixpoint parse_x (hex : string) : string :=
  match hex with
  | String hi (String lo rest) =>
      String (ascii_of_nat (16 * unhexDigit hi + unhexDigit lo)) (parse_x rest)
  | _ => EmptyString
  end.

(** Does the string have this character? *)
Fixpoint hasChar (c : ascii) (s : string) : bool :=
  match s with
  | EmptyString => false
  | String a s' => Ascii.eqb a c || hasChar c s'
  end.

End Terms.

Export Terms.

(** * Properties *)

(** ** The URL pattern *)

Section PatternFacts.

Lemma HasPrefix_spec prefix : forall s,
  HasPrefix s prefix = true <-> exists rest, s = prefix +:+ rest.
Proof.
  induction prefix as [|p prefix IH]; intros s; cbn.
  - split; [eauto|]. by destruct s.
  - destruct s as [|c s]; cbn.
    + split; [discriminate|]. by intros [rest ?].
    + rewrite andb_true_iff, Ascii.eqb_eq, IH. split.
      * intros [-> [rest ->]]. eauto.
      * intros [rest [= -> ->]]. eauto.
Qed.

Lemma substring_all s : substring 0 (String.length s) s = s.
Proof. induction s as [|c s IH]; cbn; [reflexivity|by rewrite IH]. Qed.

Lemma startsNonSpace_spec s :
  startsNonSpace s = true <-> exists c rest, s = String c rest /\ isSpace c = false.
Proof.
  destruct s as [|c s]; cbn.
  - split; [discriminate|]. by intros (c & rest & ? & _).
  - rewrite negb_true_iff. split; [eauto|]. by intros (c' & rest & [= -> ->] & ?).
Qed.

Lemma substring_after prefix rest :
  substring (String.length prefix)
            (String.length (prefix +:+ rest) - String.length prefix) (prefix +:+ rest)
  = rest.
Proof.
  induction prefix as [|c prefix IH].
  - change (EmptyString +:+ rest) with rest. cbn. rewrite Nat.sub_0_r. apply substring_all.
  - change (String c prefix +:+ rest) with (String c (prefix +:+ rest)).
    cbn [String.length substring Nat.sub]. exact IH.
Qed.

(** The anchored pattern: a scheme, the separator, and at least one
    character that is not white space. *)
Lemma urlAt_spec s :
  urlAt s = true
  <-> exists scheme c rest,
        s = scheme +:+ "://" +:+ String c rest
        /\ (scheme = "http" \/ scheme = "https") /\ isSpace c = false.
Proof.
  unfold urlAt. rewrite orb_true_iff, !andb_true_iff, !HasPrefix_spec.
  change 8%nat with (String.length "https://").
  change 7%nat with (String.length "http://").
  split.
  - intros [[[r ->] Hs]|[[r ->] Hs]]; rewrite substring_after in Hs;
      apply startsNonSpace_spec in Hs as (c & rest & -> & Hc).
    + exists "http", c, rest. auto.
    + exists "https", c, rest. auto.
  - intros (scheme & c & rest & -> & [->| ->] & Hc); [left|right].
    + change ("http" +:+ "://" +:+ String c rest) with ("http://" +:+ String c rest).
      split; [by eexists|]. rewrite substring_after. cbn. by rewrite Hc.
    + change ("https" +:+ "://" +:+ String c rest) with ("https://" +:+ String c rest).
      split; [by eexists|]. rewrite substring_after. cbn. by rewrite Hc.
Qed.

(** [MatchString] searches: the pattern may start anywhere in the text. *)
Lemma urlRegexMatchString_spec s :
  urlRegexMatchString s = true
  <-> exists before scheme c rest,
        s = before +:+ scheme +:+ "://" +:+ String c rest
        /\ (scheme = "http" \/ scheme = "https") /\ isSpace c = false.
Proof.
  induction s as [|a s IH].
  - cbn. split; [discriminate|].
    intros (before & scheme & c & rest & E & [->| ->] & _); by destruct before.
  - cbn [urlRegexMatchString]. rewrite orb_true_iff, urlAt_spec, IH. split.
    + intros [(scheme & c & rest & E & Hs & Hc)|(before & scheme & c & rest & E & Hs & Hc)].
      * exists EmptyString, scheme, c, rest. auto.
      * exists (String a before), scheme, c, rest. rewrite E. auto.
    + intros (before & scheme & c & rest & E & Hs & Hc).
      destruct before as [|b before].
      * left. exists scheme, c, rest. auto.
      * right. injection E as -> E. exists before, scheme, c, rest. auto.
Qed.

End PatternFacts.

(** ** Strings *)

Lemma string_app_cons x (a b : string) : String x a +:+ b = String x (a +:+ b).
Proof. reflexivity. Qed.

Lemma string_app_assoc (a b c : string) : (a +:+ b) +:+ c = a +:+ b +:+ c.
Proof.
  induction a as [|x a IH]; [reflexivity|]. rewrite !string_app_cons. by rewrite IH.
Qed.

Lemma string_app_nil_r (a : string) : a +:+ EmptyString = a.
Proof.
  induction a as [|x a IH]; [reflexivity|]. rewrite string_app_cons. by rewrite IH.
Qed.

(** What [Next] hands out and what it leaves make up the buffer. *)
Lemma Next_split n : forall body, body = (Next n body).1 +:+ (Next n body).2.
Proof.
  induction n as [|n IH]; intros [|c body]; try reflexivity.
  cbn [Next]. specialize (IH body). destruct (Next n body) as [data rest].
  cbn [fst snd] in *. rewrite string_app_cons. by f_equal.
Qed.

(** ** Delivery client *)

Section DeliveryFacts.
Context `{!Transport}.

Lemma run_bind {A B} (m : IO A) (f : A -> IO B) h :
  run (m ≫= f) h = let '(v, h') := run m h in run (f v) h'.
Proof. reflexivity. Qed.

Lemma lastErr_cons e errs err : lastErr (e :: errs) err = lastErr errs (Some e).
Proof.
  unfold lastErr. destruct errs as [|e' errs]; [reflexivity|].
  rewrite last_cons. by destruct (last (e' :: errs)) eqn:E.
Qed.

(** One unfolding of the loop from a failed request. *)
Lemma retryLoop_fail n req body attempt d err h e :
  clientDo h req = Some e ->
  run (retryLoop (S n) req body attempt d err) h =
  run (retryLoop n req (Next (clientRead h req) body).2
                 (attempt + 1) (wrap64 (d * 2)) (Some e))
      (h ++ [EvRead (Next (clientRead h req) body).1; EvDo req (Some e); EvSleep d])%list.
Proof.
  intros E. unfold run. cbn [retryLoop]. unfold mbind, IO_bind, Do, Sleep.
  destruct (Next (clientRead h req) body) as [data rest].
  rewrite E. cbn. by rewrite <- app_assoc.
Qed.

Lemma retryLoop_success n req body attempt d err h :
  clientDo h req = None ->
  run (retryLoop (S n) req body attempt d err) h
  = (Returned, (h ++ [EvRead (Next (clientRead h req) body).1; EvDo req None])%list).
Proof.
  intros E. unfold run. cbn [retryLoop]. unfold mbind, IO_bind, Do.
  destruct (Next (clientRead h req) body) as [data rest].
  rewrite E. reflexivity.
Qed.

(** The loop either returns after fewer than [n] failed rounds and one
    successful request, or is exhausted after exactly [n] failed rounds; and
    what its requests read, in order, is the start of the buffer. *)
Lemma retryLoop_spec req n : forall body attempt d err h,
  exists rounds,
    (exists data rest,
        run (retryLoop n req body attempt d err) h
        = (Returned,
           (h ++ failedRounds req rounds d ++ [EvRead data; EvDo req None])%list)
        /\ (length rounds < n)%nat
        /\ body = readIn rounds +:+ data +:+ rest)
    \/ (exists rest,
          run (retryLoop n req body attempt d err) h
          = (Exhausted (attempt + Z.of_nat n) (lastErr rounds.*2 err),
             (h ++ failedRounds req rounds d)%list)
          /\ length rounds = n
          /\ body = readIn rounds +:+ rest).
Proof.
  induction n as [|n IH]; intros body attempt d err h.
  - exists []. right. exists body. split; [|by split].
    cbn. unfold run, mret, IO_ret. by rewrite Z.add_0_r, app_nil_r.
  - pose proof (Next_split (clientRead h req) body) as Hbody.
    destruct (clientDo h req) as [e|] eqn:E.
    + rewrite (retryLoop_fail _ _ _ _ _ _ _ _ E).
      destruct (Next (clientRead h req) body) as [data left_]. cbn [fst snd] in *.
      destruct (IH left_ (attempt + 1) (wrap64 (d * 2)) (Some e)
                   (h ++ [EvRead data; EvDo req (Some e); EvSleep d])%list)
        as [rounds [(data' & rest & Hr & Hl & Hb)|(rest & Hr & Hl & Hb)]].
      * exists ((data, e) :: rounds). left. exists data', rest.
        split; [|split; [cbn; lia|]].
        -- rewrite Hr. cbn [failedRounds]. by rewrite <- !app_assoc.
        -- cbn [readIn]. by rewrite string_app_assoc, <- Hb.
      * exists ((data, e) :: rounds). right. exists rest.
        split; [|split; [cbn; lia|]].
        -- rewrite Hr. cbn [fmap list_fmap snd]. rewrite lastErr_cons.
           cbn [failedRounds]. rewrite <- !app_assoc. cbn. do 2 f_equal. lia.
        -- cbn [readIn]. by rewrite string_app_assoc, <- Hb.
    + exists []. left.
      rewrite (retryLoop_success _ _ _ _ _ _ _ E).
      destruct (Next (clientRead h req) body) as [data left_]. cbn [fst snd] in *.
      exists data, left_. split; [reflexivity|]. split; [cbn; lia|exact Hbody].
Qed.

(** When no request can succeed the loop is exhausted. *)
Lemma retryLoop_all_fail req n :
  (forall h, is_Some (clientDo h req)) ->
  forall body attempt d err h,
  exists rounds,
    length rounds = n
    /\ run (retryLoop n req body attempt d err) h
       = (Exhausted (attempt + Z.of_nat n) (lastErr rounds.*2 err),
          (h ++ failedRounds req rounds d)%list).
Proof.
  intros Hfail. induction n as [|n IH]; intros body attempt d err h.
  - exists []. split; [reflexivity|].
    cbn. unfold run, mret, IO_ret. by rewrite Z.add_0_r, app_nil_r.
  - destruct (Hfail h) as [e E].
    rewrite (retryLoop_fail _ _ _ _ _ _ _ _ E).
    destruct (Next (clientRead h req) body) as [data left_]. cbn [fst snd].
    destruct (IH left_ (attempt + 1) (wrap64 (d * 2)) (Some e)
                 (h ++ [EvRead data; EvDo req (Some e); EvSleep d])%list)
      as [rounds [Hl Hr]].
    exists ((data, e) :: rounds). split; [cbn; lia|].
    rewrite Hr. cbn [fmap list_fmap snd]. rewrite lastErr_cons.
    cbn [failedRounds]. rewrite <- !app_assoc. cbn. do 2 f_equal. lia.
Qed.

(** [SubmitWebhook] is its loop, on the serialised payload as the body,
    once the request is set up. *)
Lemma SubmitWebhook_run secret payload url req h :
  requestFor secret payload url = Some req ->
  exists postBody,
    jsonMarshal payload = Ok postBody
    /\ run (SubmitWebhook secret payload url) h =
       let '(exit, h') := run (retryLoop 5 req postBody 0 (seconds 1) None) h in
       (match exit with
        | Returned => None
        | Exhausted attempt err =>
            Some (WebhookError
              ("Failed after " +:+ fmt_d attempt +:+ " attempts: " +:+ fmt_v_err err))
        end, h').
Proof.
  unfold requestFor, SubmitWebhook.
  destruct (jsonMarshal payload) as [postBody|]; [|discriminate].
  unfold NewRequest, NewBuffer.
  destruct (urlParseError url); [discriminate|].
  destruct (getMessageDigestOrSignature postBody secret) as [signature|]; [|discriminate].
  intros [= <-]. exists postBody. split; [reflexivity|]. rewrite run_bind.
  change (Z.to_nat (maxAttempts - 0)) with 5%nat.
  change (1 * Second) with (seconds 1).
  destruct (run (retryLoop 5 _ postBody 0 (seconds 1) None) h) as [[|attempt err] h'];
    reflexivity.
Qed.

Lemma SubmitWebhook_not_sent secret payload url h :
  requestFor secret payload url = None ->
  exists msg, run (SubmitWebhook secret payload url) h = (Some (WebhookError msg), h).
Proof.
  unfold requestFor, SubmitWebhook.
  destruct (jsonMarshal payload) as [postBody|]; [|eauto].
  destruct (NewRequest "POST" url (NewBuffer postBody)) as [[req0 body0]|]; [|eauto].
  destruct (getMessageDigestOrSignature postBody secret) as [signature|]; [|eauto].
  discriminate.
Qed.

(** The complete history of a delivery on which every request fails. *)
Lemma SubmitWebhook_exhausted secret payload url req h :
  requestFor secret payload url = Some req ->
  (forall h', is_Some (clientDo h' req)) ->
  exists d1 e1 d2 e2 d3 e3 d4 e4 d5 e5,
    run (SubmitWebhook secret payload url) h =
    (Some (WebhookError ("Failed after 5 attempts: " +:+ Error e5)),
     (h ++ [EvRead d1; EvDo req (Some e1); EvSleep (seconds 1);
            EvRead d2; EvDo req (Some e2); EvSleep (seconds 2);
            EvRead d3; EvDo req (Some e3); EvSleep (seconds 4);
            EvRead d4; EvDo req (Some e4); EvSleep (seconds 8);
            EvRead d5; EvDo req (Some e5); EvSleep (seconds 16)])%list).
Proof.
  intros Hreq Hfail.
  destruct (SubmitWebhook_run _ _ _ _ h Hreq) as (postBody & _ & ->).
  destruct (retryLoop_all_fail req 5 Hfail postBody 0 (seconds 1) None h)
    as [rounds [Hl Hr]].
  rewrite Hr.
  destruct rounds as [|[d1 e1] [|[d2 e2] [|[d3 e3] [|[d4 e4] [|[d5 e5] [|r6 rounds]]]]]];
    try discriminate Hl.
  exists d1, e1, d2, e2, d3, e3, d4, e4, d5, e5. reflexivity.
Qed.

Lemma failedRounds_no_success req rounds d r :
  EvDo r None ∉ failedRounds req rounds d.
Proof.
  revert d. induction rounds as [|[data e] rounds IH]; intros d; cbn.
  - apply not_elem_of_nil.
  - rewrite !not_elem_of_cons. split; [discriminate|]. split; [discriminate|].
    split; [discriminate|]. apply IH.
Qed.

Lemma nothing_after_last {A} (l pre post : list A) (x y : A) :
  y ∉ l -> (l ++ [x])%list = (pre ++ y :: post)%list -> post = [].
Proof.
  revert pre. induction l as [|a l IH]; intros pre Hy E.
  - destruct pre as [|b pre]; cbn in E.
    + by injection E.
    + injection E as _ E. by destruct pre.
  - apply not_elem_of_cons in Hy as [Hne Hy].
    destruct pre as [|b pre]; cbn in E.
    + injection E as E _. congruence.
    + injection E as _ E. eauto.
Qed.

Lemma requestFor_URL secret payload url req :
  requestFor secret payload url = Some req -> URL req = url.
Proof.
  unfold requestFor, NewRequest.
  destruct (jsonMarshal payload) as [postBody|]; [|discriminate].
  destruct (urlParseError url); [discriminate|].
  destruct (getMessageDigestOrSignature postBody secret); [|discriminate].
  by intros [= <-].
Qed.

(** Every history a delivery leaves: failed rounds, then possibly one
    successful request, and nil is returned exactly in the latter case. *)
Lemma SubmitWebhook_shape secret payload url req h :
  requestFor secret payload url = Some req ->
  exists r rounds,
    (r = None
     /\ exists data,
          run (SubmitWebhook secret payload url) h
          = (r, (h ++ (failedRounds req rounds (seconds 1) ++ [EvRead data])
                   ++ [EvDo req None])%list))
    \/ (r <> None
        /\ run (SubmitWebhook secret payload url) h
           = (r, (h ++ failedRounds req rounds (seconds 1))%list)).
Proof.
  intros Hreq. destruct (SubmitWebhook_run _ _ _ _ h Hreq) as (postBody & _ & ->).
  destruct (retryLoop_spec req 5 postBody 0 (seconds 1) None h)
    as [rounds [(data & rest & Hr & _)|(rest & Hr & _)]]; rewrite Hr.
  - exists None, rounds. left. split; [reflexivity|]. exists data.
    by rewrite <- !app_assoc.
  - eexists _, rounds. right. split; [|reflexivity]. discriminate.
Qed.

(** C3: against a URL on which every request fails at the transport level,
    [SubmitWebhook] makes exactly 5 attempts, the delays between attempts
    are 1s, 2s, 4s and 8s, and the error returned names the attempt count
    (first part); whatever the network does, a successful request is the
    last event of the delivery and makes it return nil, and nil is
    returned only after a successful request (second part). *)
Theorem SubmitWebhook_retry_policy secret payload url req h :
  requestFor secret payload url = Some req ->
  ((forall h', is_Some (clientDo h' req)) ->
   exists cause h',
     run (SubmitWebhook secret payload url) h
     = (Some (WebhookError ("Failed after 5 attempts: " +:+ Error cause)), (h ++ h')%list)
     /\ attemptedURLs h' = [url; url; url; url; url]
     /\ interAttemptDelays h' = [seconds 1; seconds 2; seconds 4; seconds 8])
  /\ (exists r h',
        run (SubmitWebhook secret payload url) h = (r, (h ++ h')%list)
        /\ (forall pre post r',
              h' = (pre ++ EvDo r' None :: post)%list -> post = [] /\ r = None)
        /\ (r = None -> exists pre, h' = (pre ++ [EvDo req None])%list)).
Proof.
  intros Hreq. split.
  - intros Hfail.
    destruct (SubmitWebhook_exhausted _ _ _ _ h Hreq Hfail)
      as (d1 & e1 & d2 & e2 & d3 & e3 & d4 & e4 & d5 & e5 & Hr).
    exists e5. eexists. split; [exact Hr|].
    cbn. rewrite (requestFor_URL _ _ _ _ Hreq). by split.
  - destruct (SubmitWebhook_shape _ _ _ _ h Hreq)
      as (r & rounds & [[-> [data Hr]]|[Hne Hr]]).
    + exists None. eexists. split; [exact Hr|]. split.
      * intros pre post r' E. split; [|reflexivity].
        eapply nothing_after_last; [|exact E].
        rewrite not_elem_of_app. split; [apply failedRounds_no_success|].
        rewrite not_elem_of_cons. split; [discriminate|apply not_elem_of_nil].
      * intros _. by eexists.
    + exists r. eexists. split; [exact Hr|]. split.
      * intros pre post r' E. exfalso.
        apply (failedRounds_no_success req rounds (seconds 1) r').
        rewrite E. apply elem_of_app. right. apply elem_of_cons. by left.
      * intros ->. by destruct Hne.
Qed.

(** C10: when every request fails, the delivery sleeps five times, 1s, 2s,
    4s, 8s and 16s, and the 16s sleep comes after the fifth and last
    attempt, before the error is returned. *)
Theorem SubmitWebhook_sleeps_after_final_attempt secret payload url req h :
  requestFor secret payload url = Some req ->
  (forall h', is_Some (clientDo h' req)) ->
  exists err e5 h',
    run (SubmitWebhook secret payload url) h = (Some err, (h ++ h')%list)
    /\ attempts h' = 5%nat
    /\ sleeps h' = [seconds 1; seconds 2; seconds 4; seconds 8; seconds 16]
    /\ exists pre, h' = (pre ++ [EvDo req (Some e5); EvSleep (seconds 16)])%list.
Proof.
  intros Hreq Hfail.
  destruct (SubmitWebhook_exhausted _ _ _ _ h Hreq Hfail)
    as (d1 & e1 & d2 & e2 & d3 & e3 & d4 & e4 & d5 & e5 & Hr).
  eexists _, e5, _. split; [exact Hr|]. split; [reflexivity|]. split; [reflexivity|].
  by exists [EvRead d1; EvDo req (Some e1); EvSleep (seconds 1);
             EvRead d2; EvDo req (Some e2); EvSleep (seconds 2);
             EvRead d3; EvDo req (Some e3); EvSleep (seconds 4);
             EvRead d4; EvDo req (Some e4); EvSleep (seconds 8); EvRead d5].
Qed.

(** The loop of [forwardToWebhook] gives up at the first URL whose
    delivery fails: none of the URLs after it is requested. *)
Lemma forwardLoop_first_failure secret payload url rest req h :
  requestFor secret payload url = Some req ->
  (forall h', is_Some (clientDo h' req)) ->
  exists err h',
    run (forwardLoop secret payload (url :: rest)) h = (Some err, (h ++ h')%list)
    /\ attemptedURLs h' = [url; url; url; url; url].
Proof.
  intros Hreq Hfail.
  destruct (SubmitWebhook_exhausted _ _ _ _ h Hreq Hfail)
    as (d1 & e1 & d2 & e2 & d3 & e3 & d4 & e4 & d5 & e5 & Hr).
  cbn [forwardLoop]. rewrite run_bind, Hr. eexists _, _. split; [reflexivity|].
  cbn. by rewrite (requestFor_URL _ _ _ _ Hreq).
Qed.

End DeliveryFacts.

Import Sample.

Lemma SubmitWebhook_retry_policy_witness :
  (exists cause h',
     run (@SubmitWebhook sampleTransport "secret" ∅ "http://a.example/hook") []
     = (Some (WebhookError ("Failed after 5 attempts: " +:+ Error cause)), h')
     /\ length (attemptedURLs h') = 5%nat
     /\ interAttemptDelays h' = [1000000000; 2000000000; 4000000000; 8000000000]).
Proof.
  destruct (@SubmitWebhook_retry_policy sampleTransport "secret" ∅
              "http://a.example/hook" (sampleRequest "http://a.example/hook") []
              eq_refl) as [Hfail _].
  destruct Hfail as (cause & h' & Hr & Hu & Hd).
  - intros h'. cbn. eauto.
  - exists cause, h'. split; [exact Hr|]. split; [by rewrite Hu|exact Hd].
Defined.

Lemma SubmitWebhook_sleeps_after_final_attempt_witness :
  exists err h',
    run (@SubmitWebhook sampleTransport "secret" ∅ "http://a.example/hook") [] = (Some err, h')
    /\ sleeps h' = [1000000000; 2000000000; 4000000000; 8000000000; 16000000000].
Proof.
  destruct (@SubmitWebhook_sleeps_after_final_attempt sampleTransport "secret" ∅
              "http://a.example/hook" (sampleRequest "http://a.example/hook") []
              eq_refl) as (err & e5 & h' & Hr & _ & Hs & _).
  - intros h'. cbn. eauto.
  - exists err, h'. by split.
Defined.

(** On a network that answers from the third request on, the delivery
    stops at the third request: two sleeps, no error. *)
Example SubmitWebhook_third_attempt_succeeds :
  let '(r, h) := run (@SubmitWebhook flakyTransport "secret" ∅ "http://c.example/hook") [] in
  r = None /\ attempts h = 3%nat /\ sleeps h = [1000000000; 2000000000].
Proof. vm_compute. by repeat split. Qed.

(** C1: with the subscribers [a] and [b] configured and every request to [a]
    failing, [forwardToWebhook] returns the error of [a] and never requests
    [b], although [b] would have answered; the loop of the call-ended
    notification, run on the same network and URLs, goes on to request [b]. *)
Theorem forwardToWebhook_abandons_remaining_urls :
  let evt := textEvent "5511888@s.whatsapp.net" "text" "hello" in
  let a := "http://a.example/hook" in
  let b := "http://b.example/hook" in
  WhatsappWebhook (@config sampleCollaborators) = [a; b]
  /\ (exists h, run (@forwardToWebhook sampleTransport sampleCollaborators evt) []
                = (Some (WebhookError "Failed after 5 attempts: connection refused"), h)
                /\ attemptedURLs h = [a; a; a; a; a])
  /\ (forall h, @clientDo sampleTransport h (sampleRequest b) = None)
  /\ attemptedURLs (snd (run (@notifyLoop sampleTransport "secret" ∅ [a; b]) []))
     = [a; a; a; a; a; b].
Proof.
  cbv zeta. split; [reflexivity|]. split; [|split; [reflexivity|]].
  - eexists. split; vm_compute; reflexivity.
  - vm_compute. reflexivity.
Qed.

(** ** Dedup cache and the call-ended handler *)

Section CallFacts.
Context `{!Collaborators} `{!CallCollaborators}.

Lemma Guard_absent (m : gmap string Z) key now :
  m !! key = None -> Guard m key now = (true, <[key := now]> m).
Proof. intros E. unfold Guard, LoadOrStore. by rewrite E. Qed.

Lemma Guard_present (m : gmap string Z) key now v :
  m !! key = Some v -> Guard m key now = (false, m).
Proof. intros E. unfold Guard, LoadOrStore. by rewrite E. Qed.

Lemma expire_lookup t key (l : list (Z * string)) : forall m : gmap string Z,
  (forall timer, timer ∈ l -> due t timer = true -> snd timer <> key) ->
  fold_left (fun m timer => if due t timer then Delete m (snd timer) else m) l m !! key
  = m !! key.
Proof.
  induction l as [|timer l IH]; intros m Hl; [reflexivity|].
  cbn [fold_left]. rewrite IH.
  - destruct (due t timer) eqn:E; [|reflexivity].
    unfold Delete. apply lookup_delete_ne. apply Hl; [apply elem_of_cons; by left|done].
  - intros timer' Hin. apply Hl. apply elem_of_cons. by right.
Qed.

Lemma expire_absent t key (l : list (Z * string)) : forall m : gmap string Z,
  m !! key = None ->
  fold_left (fun m timer => if due t timer then Delete m (snd timer) else m) l m !! key
  = None.
Proof.
  induction l as [|timer l IH]; intros m Hm; [exact Hm|].
  cbn [fold_left]. apply IH. destruct (due t timer); [|exact Hm].
  unfold Delete. rewrite lookup_delete. case_decide; [reflexivity|exact Hm].
Qed.

Lemma fireTimers_pending t w timer :
  timer ∈ timers (fireTimers t w) -> timer ∈ timers w /\ due t timer = false.
Proof.
  cbn. rewrite !list_elem_of_In, filter_In.
  intros [Hin Hd]. split; [exact Hin|]. by apply negb_true_iff.
Qed.

(** The handler on a well-formed request whose key is not in the cache. *)
Lemma callEnded_first_observer now request w waCli jid :
  CallID request <> EmptyString -> Phone request <> EmptyString ->
  GetWaCli = Some waCli ->
  whatsappParseJID (Phone request) = Ok jid ->
  callWebhookCache w !! cacheKeyOf request = None ->
  callEnded now (Some request) w =
  match RejectCall (rejected w) jid (CallID request) with
  | Some err =>
      (respond StatusInternalServerError
         {["error" := "Failed to reject call: " +:+ Error err]},
       {| callWebhookCache := Delete (<[cacheKeyOf request := now]> (callWebhookCache w))
                                     (cacheKeyOf request);
          timers := (timers w ++ [(now + cacheTTL, cacheKeyOf request)])%list;
          rejected := (rejected w ++ [(jid, CallID request)])%list;
          notifications := notifications w |})
  | None =>
      (respond StatusOK
         (<["status" := "call rejected"]>
          (<["call_id" := CallID request]> {["Phone" := Phone request]})),
       {| callWebhookCache := <[cacheKeyOf request := now]> (callWebhookCache w);
          timers := (timers w ++ [(now + cacheTTL, cacheKeyOf request)])%list;
          rejected := (rejected w ++ [(jid, CallID request)])%list;
          notifications :=
            if (0 <? Z.of_nat (length (WhatsappWebhook config)))%Z
            then (notifications w ++
                    [{| jobPhone := Phone request; jobCallID := CallID request |}])%list
            else notifications w |})
  end.
Proof.
  intros Hc Hp Hcli Hjid Hkey. unfold callEnded, cacheKeyOf in *.
  apply String.eqb_neq in Hc, Hp. rewrite Hc, Hp, Hcli, Hjid. cbn [orb].
  unfold LoadOrStore. rewrite Hkey.
  by destruct (RejectCall (rejected w) jid (CallID request)).
Qed.

(** The handler on a well-formed request whose key is in the cache. *)
Lemma callEnded_duplicate now request w waCli jid v :
  CallID request <> EmptyString -> Phone request <> EmptyString ->
  GetWaCli = Some waCli ->
  whatsappParseJID (Phone request) = Ok jid ->
  callWebhookCache w !! cacheKeyOf request = Some v ->
  callEnded now (Some request) w =
  (respond StatusOK
     (<["status" := "call rejected (already processed)"]>
      (<["call_id" := CallID request]> {["Phone" := Phone request]})),
   {| callWebhookCache := callWebhookCache w; timers := timers w;
      rejected := rejected w; notifications := notifications w |}).
Proof.
  intros Hc Hp Hcli Hjid Hkey. unfold callEnded, cacheKeyOf in *.
  apply String.eqb_neq in Hc, Hp. rewrite Hc, Hp, Hcli, Hjid. cbn [orb].
  unfold LoadOrStore. by rewrite Hkey.
Qed.

(** C6: when the reject-call action fails for the first observer of a key,
    the handler answers with the error, leaves the cache as it was before
    the call, and a later guard on the same key, at any time, again
    answers that the caller is the first observer. *)
Theorem callEnded_failed_reject_evicts_key now request w waCli jid err :
  CallID request <> EmptyString -> Phone request <> EmptyString ->
  GetWaCli = Some waCli ->
  whatsappParseJID (Phone request) = Ok jid ->
  callWebhookCache w !! cacheKeyOf request = None ->
  RejectCall (rejected w) jid (CallID request) = Some err ->
  exists resp w',
    callEnded now (Some request) w = (resp, w')
    /\ Status resp = StatusInternalServerError
    /\ JSON resp !! "error" = Some ("Failed to reject call: " +:+ Error err)
    /\ callWebhookCache w' = callWebhookCache w
    /\ forall later,
         fst (Guard (callWebhookCache (fireTimers later w')) (cacheKeyOf request) later)
         = true.
Proof.
  intros Hc Hp Hcli Hjid Hkey Hrej.
  rewrite (callEnded_first_observer now _ _ _ _ Hc Hp Hcli Hjid Hkey), Hrej.
  eexists _, _. split; [reflexivity|]. cbn.
  assert (Hrestored : Delete (<[cacheKeyOf request := now]> (callWebhookCache w))
                             (cacheKeyOf request) = callWebhookCache w).
  { unfold Delete. rewrite delete_insert_eq. by apply delete_id. }
  rewrite Hrestored. split; [reflexivity|]. split; [|split; [reflexivity|]].
  - apply lookup_singleton_eq.
  - intros later. rewrite Guard_absent; [reflexivity|]. by apply expire_absent.
Qed.

(** C2, as the code has it: a guard on a key that is not cached answers
    true and a second guard on the cache it leaves answers false; and when
    a well-formed call-ended event (client initialised, phone parsed, key
    neither cached nor awaiting eviction) is observed at [t1], its
    reject-call action succeeds, and it is observed again before
    [t1 + cacheTTL], then the first answer is the plain one, the second is
    the already-processed one, the reject-call action has been invoked
    exactly once and at most one notification has been started. *)
Theorem callEnded_duplicate_within_ttl t1 t2 request w waCli jid :
  CallID request <> EmptyString -> Phone request <> EmptyString ->
  GetWaCli = Some waCli ->
  whatsappParseJID (Phone request) = Ok jid ->
  callWebhookCache w !! cacheKeyOf request = None ->
  (forall timer, timer ∈ timers w -> snd timer <> cacheKeyOf request) ->
  RejectCall (rejected w) jid (CallID request) = None ->
  t1 <= t2 < t1 + cacheTTL ->
  (forall (m : gmap string Z) key v1 v2,
      m !! key = None ->
      exists m1, Guard m key v1 = (true, m1) /\ Guard m1 key v2 = (false, m1))
  /\ exists r1 w1 r2 w2,
      observe t1 (Some request) w = (r1, w1)
      /\ observe t2 (Some request) w1 = (r2, w2)
      /\ JSON r1 !! "status" = Some "call rejected"
      /\ JSON r2 !! "status" = Some "call rejected (already processed)"
      /\ rejected w2 = (rejected w ++ [(jid, CallID request)])%list
      /\ (length (notifications w2) <= S (length (notifications w)))%nat.
Proof.
  intros Hc Hp Hcli Hjid Hkey Htimers Hrej Ht. split.
  { intros m key v1 v2 Hm. exists (<[key := v1]> m). split; [by apply Guard_absent|].
    eapply Guard_present. apply lookup_insert_eq. }
  unfold observe.
  assert (Hkey1 : callWebhookCache (fireTimers t1 w) !! cacheKeyOf request = None).
  { by apply expire_absent. }
  rewrite (callEnded_first_observer t1 _ _ _ _ Hc Hp Hcli Hjid Hkey1).
  change (rejected (fireTimers t1 w)) with (rejected w). rewrite Hrej.
  set (w1 := {| callWebhookCache := _ |}).
  assert (Hkey2 : callWebhookCache (fireTimers t2 w1) !! cacheKeyOf request = Some t1).
  { cbn [fireTimers callWebhookCache]. rewrite expire_lookup.
    - apply lookup_insert_eq.
    - intros timer Hin Hdue. change (timers w1) with
        (timers (fireTimers t1 w) ++ [(t1 + cacheTTL, cacheKeyOf request)])%list in Hin.
      apply elem_of_app in Hin as [Hin|Hin].
      + apply fireTimers_pending in Hin as [Hin _]. by apply Htimers.
      + apply list_elem_of_singleton in Hin. subst timer.
        unfold due in Hdue. cbn in Hdue. apply Z.leb_le in Hdue. lia. }
  eexists _, w1, _, _. split; [reflexivity|].
  rewrite (callEnded_duplicate t2 _ _ _ _ _ Hc Hp Hcli Hjid Hkey2).
  split; [reflexivity|]. cbn. split; [reflexivity|]. split; [reflexivity|].
  split; [reflexivity|].
  destruct (0 <? _)%Z; [rewrite length_app; cbn; lia|lia].
Qed.

End CallFacts.

Lemma callEnded_failed_reject_evicts_key_witness :
  exists resp w',
    @callEnded sampleCollaborators failingCalls 7 (Some callRequest) emptyWorld = (resp, w')
    /\ Status resp = 500
    /\ callWebhookCache w' = ∅
    /\ fst (Guard (callWebhookCache (fireTimers 8 w')) "ABC:+1555" 8) = true.
Proof.
  destruct (@callEnded_failed_reject_evicts_key sampleCollaborators failingCalls 7
              callRequest emptyWorld _ _ _
              ltac:(discriminate) ltac:(discriminate) eq_refl eq_refl eq_refl eq_refl)
    as (resp & w' & Hr & Hs & _ & Hcache & Hguard).
  exists resp, w'. split; [exact Hr|]. split; [exact Hs|]. split; [exact Hcache|].
  exact (Hguard 8).
Defined.

Lemma callEnded_duplicate_within_ttl_witness :
  exists r1 w1 r2 w2,
    @observe sampleCollaborators sampleCalls 0 (Some callRequest) emptyWorld = (r1, w1)
    /\ @observe sampleCollaborators sampleCalls (cacheTTL - 1) (Some callRequest) w1 = (r2, w2)
    /\ alreadyProcessed r2 = true
    /\ length (rejected w2) = 1%nat.
Proof.
  destruct (@callEnded_duplicate_within_ttl sampleCollaborators sampleCalls 0 (cacheTTL - 1)
              callRequest emptyWorld _ _
              ltac:(discriminate) ltac:(discriminate) eq_refl eq_refl eq_refl)
    as [_ (r1 & w1 & r2 & w2 & H1 & H2 & _ & Hs & Hrej & _)].
  - intros timer Hin. by apply elem_of_nil in Hin.
  - reflexivity.
  - unfold cacheTTL, Minute, Second, Nanosecond. lia.
  - exists r1, w1, r2, w2. split; [exact H1|]. split; [exact H2|]. split.
    + unfold alreadyProcessed. by apply bool_decide_eq_true.
    + by rewrite Hrej.
Defined.

(** C2 as stated fails when the reject-call action fails: the event is
    observed twice within the TTL window, the reject-call action is invoked
    twice, and the second answer is an error, not the already-processed one. *)
Lemma callEnded_twice_when_reject_fails :
  let '(r1, w1) := @observe sampleCollaborators failingCalls 0 (Some callRequest) emptyWorld in
  let '(r2, w2) := @observe sampleCollaborators failingCalls 1 (Some callRequest) w1 in
  0 <= 1 < 0 + cacheTTL
  /\ length (rejected w2) = 2%nat
  /\ alreadyProcessed r2 = false
  /\ Status r2 = StatusInternalServerError.
Proof. vm_compute. repeat split; congruence. Qed.

(** ** Payload builder and classifier *)

(** Lookups at literal keys through a chain of insertions. *)
Ltac lookup_literal :=
  repeat first
    [ rewrite lookup_insert_eq
    | rewrite lookup_insert_ne by discriminate
    | rewrite lookup_empty ].

(** Once one variant is known to be populated and the count is one, every
    optional field still undecided is nil. *)
Ltac rest_unpopulated Hcount :=
  repeat match goal with
         | o : option _ |- _ => destruct o; [exfalso; cbn in Hcount; lia|]
         end.

Section PayloadFacts.
Context `{!Collaborators}.

Lemma lookup_if_insert_ne {V} (c : bool) (k k' : string) (v : V) (m : gmap string V) :
  k <> k' -> (if c then <[k := v]> m else m) !! k' = m !! k'.
Proof. intros Hne. destruct c; [by apply lookup_insert_ne|reflexivity]. Qed.

Lemma nonEmpty_false s : nonEmpty s = false <-> s = EmptyString.
Proof. unfold nonEmpty. rewrite negb_false_iff. apply String.eqb_eq. Qed.

(** *** The header *)

Lemma buildHeader_message evt :
  buildHeader evt !! "message"
  = Some (VMessageData (buildMessageData evt (buildEventMessage evt))).
Proof.
  unfold buildHeader. cbv zeta.
  rewrite !lookup_if_insert_ne by discriminate. by lookup_literal.
Qed.

Lemma buildHeader_SenderNumber evt :
  buildHeader evt !! "SenderNumber"
  = if nonEmpty (SourceString (Info evt))
    then Some (VString (SourceString (Info evt))) else None.
Proof.
  unfold buildHeader. cbv zeta.
  rewrite !lookup_if_insert_ne by discriminate. lookup_literal.
  destruct (nonEmpty (SourceString (Info evt))); by lookup_literal.
Qed.

Lemma buildHeader_fresh evt k :
  k <> "SenderNumber" -> k <> "message" -> k <> "PushName" -> k <> "reaction" ->
  k <> "view_once" -> k <> "forwarded" -> k <> "timestamp" ->
  buildHeader evt !! k = None.
Proof.
  intros. unfold buildHeader. cbv zeta.
  rewrite !lookup_if_insert_ne by congruence.
  rewrite lookup_insert_ne by congruence.
  rewrite lookup_if_insert_ne by congruence. apply lookup_empty.
Qed.

(** *** Group flag, kind and contacts *)

Lemma buildIdentity_other evt jid body k :
  k <> "IsGroup" -> k <> "GroupName" -> k <> "MyNumber" -> k <> "Type" ->
  k <> "Port" -> k <> "contact" ->
  buildIdentity evt jid body !! k = body !! k.
Proof.
  intros. unfold buildIdentity. cbv zeta.
  destruct (multiContactInMedia evt);
    destruct (Contact (Msg evt));
    rewrite ?lookup_insert_ne by congruence;
    (destruct (Contains (jidString (Chat (Info evt))) "@g.us");
     [destruct (GetGroupName jid) as [name|]; [destruct (nonEmpty name)|]|]);
    by rewrite ?lookup_insert_ne by congruence.
Qed.

Lemma buildIdentity_Type evt jid body :
  buildIdentity evt jid body !! "Type"
  = Some (VString (if multiContactInMedia evt then "contact_message"
                   else determineMessageType evt (msgText (buildEventMessage evt)))).
Proof.
  unfold buildIdentity. cbv zeta.
  destruct (multiContactInMedia evt); destruct (Contact (Msg evt)); by lookup_literal.
Qed.

Lemma buildIdentity_IsGroup evt jid body :
  buildIdentity evt jid body !! "IsGroup"
  = Some (VBool (Contains (jidString (Chat (Info evt))) "@g.us")).
Proof.
  unfold buildIdentity. cbv zeta.
  destruct (multiContactInMedia evt);
    destruct (Contact (Msg evt));
    rewrite ?lookup_insert_ne by discriminate;
    (destruct (Contains (jidString (Chat (Info evt))) "@g.us");
     [destruct (GetGroupName jid) as [name|]; [destruct (nonEmpty name)|]|]);
    by lookup_literal.
Qed.

Lemma buildIdentity_GroupName_swallowed evt jid body err :
  GetGroupName jid = Err err ->
  buildIdentity evt jid body !! "GroupName" = body !! "GroupName".
Proof.
  intros E. unfold buildIdentity. cbv zeta. rewrite E.
  destruct (multiContactInMedia evt);
    destruct (Contact (Msg evt));
    destruct (Contains (jidString (Chat (Info evt))) "@g.us");
    by rewrite ?lookup_insert_ne by discriminate.
Qed.

Lemma buildIdentity_contact evt jid body :
  body !! "contact" = None ->
  present (buildIdentity evt jid body) "contact"
  = notNil (Contact (Msg evt)) || multiContactInMedia evt.
Proof.
  intros E. unfold present, buildIdentity. cbv zeta.
  destruct (multiContactInMedia evt);
    destruct (Contact (Msg evt));
    rewrite ?lookup_insert_ne by discriminate; rewrite ?lookup_insert_eq; try reflexivity.
  destruct (Contains (jidString (Chat (Info evt))) "@g.us");
     [destruct (GetGroupName jid) as [name|]; [destruct (nonEmpty name)|]|];
     rewrite ?lookup_insert_ne by discriminate; by rewrite E.
Qed.

(** *** Media and pass-through content *)

Lemma attachContent_steps evt body :
  attachContent evt body =
  (body ← download "audio" "audio" DAudio (Audio (Msg evt)) body;
   body ← download "document" "document" DDocument (Document (Msg evt)) body;
   body ← download "image" "image" DImage (Image (Msg evt)) body;
   body ← download "sticker" "sticker" DSticker (Sticker (Msg evt))
            (passThrough "order" VOrder (Order (Msg evt))
               (passThrough "location" VLocation (Location (Msg evt))
                  (passThrough "live_location" VLiveLocation (LiveLocation (Msg evt))
                     (passThrough "list" VList (List (Msg evt)) body))));
   download "video" "video" DVideo (Video (Msg evt)) body).
Proof. reflexivity. Qed.

Lemma download_cases {A} key what (ref : A -> Downloadable) o body :
  (existsb extractFails (option_list (ref <$> o)) = true
   /\ exists msg, download key what ref o body = Err (WebhookError msg))
  \/ (existsb extractFails (option_list (ref <$> o)) = false
      /\ exists body',
           download key what ref o body = Ok body'
           /\ (forall k, k <> key -> body' !! k = body !! k)
           /\ present body' key = notNil o || present body key).
Proof.
  unfold download, extractFails, present. destruct o as [m|]; cbn.
  - destruct (ExtractMedia (PathMedia config) (ref m)) as [path|err].
    + right. split; [reflexivity|]. eexists. split; [reflexivity|]. split.
      * intros k Hk. by apply lookup_insert_ne.
      * by rewrite lookup_insert_eq.
    + left. split; [reflexivity|]. by eexists.
  - right. split; [reflexivity|]. eexists. by repeat split.
Qed.

Lemma passThrough_lookup_ne {A} key (val : A -> value) o body k :
  k <> key -> passThrough key val o body !! k = body !! k.
Proof. intros Hk. destruct o; [by apply lookup_insert_ne|reflexivity]. Qed.

Lemma passThrough_present {A} key (val : A -> value) o body :
  present (passThrough key val o body) key = notNil o || present body key.
Proof. unfold present. destruct o; cbn; [by rewrite lookup_insert_eq|reflexivity]. Qed.

Lemma present_ne body body' k :
  body' !! k = body !! k -> present body' k = present body k.
Proof. unfold present. by intros ->. Qed.

(** What [attachContent] returns: an error exactly when a media reference
    cannot be extracted, and otherwise a body that differs from the one it
    was given at the nine content keys only. *)
Lemma attachContent_outcome evt body :
  (mediaFails evt = true /\ exists msg, attachContent evt body = Err (WebhookError msg))
  \/ (mediaFails evt = false
      /\ exists body',
           attachContent evt body = Ok body'
           /\ (forall k, k <> "audio" -> k <> "document" -> k <> "image" -> k <> "list" ->
                         k <> "live_location" -> k <> "location" -> k <> "order" ->
                         k <> "sticker" -> k <> "video" -> body' !! k = body !! k)
           /\ present body' "audio" = notNil (Audio (Msg evt)) || present body "audio"
           /\ present body' "document" = notNil (Document (Msg evt)) || present body "document"
           /\ present body' "image" = notNil (Image (Msg evt)) || present body "image"
           /\ present body' "list" = notNil (List (Msg evt)) || present body "list"
           /\ present body' "live_location"
              = notNil (LiveLocation (Msg evt)) || present body "live_location"
           /\ present body' "location" = notNil (Location (Msg evt)) || present body "location"
           /\ present body' "order" = notNil (Order (Msg evt)) || present body "order"
           /\ present body' "sticker" = notNil (Sticker (Msg evt)) || present body "sticker"
           /\ present body' "video" = notNil (Video (Msg evt)) || present body "video").
Proof.
  rewrite attachContent_steps. unfold mediaFails, downloads. rewrite !existsb_app.
  destruct (download_cases "audio" "audio" DAudio (Audio (Msg evt)) body)
    as [[-> [msg ->]]|[-> (b1 & -> & Ho1 & Hp1)]]; [left; eauto|].
  cbn [mbind result_bind orb].
  destruct (download_cases "document" "document" DDocument (Document (Msg evt)) b1)
    as [[-> [msg ->]]|[-> (b2 & -> & Ho2 & Hp2)]]; [left; eauto|].
  cbn [mbind result_bind orb].
  destruct (download_cases "image" "image" DImage (Image (Msg evt)) b2)
    as [[-> [msg ->]]|[-> (b3 & -> & Ho3 & Hp3)]]; [left; eauto|].
  cbn [mbind result_bind orb].
  set (b4 := passThrough "list" VList (List (Msg evt)) b3).
  set (b5 := passThrough "live_location" VLiveLocation (LiveLocation (Msg evt)) b4).
  set (b6 := passThrough "location" VLocation (Location (Msg evt)) b5).
  set (b7 := passThrough "order" VOrder (Order (Msg evt)) b6).
  destruct (download_cases "sticker" "sticker" DSticker (Sticker (Msg evt)) b7)
    as [[-> [msg ->]]|[-> (b8 & -> & Ho8 & Hp8)]]; [left; eauto|].
  cbn [mbind result_bind orb].
  destruct (download_cases "video" "video" DVideo (Video (Msg evt)) b8)
    as [[-> [msg ->]]|[-> (b9 & -> & Ho9 & Hp9)]]; [left; eauto|].
  right. split; [reflexivity|]. exists b9. split; [reflexivity|].
  assert (H4 : forall k, k <> "list" -> b4 !! k = b3 !! k)
    by (intros; by apply passThrough_lookup_ne).
  assert (H5 : forall k, k <> "live_location" -> b5 !! k = b4 !! k)
    by (intros; by apply passThrough_lookup_ne).
  assert (H6 : forall k, k <> "location" -> b6 !! k = b5 !! k)
    by (intros; by apply passThrough_lookup_ne).
  assert (H7 : forall k, k <> "order" -> b7 !! k = b6 !! k)
    by (intros; by apply passThrough_lookup_ne).
  assert (P4 := passThrough_present "list" VList (List (Msg evt)) b3).
  assert (P5 := passThrough_present "live_location" VLiveLocation (LiveLocation (Msg evt)) b4).
  assert (P6 := passThrough_present "location" VLocation (Location (Msg evt)) b5).
  assert (P7 := passThrough_present "order" VOrder (Order (Msg evt)) b6).
  fold b4 in P4. fold b5 in P5. fold b6 in P6. fold b7 in P7.
  clearbody b4 b5 b6 b7.
  split.
  { intros k ? ? ? ? ? ? ? ? ?.
    rewrite Ho9, Ho8, H7, H6, H5, H4, Ho3, Ho2, Ho1 by assumption. reflexivity. }
  repeat split.
  - rewrite <- Hp1. apply present_ne.
    rewrite Ho9, Ho8, H7, H6, H5, H4, Ho3, Ho2 by discriminate. reflexivity.
  - rewrite <- (present_ne body b1 "document") by (apply Ho1; discriminate).
    rewrite <- Hp2. apply present_ne.
    rewrite Ho9, Ho8, H7, H6, H5, H4, Ho3 by discriminate. reflexivity.
  - rewrite <- (present_ne body b1 "image") by (apply Ho1; discriminate).
    rewrite <- (present_ne b1 b2 "image") by (apply Ho2; discriminate).
    rewrite <- Hp3. apply present_ne.
    rewrite Ho9, Ho8, H7, H6, H5, H4 by discriminate. reflexivity.
  - rewrite <- (present_ne body b1 "list") by (apply Ho1; discriminate).
    rewrite <- (present_ne b1 b2 "list") by (apply Ho2; discriminate).
    rewrite <- (present_ne b2 b3 "list") by (apply Ho3; discriminate).
    rewrite <- P4. apply present_ne.
    rewrite Ho9, Ho8, H7, H6, H5 by discriminate. reflexivity.
  - rewrite <- (present_ne body b1 "live_location") by (apply Ho1; discriminate).
    rewrite <- (present_ne b1 b2 "live_location") by (apply Ho2; discriminate).
    rewrite <- (present_ne b2 b3 "live_location") by (apply Ho3; discriminate).
    rewrite <- (present_ne b3 b4 "live_location") by (apply H4; discriminate).
    rewrite <- P5. apply present_ne.
    rewrite Ho9, Ho8, H7, H6 by discriminate. reflexivity.
  - rewrite <- (present_ne body b1 "location") by (apply Ho1; discriminate).
    rewrite <- (present_ne b1 b2 "location") by (apply Ho2; discriminate).
    rewrite <- (present_ne b2 b3 "location") by (apply Ho3; discriminate).
    rewrite <- (present_ne b3 b4 "location") by (apply H4; discriminate).
    rewrite <- (present_ne b4 b5 "location") by (apply H5; discriminate).
    rewrite <- P6. apply present_ne.
    rewrite Ho9, Ho8, H7 by discriminate. reflexivity.
  - rewrite <- (present_ne body b1 "order") by (apply Ho1; discriminate).
    rewrite <- (present_ne b1 b2 "order") by (apply Ho2; discriminate).
    rewrite <- (present_ne b2 b3 "order") by (apply Ho3; discriminate).
    rewrite <- (present_ne b3 b4 "order") by (apply H4; discriminate).
    rewrite <- (present_ne b4 b5 "order") by (apply H5; discriminate).
    rewrite <- (present_ne b5 b6 "order") by (apply H6; discriminate).
    rewrite <- P7. apply present_ne.
    rewrite Ho9, Ho8 by discriminate. reflexivity.
  - rewrite <- (present_ne body b7 "sticker")
      by (rewrite H7, H6, H5, H4, Ho3, Ho2, Ho1 by discriminate; reflexivity).
    rewrite <- Hp8. apply present_ne. rewrite Ho9 by discriminate. reflexivity.
  - rewrite <- (present_ne body b8 "video")
      by (rewrite Ho8, H7, H6, H5, H4, Ho3, Ho2, Ho1 by discriminate; reflexivity).
    exact Hp9.
Qed.

(** *** The whole builder *)

Lemma createPayload_cases evt :
  (exists err,
      ParseJID (jidString (Chat (Info evt))) = Err err
      /\ createPayload evt = Err (WebhookError ("Invalid JID: " +:+ Error err)))
  \/ (exists jid,
        ParseJID (jidString (Chat (Info evt))) = Ok jid
        /\ createPayload evt = attachContent evt (buildIdentity evt jid (buildHeader evt))).
Proof.
  unfold createPayload. cbv zeta.
  destruct (ParseJID (jidString (Chat (Info evt)))) as [jid|err]; [right|left]; eauto.
Qed.

Lemma mediaFails_spec evt :
  mediaFails evt = true
  <-> exists d err, d ∈ downloads (Msg evt) /\ ExtractMedia (PathMedia config) d = Err err.
Proof.
  unfold mediaFails. rewrite existsb_exists. split.
  - intros (d & Hin & Hf). unfold extractFails in Hf.
    destruct (ExtractMedia (PathMedia config) d) as [|err] eqn:E; [discriminate|].
    exists d, err. split; [by apply list_elem_of_In|exact E].
  - intros (d & err & Hin & E). exists d. split; [by apply list_elem_of_In|].
    unfold extractFails. by rewrite E.
Qed.

(** A way to run the builder on a closed event: decide the property on
    the value it computes. *)
Lemma createPayload_computes evt (P : Payload -> Prop) :
  match createPayload evt with Ok body => P body | Err _ => False end ->
  exists body, createPayload evt = Ok body /\ P body.
Proof. destruct (createPayload evt) as [body|]; [eauto|tauto]. Qed.

(** A payload that was built, in terms of the stages that built it. *)
Lemma createPayload_Ok evt body :
  createPayload evt = Ok body ->
  exists jid,
    ParseJID (jidString (Chat (Info evt))) = Ok jid
    /\ mediaFails evt = false
    /\ attachContent evt (buildIdentity evt jid (buildHeader evt)) = Ok body.
Proof.
  intros Hok. destruct (createPayload_cases evt) as [(err & _ & E)|(jid & Hjid & E)];
    [congruence|].
  exists jid. split; [exact Hjid|]. rewrite E in Hok. split; [|exact Hok].
  destruct (attachContent_outcome evt (buildIdentity evt jid (buildHeader evt)))
    as [[_ [msg Hm]]|[Hf _]]; [congruence|exact Hf].
Qed.

(** Keys that only the header or the identity stage write keep their value
    through the content stage. *)
Lemma createPayload_lookup evt body k :
  createPayload evt = Ok body ->
  k <> "audio" -> k <> "document" -> k <> "image" -> k <> "list" ->
  k <> "live_location" -> k <> "location" -> k <> "order" ->
  k <> "sticker" -> k <> "video" ->
  exists jid,
    ParseJID (jidString (Chat (Info evt))) = Ok jid
    /\ body !! k = buildIdentity evt jid (buildHeader evt) !! k.
Proof.
  intros Hok ? ? ? ? ? ? ? ? ?.
  destruct (createPayload_Ok _ _ Hok) as (jid & Hjid & _ & Hatt).
  exists jid. split; [exact Hjid|].
  destruct (attachContent_outcome evt (buildIdentity evt jid (buildHeader evt)))
    as [[_ [msg Hm]]|[_ (body' & Hb & Hother & _)]]; [congruence|].
  assert (body' = body) as -> by congruence. by apply Hother.
Qed.

(** C5: [createPayload] returns an error, and so no payload, exactly when
    the chat identity does not parse or the extraction of one of the
    event's audio, document, image, sticker or video references fails; the
    error is a [WebhookError]; and when the group-name lookup fails (and
    nothing else does) the payload is still built, without [GroupName]. *)
Theorem createPayload_fails_exactly_when evt :
  ((exists e, createPayload evt = Err e)
   <-> (exists err, ParseJID (jidString (Chat (Info evt))) = Err err)
       \/ (exists d err, d ∈ downloads (Msg evt)
                         /\ ExtractMedia (PathMedia config) d = Err err))
  /\ (forall e, createPayload evt = Err e -> exists msg, e = WebhookError msg)
  /\ (forall jid err,
        ParseJID (jidString (Chat (Info evt))) = Ok jid ->
        GetGroupName jid = Err err ->
        mediaFails evt = false ->
        exists body, createPayload evt = Ok body /\ body !! "GroupName" = None).
Proof.
  split; [split|split].
  - intros [e He]. destruct (createPayload_cases evt) as [(err & Hp & _)|(jid & Hp & E)].
    + left. eauto.
    + right. apply mediaFails_spec. rewrite E in He.
      destruct (attachContent_outcome evt (buildIdentity evt jid (buildHeader evt)))
        as [[Hf _]|[_ (body' & Hb & _)]]; [exact Hf|congruence].
  - intros [[err Hp]|Hm].
    + destruct (createPayload_cases evt) as [(err' & _ & E)|(jid & Hp' & _)];
        [eauto|congruence].
    + apply mediaFails_spec in Hm.
      destruct (createPayload_cases evt) as [(err' & _ & E)|(jid & _ & E)]; [eauto|].
      rewrite E.
      destruct (attachContent_outcome evt (buildIdentity evt jid (buildHeader evt)))
        as [[_ [msg Hmsg]]|[Hf _]]; [eauto|congruence].
  - intros e He. destruct (createPayload_cases evt) as [(err & _ & E)|(jid & _ & E)].
    + rewrite E in He. injection He as <-. eauto.
    + rewrite E in He.
      destruct (attachContent_outcome evt (buildIdentity evt jid (buildHeader evt)))
        as [[_ [msg Hmsg]]|[_ (body' & Hb & _)]]; [|congruence].
      rewrite Hmsg in He. injection He as <-. eauto.
  - intros jid err Hp Hg Hm.
    destruct (createPayload_cases evt) as [(err' & Hp' & _)|(jid' & Hp' & E)]; [congruence|].
    assert (jid' = jid) as -> by congruence.
    destruct (attachContent_outcome evt (buildIdentity evt jid (buildHeader evt)))
      as [[Hf _]|[_ (body & Hb & Hother & _)]]; [congruence|].
    exists body. split; [congruence|].
    rewrite Hother by discriminate.
    rewrite (buildIdentity_GroupName_swallowed _ _ _ _ Hg).
    apply buildHeader_fresh; discriminate.
Qed.

Lemma buildMessageData_fixed evt message :
  buildMessageData evt message !! "ID" = Some (MString (msgID message))
  /\ buildMessageData evt message !! "MessageOrigin"
     = Some (MString (msgQuotedMessage message))
  /\ buildMessageData evt message !! "RepliedId" = Some (MString (msgRepliedId message)).
Proof.
  unfold buildMessageData. cbv zeta.
  destruct (PollUpdate (Msg evt));
    (destruct (ExtendedText (Msg evt)) as [e|];
     [destruct (urlRegexMatchString (extText e))|]);
    rewrite ?lookup_insert_ne by discriminate;
    rewrite ?lookup_if_insert_ne by discriminate;
    by lookup_literal.
Qed.

(** C9, as the code has it: every payload built carries [message.ID],
    [message.MessageOrigin] and [message.RepliedId], and carries
    [SenderNumber] exactly when the event's source string is not empty. *)
Theorem createPayload_always_populates evt body :
  createPayload evt = Ok body ->
  (exists messageData,
      body !! "message" = Some (VMessageData messageData)
      /\ messageData !! "ID" = Some (MString (msgID (buildEventMessage evt)))
      /\ messageData !! "MessageOrigin"
         = Some (MString (msgQuotedMessage (buildEventMessage evt)))
      /\ messageData !! "RepliedId" = Some (MString (msgRepliedId (buildEventMessage evt))))
  /\ body !! "SenderNumber"
     = (if nonEmpty (SourceString (Info evt))
        then Some (VString (SourceString (Info evt))) else None).
Proof.
  intros Hok. split.
  - destruct (createPayload_lookup evt body "message" Hok) as (jid & _ & ->);
      try discriminate.
    rewrite buildIdentity_other by discriminate. rewrite buildHeader_message.
    eexists. split; [reflexivity|]. apply buildMessageData_fixed.
  - destruct (createPayload_lookup evt body "SenderNumber" Hok) as (jid & _ & ->);
      try discriminate.
    rewrite buildIdentity_other by discriminate. apply buildHeader_SenderNumber.
Qed.

(** C4, as the code has it: for an event whose envelope type is media and
    whose formatted message contains the multi-contact marker, every payload
    built has [Type] contact_message, whichever of the audio, image, video,
    document, sticker or contact variants is populated, and such a payload
    is built whenever the chat identity parses and no extraction fails. The
    override is the one of [createPayload]: the classifier itself applies
    its audio, image, video, document and sticker rules before the marker
    rule, so that it answers contact_message exactly when none of these
    five variants is populated, and the kind of the first populated one
    otherwise. *)
Theorem multi_contact_marker_yields_contact_message evt :
  Type_ (Info evt) = "media" ->
  Contains (fmtMessage (Msg evt)) "contactsArrayMessage" = true ->
  (forall body, createPayload evt = Ok body ->
                body !! "Type" = Some (VString "contact_message"))
  /\ (forall jid, ParseJID (jidString (Chat (Info evt))) = Ok jid ->
                  mediaFails evt = false ->
                  exists body, createPayload evt = Ok body)
  /\ (forall text,
        determineMessageType evt text = "contact_message"
        <-> Audio (Msg evt) = None /\ Image (Msg evt) = None /\ Video (Msg evt) = None
            /\ Document (Msg evt) = None /\ Sticker (Msg evt) = None)
  /\ (forall text,
        determineMessageType evt text
        = match Audio (Msg evt), Image (Msg evt), Video (Msg evt),
                Document (Msg evt), Sticker (Msg evt) with
          | Some a, _, _, _, _ => if audioPTT a then "voice_message" else "audio_message"
          | None, Some _, _, _, _ => "image_message"
          | None, None, Some _, _, _ => "video_message"
          | None, None, None, Some _, _ => "document_message"
          | None, None, None, None, Some _ => "sticker_message"
          | None, None, None, None, None => "contact_message"
          end).
Proof.
  intros Hty Hmark.
  assert (Hmc : multiContactInMedia evt = true).
  { unfold multiContactInMedia. rewrite Hty, Hmark. reflexivity. }
  assert (Hkind : forall text,
             determineMessageType evt text
             = match Audio (Msg evt), Image (Msg evt), Video (Msg evt),
                     Document (Msg evt), Sticker (Msg evt) with
               | Some a, _, _, _, _ => if audioPTT a then "voice_message" else "audio_message"
               | None, Some _, _, _, _ => "image_message"
               | None, None, Some _, _, _ => "video_message"
               | None, None, None, Some _, _ => "document_message"
               | None, None, None, None, Some _ => "sticker_message"
               | None, None, None, None, None => "contact_message"
               end).
  { intros text. unfold determineMessageType. cbv zeta. rewrite Hmc.
    destruct (Audio (Msg evt)) as [a|]; [reflexivity|].
    destruct (Image (Msg evt)); [reflexivity|].
    destruct (Video (Msg evt)); [reflexivity|].
    destruct (Document (Msg evt)); [reflexivity|].
    destruct (Sticker (Msg evt)); [reflexivity|].
    cbn [notNil]. by destruct (Contact (Msg evt)). }
  split; [|split; [|split]].
  - intros body Hok.
    destruct (createPayload_lookup evt body "Type" Hok) as (jid & _ & ->);
      try discriminate.
    by rewrite buildIdentity_Type, Hmc.
  - intros jid Hp Hm.
    destruct (createPayload_cases evt) as [(err' & Hp' & _)|(jid' & _ & E)]; [congruence|].
    rewrite E.
    destruct (attachContent_outcome evt (buildIdentity evt jid' (buildHeader evt)))
      as [[Hf _]|[_ (body & Hb & _)]]; [congruence|eauto].
  - intros text. rewrite Hkind.
    destruct (Audio (Msg evt)) as [a|].
    { split; [destruct (audioPTT a); discriminate|by intros [? _]]. }
    destruct (Image (Msg evt)); [split; [discriminate|by intros (_ & ? & _)]|].
    destruct (Video (Msg evt)); [split; [discriminate|by intros (_ & _ & ? & _)]|].
    destruct (Document (Msg evt)); [split; [discriminate|by intros (_ & _ & _ & ? & _)]|].
    destruct (Sticker (Msg evt)); [split; [discriminate|by intros (_ & _ & _ & _ & ?)]|].
    by split.
  - exact Hkind.
Qed.

(** *** Which content keys a built payload has *)

Lemma base_absent evt jid k :
  k <> "IsGroup" -> k <> "GroupName" -> k <> "MyNumber" -> k <> "Type" ->
  k <> "Port" -> k <> "contact" ->
  k <> "SenderNumber" -> k <> "message" -> k <> "PushName" -> k <> "reaction" ->
  k <> "view_once" -> k <> "forwarded" -> k <> "timestamp" ->
  present (buildIdentity evt jid (buildHeader evt)) k = false.
Proof.
  intros. unfold present. rewrite buildIdentity_other by assumption.
  by rewrite buildHeader_fresh by assumption.
Qed.

Lemma createPayload_present evt body :
  createPayload evt = Ok body ->
  present body "audio" = notNil (Audio (Msg evt))
  /\ present body "document" = notNil (Document (Msg evt))
  /\ present body "image" = notNil (Image (Msg evt))
  /\ present body "sticker" = notNil (Sticker (Msg evt))
  /\ present body "video" = notNil (Video (Msg evt))
  /\ present body "contact" = notNil (Contact (Msg evt)) || multiContactInMedia evt
  /\ present body "list" = notNil (List (Msg evt))
  /\ present body "live_location" = notNil (LiveLocation (Msg evt))
  /\ present body "location" = notNil (Location (Msg evt))
  /\ present body "order" = notNil (Order (Msg evt)).
Proof.
  intros Hok. destruct (createPayload_Ok _ _ Hok) as (jid & _ & _ & Hatt).
  destruct (attachContent_outcome evt (buildIdentity evt jid (buildHeader evt)))
    as [[_ [msg Hm]]|[_ (body' & Hb & Hother & Ha & Hd & Hi & Hl & Hll & Hlo & Ho & Hs & Hv)]];
    [congruence|].
  assert (body' = body) as -> by congruence.
  rewrite Ha, Hd, Hi, Hl, Hll, Hlo, Ho, Hs, Hv.
  rewrite !base_absent by discriminate. rewrite !orb_false_r.
  repeat split.
  rewrite (present_ne (buildIdentity evt jid (buildHeader evt)) body "contact")
    by (apply Hother; discriminate).
  apply buildIdentity_contact. apply buildHeader_fresh; discriminate.
Qed.

Lemma notNil_false {A} (o : option A) : notNil o = false <-> o = None.
Proof. destruct o; cbn; split; congruence. Qed.

(** A message with exactly one populated variant is that variant. *)
Lemma one_variant_inv m : populated m = 1%nat -> exists v, m = ofVariant v.
Proof.
  destruct m as [conv ext au im vi doc st co ca lo ll li ord pay p3 p4 p5 pu re].
  unfold populated. cbn [Conversation ExtendedText Audio Image Video Document Sticker
    Contact ContactsArray Location LiveLocation List Order PaymentInvite
    PollCreationV3 PollCreationV4 PollCreationV5 PollUpdate Reaction].
  intros Hpop.
  destruct (String.eqb_spec conv EmptyString) as [->|Hconv].
  2: { rest_unpopulated Hpop. by exists (VarText conv). }
  destruct ext; [rest_unpopulated Hpop; by eexists (VarExtendedText _)|].
  destruct au; [rest_unpopulated Hpop; by eexists (VarAudio _)|].
  destruct im; [rest_unpopulated Hpop; by eexists (VarImage _)|].
  destruct vi; [rest_unpopulated Hpop; by eexists (VarVideo _)|].
  destruct doc; [rest_unpopulated Hpop; by eexists (VarDocument _)|].
  destruct st; [rest_unpopulated Hpop; by eexists (VarSticker _)|].
  destruct co; [rest_unpopulated Hpop; by eexists (VarContact _)|].
  destruct ca; [rest_unpopulated Hpop; by eexists (VarContactsArray _)|].
  destruct lo; [rest_unpopulated Hpop; by eexists (VarLocation _)|].
  destruct ll; [rest_unpopulated Hpop; by eexists (VarLiveLocation _)|].
  destruct li; [rest_unpopulated Hpop; by eexists (VarList _)|].
  destruct ord; [rest_unpopulated Hpop; by eexists (VarOrder _)|].
  destruct pay; [rest_unpopulated Hpop; by eexists (VarPaymentInvite _)|].
  destruct p3; [rest_unpopulated Hpop; by eexists (VarPollCreationV3 _)|].
  destruct p4; [rest_unpopulated Hpop; by eexists (VarPollCreationV4 _)|].
  destruct p5; [rest_unpopulated Hpop; by eexists (VarPollCreationV5 _)|].
  destruct pu; [rest_unpopulated Hpop; by eexists (VarPollUpdate _)|].
  destruct re; [by eexists (VarReaction _)|].
  cbn in Hpop. lia.
Qed.

(** C7, as the code has it: for an event with exactly one populated
    variant, a payload that is built has at most one of the media keys;
    it has a [Type], which is contact_message when the envelope type is
    media and the formatted message contains the multi-contact marker, and
    otherwise goes with every media or content key the payload has; and it
    has [IsGroup], which is true exactly when the string form of the chat
    identity contains the marker of the group domain. *)
Theorem one_variant_payload evt body :
  populated (Msg evt) = 1%nat ->
  createPayload evt = Ok body ->
  (length (presentKeys body mediaKeys) <= 1)%nat
  /\ (exists kind,
        body !! "Type" = Some (VString kind)
        /\ if multiContactInMedia evt then kind = "contact_message"
           else Forall (fun key => consistent kind key = true)
                       (presentKeys body contentKeys))
  /\ body !! "IsGroup" = Some (VBool (Contains (jidString (Chat (Info evt))) "@g.us")).
Proof.
  intros Hpop Hok.
  destruct (createPayload_present _ _ Hok)
    as (Ha & Hd & Hi & Hs & Hv & Hc & Hl & Hll & Hlo & Ho).
  destruct (createPayload_lookup evt body "Type" Hok) as (jid & _ & HT);
    try discriminate.
  destruct (createPayload_lookup evt body "IsGroup" Hok) as (jid' & _ & HG);
    try discriminate.
  rewrite buildIdentity_Type in HT. rewrite buildIdentity_IsGroup in HG.
  unfold presentKeys, contentKeys, mediaKeys. cbn [List.filter app].
  rewrite Ha, Hd, Hi, Hs, Hv, Hc, Hl, Hll, Hlo, Ho.
  clear Ha Hd Hi Hs Hv Hc Hl Hll Hlo Ho Hok.
  split; [|split; [|exact HG]].
  - destruct (one_variant_inv _ Hpop) as [v ->]. destruct v; cbn; lia.
  - eexists. split; [exact HT|].
    destruct (multiContactInMedia evt) eqn:Hmc; [reflexivity|].
    unfold determineMessageType. cbv zeta. rewrite Hmc.
    destruct (one_variant_inv _ Hpop) as [v ->].
    destruct v as [| |m| | | | | | | | | | | | | | | |]; cbn;
      try (repeat constructor; fail).
    destruct (audioPTT m); repeat constructor.
Qed.

(** *** Text and links *)

Lemma reachesTextRule_inv evt :
  reachesTextRule evt = true ->
  multiContactInMedia evt = false
  /\ Audio (Msg evt) = None /\ Image (Msg evt) = None /\ Video (Msg evt) = None
  /\ Document (Msg evt) = None /\ Sticker (Msg evt) = None /\ Contact (Msg evt) = None
  /\ Location (Msg evt) = None /\ LiveLocation (Msg evt) = None /\ List (Msg evt) = None
  /\ Order (Msg evt) = None /\ PaymentInvite (Msg evt) = None
  /\ PollCreationV3 (Msg evt) = None /\ PollCreationV4 (Msg evt) = None
  /\ PollCreationV5 (Msg evt) = None /\ PollUpdate (Msg evt) = None
  /\ Reaction (Msg evt) = None.
Proof.
  unfold reachesTextRule. cbv zeta. rewrite negb_true_iff, !orb_false_iff.
  rewrite !notNil_false. tauto.
Qed.

(** C8, as the code has it: for an event that reaches the text rule of the
    classifier (no media, contact, location, list, order, payment, poll or
    reaction variant, and not the multi-contact rule), has a plain or
    extended text, and whose resolved text is the extended text when there
    is one, the payload is built as soon as the chat identity parses;
    [TextMessage] is the resolved text; and when that text matches the URL
    pattern, [Type] is link_message and [TitleLink] and [LinkDescription]
    are the non-empty title and description of the extended text, while
    otherwise [Type] is text_message and neither key is present. *)
Theorem link_text_payload evt jid :
  reachesTextRule evt = true ->
  nonEmpty (Conversation (Msg evt)) || notNil (ExtendedText (Msg evt)) = true ->
  (forall e, ExtendedText (Msg evt) = Some e -> msgText (buildEventMessage evt) = extText e) ->
  ParseJID (jidString (Chat (Info evt))) = Ok jid ->
  let text := msgText (buildEventMessage evt) in
  let isLink := urlRegexMatchString text in
  exists body messageData,
    createPayload evt = Ok body
    /\ body !! "Type" = Some (VString (if isLink then "link_message" else "text_message"))
    /\ body !! "message" = Some (VMessageData messageData)
    /\ messageData !! "TextMessage" = Some (MString text)
    /\ messageData !! "TitleLink"
       = match ExtendedText (Msg evt) with
         | Some e => if isLink && nonEmpty (extTitle e)
                     then Some (MString (extTitle e)) else None
         | None => None
         end
    /\ messageData !! "LinkDescription"
       = match ExtendedText (Msg evt) with
         | Some e => if isLink && nonEmpty (extDescription e)
                     then Some (MString (extDescription e)) else None
         | None => None
         end.
Proof.
  intros Hreach Htext Htie Hjid text isLink.
  destruct (reachesTextRule_inv _ Hreach)
    as (Hmc & Ha & Hi & Hv & Hd & Hs & Hc & Hlo & Hll & Hl & Ho & Hpay & H3 & H4 & H5
        & Hpu & Hre).
  destruct (createPayload_cases evt) as [(err & Hp & _)|(jid' & _ & E)]; [congruence|].
  destruct (attachContent_outcome evt (buildIdentity evt jid' (buildHeader evt)))
    as [[Hf _]|[_ (body & Hb & Hother & _)]].
  { unfold mediaFails, downloads in Hf. rewrite Ha, Hd, Hi, Hs, Hv in Hf. discriminate. }
  exists body, (buildMessageData evt (buildEventMessage evt)).
  split; [congruence|]. split; [|split].
  - rewrite Hother by discriminate. rewrite buildIdentity_Type, Hmc.
    unfold determineMessageType. cbv zeta.
    rewrite Ha, Hi, Hv, Hd, Hs, Hc, Hmc, Hlo, Hll, Hl, Ho, Hpay, H3, H4, H5, Hpu, Hre.
    cbn [notNil orb]. by rewrite Htext.
  - rewrite Hother by discriminate. rewrite buildIdentity_other by discriminate.
    apply buildHeader_message.
  - unfold buildMessageData. cbv zeta. rewrite Hpu.
    destruct (ExtendedText (Msg evt)) as [e|] eqn:He.
    + subst text isLink. rewrite (Htie e eq_refl).
      destruct (urlRegexMatchString (extText e)); cbn [andb].
      * destruct (nonEmpty (extTitle e)), (nonEmpty (extDescription e));
          by lookup_literal.
      * by lookup_literal.
    + by lookup_literal.
Qed.

End PayloadFacts.

Lemma createPayload_fails_exactly_when_witness :
  (exists e, @createPayload sampleCollaborators
               (imageEvent "5511888@s.whatsapp.net" "media" EmptyString "holiday") = Err e)
  /\ (exists e, @createPayload sampleCollaborators (textEvent "bad jid" "text" "hello") = Err e)
  /\ (exists body, @createPayload sampleCollaborators
                     (textEvent "120364@g.us" "text" "hello") = Ok body
                   /\ body !! "GroupName" = None).
Proof.
  split; [|split].
  - apply (@createPayload_fails_exactly_when sampleCollaborators). right.
    exists (DImage {| imageURL := EmptyString; imageCaption := "holiday" |}),
           (ExternalError "no media URL").
    split; [|reflexivity]. cbn. apply list_elem_of_singleton. reflexivity.
  - apply (@createPayload_fails_exactly_when sampleCollaborators). left.
    exists (ExternalError "malformed JID"). reflexivity.
  - eapply (@createPayload_fails_exactly_when sampleCollaborators); reflexivity.
Defined.

(** C9 as stated fails on an event whose source string is empty: the payload
    is built and has no [SenderNumber]. *)
Lemma createPayload_without_SenderNumber :
  let evt := textEvent EmptyString "text" "hello" in
  SourceString (Info evt) = EmptyString
  /\ exists body, @createPayload sampleCollaborators evt = Ok body
                  /\ body !! "SenderNumber" = None.
Proof.
  cbv zeta. split; [reflexivity|].
  apply createPayload_computes. vm_compute. reflexivity.
Qed.

Lemma createPayload_always_populates_witness :
  exists body messageData,
    @createPayload sampleCollaborators (textEvent "5511888@s.whatsapp.net" "text" "hello")
    = Ok body
    /\ body !! "message" = Some (VMessageData messageData)
    /\ messageData !! "ID" = Some (MString "3EB0A1")
    /\ body !! "SenderNumber" = Some (VString "5511888@s.whatsapp.net").
Proof.
  eexists.
  destruct (@createPayload_always_populates sampleCollaborators
              (textEvent "5511888@s.whatsapp.net" "text" "hello") _ eq_refl)
    as [(messageData & Hm & Hid & _) Hs].
  exists messageData. split; [reflexivity|]. split; [exact Hm|]. split; [exact Hid|exact Hs].
Defined.

(** C4 as stated fails on an image whose envelope type is media and whose
    caption spells the multi-contact marker: both conditions of the rule
    hold and the classifier answers image_message, whatever the text. *)
Lemma multi_contact_marker_classified_as_image :
  let evt := imageEvent "5511888@s.whatsapp.net" "media" "https://mmg.example/1"
                        "contactsArrayMessage" in
  Type_ (Info evt) = "media"
  /\ Contains (@fmtMessage sampleCollaborators (Msg evt)) "contactsArrayMessage" = true
  /\ forall text,
       @determineMessageType sampleCollaborators evt text = "image_message"
       /\ @determineMessageType sampleCollaborators evt text <> "contact_message".
Proof.
  cbv zeta. split; [reflexivity|]. split; [reflexivity|].
  intros text. split; [reflexivity|]. discriminate.
Qed.

Lemma multi_contact_marker_yields_contact_message_witness :
  let evt := imageEvent "5511888@s.whatsapp.net" "media" "https://mmg.example/1"
                        "contactsArrayMessage" in
  Image (Msg evt) <> None
  /\ (exists body, @createPayload sampleCollaborators evt = Ok body
                   /\ body !! "Type" = Some (VString "contact_message"))
  /\ @determineMessageType sampleCollaborators evt "holiday" = "image_message".
Proof.
  cbv zeta. split; [discriminate|].
  destruct (@multi_contact_marker_yields_contact_message sampleCollaborators
              (imageEvent "5511888@s.whatsapp.net" "media" "https://mmg.example/1"
                          "contactsArrayMessage") eq_refl eq_refl)
    as (Hty & _ & _ & Hkind).
  split; [|exact (Hkind "holiday")].
  eexists. split; [reflexivity|]. apply Hty. reflexivity.
Defined.

(** C7 as stated fails on an image whose chat identity has the group marker
    inside it and whose caption spells the multi-contact marker: one variant
    is populated, [IsGroup] is true although the identity does not end in
    the group suffix, and [Type] is contact_message although the media key
    present is [image]. *)
Lemma one_variant_payload_disagrees :
  let evt := imageEvent "120363@g.us.archive" "media" "https://mmg.example/1"
                        "see contactsArrayMessage" in
  populated (Msg evt) = 1%nat
  /\ HasSuffix (jidString (Chat (Info evt))) "@g.us" = false
  /\ exists body,
       @createPayload sampleCollaborators evt = Ok body
       /\ body !! "IsGroup" = Some (VBool true)
       /\ body !! "Type" = Some (VString "contact_message")
       /\ presentKeys body mediaKeys = ["image"]
       /\ consistent "contact_message" "image" = false.
Proof.
  cbv zeta. split; [reflexivity|]. split; [reflexivity|].
  apply createPayload_computes. vm_compute. by repeat split.
Qed.

Lemma one_variant_payload_witness :
  let evt := imageEvent "120363@g.us" "image" "https://mmg.example/1" "holiday" in
  exists body,
    @createPayload sampleCollaborators evt = Ok body
    /\ (length (presentKeys body mediaKeys) <= 1)%nat
    /\ (exists kind, body !! "Type" = Some (VString kind)
                     /\ Forall (fun key => consistent kind key = true)
                               (presentKeys body contentKeys))
    /\ body !! "IsGroup" = Some (VBool true).
Proof.
  cbv zeta.
  destruct (@createPayload_computes sampleCollaborators
              (imageEvent "120363@g.us" "image" "https://mmg.example/1" "holiday")
              (fun _ => True)) as (body & Hok & _); [vm_compute; exact I|].
  exists body. split; [exact Hok|].
  exact (@one_variant_payload sampleCollaborators
           (imageEvent "120363@g.us" "image" "https://mmg.example/1" "holiday")
           body eq_refl Hok).
Defined.

(** C8 as stated fails on a text whose envelope type is media and which
    spells the multi-contact marker: the resolved text matches the URL
    pattern and [Type] is contact_message. *)
Lemma link_text_classified_as_contact :
  let evt := textEvent "5511888@s.whatsapp.net" "media"
                       "contactsArrayMessage https://example.com" in
  populated (Msg evt) = 1%nat
  /\ urlRegexMatchString (msgText (@buildEventMessage sampleCollaborators evt)) = true
  /\ exists body,
       @createPayload sampleCollaborators evt = Ok body
       /\ body !! "Type" = Some (VString "contact_message").
Proof.
  cbv zeta. split; [reflexivity|]. split; [reflexivity|].
  apply createPayload_computes. vm_compute. reflexivity.
Qed.

Lemma link_text_payload_witness :
  let evt := textEvent "5511888@s.whatsapp.net" "text" "check https://example.com now" in
  exists body messageData,
    @createPayload sampleCollaborators evt = Ok body
    /\ body !! "Type" = Some (VString "link_message")
    /\ body !! "message" = Some (VMessageData messageData)
    /\ messageData !! "TextMessage" = Some (MString "check https://example.com now").
Proof.
  cbv zeta.
  destruct (@link_text_payload sampleCollaborators
              (textEvent "5511888@s.whatsapp.net" "text" "check https://example.com now")
              {| jidString := "5511888@s.whatsapp.net" |} eq_refl eq_refl)
    as (body & messageData & Hok & Hty & Hm & Htext & _).
  - intros e He. discriminate He.
  - reflexivity.
  - exists body, messageData. split; [exact Hok|]. split; [exact Hty|]. split; [exact Hm|].
    exact Htext.
Defined.

(** * Further properties of the code *)

(** ** Delivery: bounds, set-up failures, what is sent *)

Section DeliveryBounds.
Context `{!Transport}.

Lemma failedRounds_requests req rounds d :
  requests (failedRounds req rounds d) = replicate (length rounds) req.
Proof.
  revert d. induction rounds as [|[data e] rounds IH]; intros d; cbn;
    [reflexivity|by rewrite IH].
Qed.

Lemma failedRounds_failures req rounds d :
  failures (failedRounds req rounds d) = length rounds.
Proof.
  revert d. induction rounds as [|[data e] rounds IH]; intros d; cbn;
    [reflexivity|by rewrite IH].
Qed.

Lemma failedRounds_calls req rounds d :
  callsOf (failedRounds req rounds d) = failedCalls req rounds.*2 d.
Proof.
  revert d. induction rounds as [|[data e] rounds IH]; intros d; cbn;
    [reflexivity|by rewrite IH].
Qed.

Lemma failedRounds_reads req rounds d :
  bytesRead (failedRounds req rounds d) = readIn rounds.
Proof.
  unfold bytesRead.
  revert d. induction rounds as [|[data e] rounds IH]; intros d; cbn;
    [reflexivity|by rewrite IH].
Qed.

Lemma requests_app h1 h2 : requests (h1 ++ h2) = (requests h1 ++ requests h2)%list.
Proof.
  induction h1 as [|[req o|d|data] h1 IH]; cbn;
    [reflexivity|by rewrite IH|exact IH|exact IH].
Qed.

Lemma failures_app h1 h2 : failures (h1 ++ h2) = (failures h1 + failures h2)%nat.
Proof.
  induction h1 as [|[req [e|]|d|data] h1 IH]; cbn;
    [reflexivity|by rewrite IH|exact IH|exact IH|exact IH].
Qed.

Lemma sleeps_app h1 h2 : sleeps (h1 ++ h2) = (sleeps h1 ++ sleeps h2)%list.
Proof.
  induction h1 as [|[req o|d|data] h1 IH]; cbn;
    [reflexivity|exact IH|by rewrite IH|exact IH].
Qed.

Lemma callsOf_app h1 h2 : callsOf (h1 ++ h2) = (callsOf h1 ++ callsOf h2)%list.
Proof.
  induction h1 as [|[req o|d|data] h1 IH]; cbn;
    [reflexivity|by rewrite IH|by rewrite IH|exact IH].
Qed.

Lemma bytesRead_app h1 h2 : bytesRead (h1 ++ h2) = bytesRead h1 +:+ bytesRead h2.
Proof.
  unfold bytesRead.
  induction h1 as [|[req o|d|data] h1 IH]; cbn; [reflexivity|exact IH|exact IH|].
  by rewrite IH, string_app_assoc.
Qed.

(** The sleeps of at most five failed rounds are the start of the schedule:
    the doubling never wraps around. *)
Lemma failedRounds_sleeps req rounds :
  (length rounds <= 5)%nat ->
  sleeps (failedRounds req rounds (seconds 1)) = take (length rounds) backoffSchedule.
Proof.
  intros Hl.
  destruct rounds as [|[d1 e1] [|[d2 e2] [|[d3 e3] [|[d4 e4] [|[d5 e5] [|r6 rounds]]]]]];
    try reflexivity.
  cbn in Hl. lia.
Qed.

(** Every delivery that gets as far as sending: fewer than five failed
    rounds and a success, or five failed rounds and the error that names the
    last cause; what the requests read is, in order, the start of the
    serialised payload. *)
Lemma SubmitWebhook_outcome secret payload url req h :
  requestFor secret payload url = Some req ->
  exists postBody rounds,
    jsonMarshal payload = Ok postBody
    /\ ((exists data rest,
            run (SubmitWebhook secret payload url) h
            = (None,
               (h ++ failedRounds req rounds (seconds 1)
                  ++ [EvRead data; EvDo req None])%list)
            /\ (length rounds < 5)%nat
            /\ postBody = readIn rounds +:+ data +:+ rest)
        \/ (exists rest,
              run (SubmitWebhook secret payload url) h
              = (Some (WebhookError
                         ("Failed after 5 attempts: "
                            +:+ fmt_v_err (lastErr rounds.*2 None))),
                 (h ++ failedRounds req rounds (seconds 1))%list)
              /\ length rounds = 5%nat
              /\ postBody = readIn rounds +:+ rest)).
Proof.
  intros Hreq. destruct (SubmitWebhook_run _ _ _ _ h Hreq) as (postBody & Hm & ->).
  exists postBody.
  destruct (retryLoop_spec req 5 postBody 0 (seconds 1) None h)
    as [rounds [(data & rest & Hr & Hl & Hb)|(rest & Hr & Hl & Hb)]];
    rewrite Hr; exists rounds; (split; [exact Hm|]).
  - left. by exists data, rest.
  - right. by exists rest.
Qed.

Lemma attemptedURLs_requests h : attemptedURLs h = URL <$> requests h.
Proof.
  induction h as [|[req o|d|data] h IH]; cbn;
    [reflexivity|by rewrite IH|exact IH|exact IH].
Qed.

Lemma attemptedURLs_app h1 h2 :
  attemptedURLs (h1 ++ h2) = (attemptedURLs h1 ++ attemptedURLs h2)%list.
Proof. by rewrite !attemptedURLs_requests, requests_app, fmap_app. Qed.

Lemma requestFor_inv secret payload url req :
  requestFor secret payload url = Some req ->
  exists postBody signature,
    jsonMarshal payload = Ok postBody
    /\ urlParseError url = None
    /\ getMessageDigestOrSignature postBody secret = Ok signature
    /\ req = {| Method := "POST"; URL := url;
                ContentLength := Z.of_nat (String.length postBody);
                Header := <["X-Hub-Signature-256" := "sha256=" +:+ signature]>
                          (<["Content-Type" := "application/json"]> ∅) |}.
Proof.
  unfold requestFor, NewRequest, NewBuffer.
  destruct (jsonMarshal payload) as [postBody|] eqn:Hm; [|discriminate].
  destruct (urlParseError url) eqn:Hu; [discriminate|].
  destruct (getMessageDigestOrSignature postBody secret) as [signature|] eqn:Hs;
    [|discriminate].
  intros [= <-]. exists postBody, signature.
  split; [reflexivity|]. split; [reflexivity|]. split; [exact Hs|reflexivity].
Qed.

(** The history of any delivery, as far as the later proofs need it. *)
Lemma SubmitWebhook_history secret payload url h :
  exists r h' n,
    run (SubmitWebhook secret payload url) h = (r, (h ++ h')%list)
    /\ requests h' = replicate n (default {| Method := EmptyString; URL := url;
                                             ContentLength := 0; Header := ∅ |}
                                          (requestFor secret payload url))
    /\ attemptedURLs h' = replicate n url
    /\ (n <= 5)%nat
    /\ (is_Some (requestFor secret payload url) -> (1 <= n)%nat)
    /\ (requestFor secret payload url = None -> n = 0%nat)
    /\ (forall postBody, jsonMarshal payload = Ok postBody ->
                         exists rest, postBody = bytesRead h' +:+ rest).
Proof.
  destruct (requestFor secret payload url) as [req|] eqn:Hreq.
  - pose proof (requestFor_URL _ _ _ _ Hreq) as Hurl.
    destruct (SubmitWebhook_outcome _ _ _ _ h Hreq)
      as (postBody & rounds & Hm & [(data & rest & Hr & Hl & Hb)|(rest & Hr & Hl & Hb)]).
    + exists None, (failedRounds req rounds (seconds 1) ++ [EvRead data; EvDo req None])%list,
             (S (length rounds)).
      split; [exact Hr|].
      assert (Hq : requests (failedRounds req rounds (seconds 1)
                               ++ [EvRead data; EvDo req None])
                   = replicate (S (length rounds)) req).
      { rewrite requests_app, failedRounds_requests. cbn.
        by rewrite <- replicate_cons_app. }
      split; [exact Hq|]. split.
      { rewrite attemptedURLs_requests, Hq, fmap_replicate. by rewrite Hurl. }
      split; [lia|]. split; [lia|]. split; [discriminate|].
      intros postBody' Hm'. rewrite Hm in Hm'. injection Hm' as <-.
      exists rest. rewrite bytesRead_app, failedRounds_reads.
      unfold bytesRead. cbn. by rewrite string_app_nil_r, string_app_assoc.
    + eexists (Some _), (failedRounds req rounds (seconds 1)), (length rounds).
      split; [exact Hr|]. split; [apply failedRounds_requests|]. split.
      { rewrite attemptedURLs_requests, failedRounds_requests, fmap_replicate.
        by rewrite Hurl. }
      split; [lia|]. split; [lia|]. split; [discriminate|].
      intros postBody' Hm'. rewrite Hm in Hm'. injection Hm' as <-.
      exists rest. by rewrite failedRounds_reads.
  - destruct (SubmitWebhook_not_sent _ _ _ h Hreq) as [msg Hr].
    eexists (Some _), [], 0%nat. rewrite app_nil_r. split; [exact Hr|].
    split; [reflexivity|]. split; [reflexivity|]. split; [lia|].
    split; [by intros [? ?]|]. split; [reflexivity|].
    intros postBody _. by exists postBody.
Qed.

(** X1: whatever the network does, a delivery that gets as far as sending
    consists of failed rounds, each a request followed by a sleep, and then,
    when nil is returned and only then, one successful request that is its
    last. There are between one and five requests, each of them the same
    request; the sleeps are 1s, 2s, 4s, 8s and 16s in that order and so
    never more than 31 seconds in all; nil is returned exactly when the
    last request succeeded, an error exactly when five requests failed. *)
Theorem SubmitWebhook_bounded_retries secret payload url req h :
  requestFor secret payload url = Some req ->
  exists r h' errs,
    run (SubmitWebhook secret payload url) h = (r, (h ++ h')%list)
    /\ callsOf h'
       = (failedCalls req errs (seconds 1)
            ++ match r with None => [EvDo req None] | Some _ => [] end)%list
    /\ (length errs <= 5)%nat
    /\ (r = None <-> last (outcomes h') = Some None)
    /\ (r <> None <-> length errs = 5%nat)
    /\ (1 <= attempts h' <= 5)%nat
    /\ requests h' = replicate (attempts h') req
    /\ sleeps h' = take (failures h') backoffSchedule
    /\ 0 <= totalSleep h' <= seconds 31
    /\ (r = None <-> S (failures h') = attempts h')
    /\ (r <> None <-> failures h' = 5%nat).
Proof.
  intros Hreq.
  destruct (SubmitWebhook_outcome _ _ _ _ h Hreq)
    as (postBody & rounds & _ & [(data & rest & Hr & Hl & _)|(rest & Hr & Hl & _)]).
  - exists None. eexists. exists rounds.*2. split; [exact Hr|].
    destruct rounds as [|[d1 e1] [|[d2 e2] [|[d3 e3] [|[d4 e4] [|r5 rounds]]]]];
      [| | | | |cbn in Hl; lia];
      cbn; (split; [reflexivity|]); (split; [lia|]);
      (split; [split; reflexivity|]);
      (split; [split; [intros Hne; by destruct Hne|discriminate]|]);
      (split; [lia|]); (split; [reflexivity|]); (split; [reflexivity|]);
      (split; [vm_compute; split; discriminate|]);
      (split; [split; [reflexivity|]; intros _; reflexivity|]);
      (split; [intros Hne; by destruct Hne|discriminate]).
  - eexists (Some _). eexists. exists rounds.*2. split; [exact Hr|].
    destruct rounds as [|[d1 e1] [|[d2 e2] [|[d3 e3] [|[d4 e4] [|[d5 e5] [|r6 rounds]]]]]];
      try discriminate Hl.
    cbn. split; [reflexivity|]. split; [lia|].
    split; [split; discriminate|]. split; [split; [reflexivity|discriminate]|].
    split; [lia|]. split; [reflexivity|]. split; [reflexivity|].
    split; [vm_compute; split; discriminate|].
    split; [split; [discriminate|]; intros [=]|]. split; [reflexivity|discriminate].
Qed.

(** X2: when the payload cannot be serialised, the URL cannot be parsed or
    the signature cannot be computed, the delivery returns a [WebhookError]
    that says which, and neither sends a request nor sleeps. *)
Theorem SubmitWebhook_setup_failure_sends_nothing secret payload url h :
  (forall err, jsonMarshal payload = Err err ->
     run (SubmitWebhook secret payload url) h
     = (Some (WebhookError ("Failed to marshal body: " +:+ Error err)), h))
  /\ (forall postBody err,
        jsonMarshal payload = Ok postBody -> urlParseError url = Some err ->
        run (SubmitWebhook secret payload url) h
        = (Some (WebhookError ("Error when creating HTTP request: " +:+ Error err)), h))
  /\ (forall postBody err,
        jsonMarshal payload = Ok postBody -> urlParseError url = None ->
        getMessageDigestOrSignature postBody secret = Err err ->
        run (SubmitWebhook secret payload url) h
        = (Some (WebhookError ("Error when creating signature: " +:+ Error err)), h)).
Proof.
  unfold SubmitWebhook, NewRequest. split; [|split].
  - by intros err ->.
  - by intros postBody err -> ->.
  - by intros postBody err -> -> ->.
Qed.

(** X3: every request a delivery sends is a POST to the given URL that
    declares the length of the serialised payload and whose two headers are
    the JSON content type and the signature computed over that payload with
    the secret. The body is read from one buffer that all attempts share:
    what the requests of a delivery read, put together in order, is the
    start of the serialised payload, so that a byte one attempt has read is
    not there for a later attempt. *)
Theorem SubmitWebhook_sends_signed_post secret payload url h :
  exists r h',
    run (SubmitWebhook secret payload url) h = (r, (h ++ h')%list)
    /\ (forall q, q ∈ requests h' ->
          Method q = "POST" /\ URL q = url
          /\ exists postBody signature,
               jsonMarshal payload = Ok postBody
               /\ ContentLength q = Z.of_nat (String.length postBody)
               /\ getMessageDigestOrSignature postBody secret = Ok signature
               /\ Header q !! "Content-Type" = Some "application/json"
               /\ Header q !! "X-Hub-Signature-256" = Some ("sha256=" +:+ signature)
               /\ dom (Header q) = {["Content-Type"; "X-Hub-Signature-256"]})
    /\ (forall postBody, jsonMarshal payload = Ok postBody ->
                         exists rest, postBody = bytesRead h' +:+ rest).
Proof.
  destruct (SubmitWebhook_history secret payload url h)
    as (r & h' & n & Hr & Hq & _ & _ & _ & Hnone & Hread).
  exists r, h'. split; [exact Hr|]. split; [|exact Hread].
  intros q Hin. rewrite Hq in Hin.
  apply elem_of_replicate in Hin as [-> Hn].
    destruct (requestFor secret payload url) as [req|] eqn:Hreq;
      [|specialize (Hnone eq_refl); lia].
    destruct (requestFor_inv _ _ _ _ Hreq) as (postBody & signature & Hm & _ & Hs & ->).
    cbn. split; [reflexivity|]. split; [reflexivity|].
    exists postBody, signature. split; [exact Hm|]. split; [reflexivity|].
    split; [exact Hs|]. split; [by lookup_literal|]. split; [by lookup_literal|].
    rewrite !dom_insert_L, dom_empty_L. set_solver.
Qed.

(** The loop of [forwardToWebhook] on a network that always answers. *)
Lemma forwardLoop_all_answer secret payload urls :
  (forall h req, clientDo h req = None) ->
  (forall url, url ∈ urls -> is_Some (requestFor secret payload url)) ->
  forall h,
  exists h',
    run (forwardLoop secret payload urls) h = (None, (h ++ h')%list)
    /\ attemptedURLs h' = urls /\ sleeps h' = [].
Proof.
  intros Hnet. induction urls as [|url urls IH]; intros Hreq h.
  - exists []. by rewrite app_nil_r.
  - destruct (Hreq url) as [req Hr]; [apply elem_of_cons; by left|].
    cbn [forwardLoop]. rewrite run_bind.
    destruct (SubmitWebhook_run _ _ _ _ h Hr) as (postBody & _ & ->).
    rewrite (retryLoop_success _ _ _ _ _ _ _ (Hnet h req)).
    set (data := (Next (clientRead h req) postBody).1).
    destruct (IH (fun u Hu => Hreq u (list_elem_of_further _ _ _ Hu))
                 (h ++ [EvRead data; EvDo req None])%list)
      as (h' & Hrun & Hurls & Hsl).
    exists (EvRead data :: EvDo req None :: h'). rewrite Hrun.
    split; [by rewrite <- app_assoc|]. cbn.
    by rewrite Hurls, Hsl, (requestFor_URL _ _ _ _ Hr).
Qed.

Lemma occurrences_app url l1 l2 :
  occurrences url (l1 ++ l2) = (occurrences url l1 + occurrences url l2)%nat.
Proof. induction l1 as [|u l1 IH]; cbn; [reflexivity|rewrite IH; lia]. Qed.

Lemma occurrences_replicate url n u :
  occurrences url (replicate n u) = if String.eqb url u then n else 0%nat.
Proof.
  induction n as [|n IH]; cbn; [by destruct (String.eqb url u)|].
  rewrite IH. by destruct (String.eqb url u).
Qed.

(** X4: the notification loop of the call-ended handler goes through the
    whole list whatever the network does. The requests go URL by URL in the
    order of the configuration: every configured URL gets between one and
    five requests in a row, none when no request can be set up for it, and
    the loop goes on to the next. So no URL is requested more than five
    times for each time it is configured, and no other URL is requested. *)
Theorem notifyLoop_requests_every_url secret payload urls h :
  exists h' ns,
    run (notifyLoop secret payload urls) h = (tt, (h ++ h')%list)
    /\ attemptedURLs h' = concat (zip_with replicate ns urls)
    /\ Forall2 (fun n url =>
                  (n <= 5)%nat
                  /\ (is_Some (requestFor secret payload url) -> (1 <= n)%nat)
                  /\ (requestFor secret payload url = None -> n = 0%nat))
               ns urls
    /\ (forall url, requestsTo url h' <= 5 * occurrences url urls)%nat
    /\ (forall url, url ∈ urls -> is_Some (requestFor secret payload url) ->
                    url ∈ attemptedURLs h')
    /\ (forall url, url ∈ attemptedURLs h' -> url ∈ urls)
    /\ (attempts h' <= 5 * length urls)%nat.
Proof.
  revert h. induction urls as [|url urls IH]; intros h.
  - exists [], []. rewrite app_nil_r. split; [reflexivity|]. split; [reflexivity|].
    split; [constructor|]. split; [intros u; cbn; lia|]. split.
    + intros u Hu. by apply elem_of_nil in Hu.
    + split; [by intros u Hu|cbn; lia].
  - destruct (SubmitWebhook_history secret payload url h)
      as (r & h1 & n & Hr & _ & Hu1 & Hn & Hsome & Hnone & _).
    destruct (IH (h ++ h1)%list) as (h2 & ns & Hrun & Hseq & Hns & Hper & Hall & Honly & Hcount).
    exists (h1 ++ h2)%list, (n :: ns). cbn [notifyLoop]. rewrite run_bind, Hr, Hrun.
    split; [by rewrite <- app_assoc|].
    unfold requestsTo. rewrite attemptedURLs_app, Hu1.
    split; [by rewrite Hseq|]. split; [by constructor|]. split; [|split; [|split]].
    + intros u. rewrite occurrences_app, occurrences_replicate. cbn [occurrences].
      specialize (Hper u). unfold requestsTo in Hper.
      destruct (String.eqb u url); lia.
    + intros u Hu Hreq. apply elem_of_app. apply elem_of_cons in Hu as [->|Hu].
      * left. specialize (Hsome Hreq). destruct n; [lia|]. apply elem_of_cons. by left.
      * right. by apply Hall.
    + intros u Hu. apply elem_of_app in Hu as [Hu|Hu].
      * apply elem_of_replicate in Hu as [-> _]. apply elem_of_cons. by left.
      * apply elem_of_cons. right. by apply Honly.
    + unfold attempts in *. rewrite attemptedURLs_app, length_app, Hu1, length_replicate.
      cbn [length]. lia.
Qed.

End DeliveryBounds.

Lemma SubmitWebhook_bounded_retries_witness :
  exists r h' errs,
    run (@SubmitWebhook flakyTransport "secret" ∅ "http://c.example/hook") [] = (r, h')
    /\ callsOf h'
       = (failedCalls (sampleRequest "http://c.example/hook") errs (seconds 1)
            ++ match r with
               | None => [EvDo (sampleRequest "http://c.example/hook") None]
               | Some _ => []
               end)%list
    /\ (r = None <-> last (outcomes h') = Some None)
    /\ (1 <= attempts h' <= 5)%nat
    /\ sleeps h' = take (failures h') backoffSchedule.
Proof.
  destruct (@SubmitWebhook_bounded_retries flakyTransport "secret" ∅
              "http://c.example/hook" (sampleRequest "http://c.example/hook") [] eq_refl)
    as (r & h' & errs & Hr & Hc & _ & Hlast & _ & Ha & _ & Hs & _).
  exists r, h', errs. split; [exact Hr|]. split; [exact Hc|]. split; [exact Hlast|].
  split; [exact Ha|exact Hs].
Defined.

(** On a network that takes every request in full and never answers, the
    first attempt reads the whole body and the four retries find the buffer
    empty: they declare the length of the payload and have no byte of it
    left to send. *)
Example SubmitWebhook_retries_find_body_read :
  let h := snd (run (@SubmitWebhook silentTransport "secret" ∅ "http://c.example/hook") []) in
  reads h = ["{}"; EmptyString; EmptyString; EmptyString; EmptyString]
  /\ ContentLength <$> requests h = [2; 2; 2; 2; 2].
Proof. vm_compute. by split. Qed.

Lemma SubmitWebhook_setup_failure_sends_nothing_witness :
  run (@SubmitWebhook sampleTransport "secret" ∅ "ftp://a.example/hook") []
  = (Some (WebhookError "Error when creating HTTP request: unsupported protocol scheme"), []).
Proof.
  destruct (@SubmitWebhook_setup_failure_sends_nothing sampleTransport "secret" ∅
              "ftp://a.example/hook" []) as (_ & Hurl & _).
  exact (Hurl "{}" (ExternalError "unsupported protocol scheme") eq_refl eq_refl).
Defined.

(** ** Forwarding an event *)

Section ForwardFacts.
Context `{!Transport} `{!Collaborators}.

(** X5: when the chat identity of the event does not parse, or one of its
    media references cannot be extracted, [forwardToWebhook] returns a
    [WebhookError] and contacts no subscriber. *)
Theorem forwardToWebhook_unbuilt_sends_nothing evt h :
  (exists err, ParseJID (jidString (Chat (Info evt))) = Err err) \/ mediaFails evt = true ->
  exists msg, run (forwardToWebhook evt) h = (Some (WebhookError msg), h).
Proof.
  intros Hfail. unfold forwardToWebhook.
  destruct (createPayload_cases evt) as [(err & _ & ->)|(jid & Hjid & ->)]; [by eexists|].
  destruct Hfail as [[err Herr]|Hm]; [congruence|].
  destruct (attachContent_outcome evt (buildIdentity evt jid (buildHeader evt)))
    as [[_ [msg ->]]|[Hf _]]; [by eexists|congruence].
Qed.

(** X6: when the payload is built, a request can be set up for every
    configured URL and the network answers every request, [forwardToWebhook]
    returns nil after exactly one request per configured URL, in the order
    of the configuration, without sleeping. *)
Theorem forwardToWebhook_delivers_in_order evt payload h :
  createPayload evt = Ok payload ->
  (forall url, url ∈ WhatsappWebhook config ->
               is_Some (requestFor (WhatsappWebhookSecret config) payload url)) ->
  (forall h' req, clientDo h' req = None) ->
  exists h',
    run (forwardToWebhook evt) h = (None, (h ++ h')%list)
    /\ attemptedURLs h' = WhatsappWebhook config
    /\ sleeps h' = [].
Proof.
  intros Hok Hreq Hnet. unfold forwardToWebhook. rewrite Hok.
  by apply forwardLoop_all_answer.
Qed.

End ForwardFacts.

Lemma forwardToWebhook_unbuilt_sends_nothing_witness :
  exists msg,
    run (@forwardToWebhook sampleTransport sampleCollaborators
           (textEvent "bad jid" "text" "hello")) []
    = (Some (WebhookError msg), []).
Proof.
  apply (@forwardToWebhook_unbuilt_sends_nothing sampleTransport sampleCollaborators).
  left. by exists (ExternalError "malformed JID").
Defined.

Lemma forwardToWebhook_delivers_in_order_witness :
  exists h',
    run (@forwardToWebhook answeringTransport sampleCollaborators
           (textEvent "5511888@s.whatsapp.net" "text" "hello")) []
    = (None, h')
    /\ attemptedURLs h' = ["http://a.example/hook"; "http://b.example/hook"].
Proof.
  destruct (@createPayload_computes sampleCollaborators
              (textEvent "5511888@s.whatsapp.net" "text" "hello") (fun _ => True))
    as (payload & Hok & _); [vm_compute; exact I|].
  destruct (@forwardToWebhook_delivers_in_order answeringTransport sampleCollaborators
              (textEvent "5511888@s.whatsapp.net" "text" "hello") payload [] Hok)
    as (h' & Hr & Hu & _).
  - intros url _. unfold requestFor. cbn. eauto.
  - reflexivity.
  - exists h'. split; [exact Hr|exact Hu].
Defined.

(** ** The classifier *)

(** Case analysis along a chain of conditionals. *)
Ltac split_ifs :=
  repeat match goal with
         | |- context [if ?b then _ else _] => destruct b eqn:?
         end.

Section ClassifierFacts.
Context `{!Collaborators}.

Lemma determineMessageType_in_kinds evt text :
  determineMessageType evt text ∈ messageKinds.
Proof.
  unfold determineMessageType, messageKinds. cbv zeta.
  destruct (Audio (Msg evt)) as [audio|]; split_ifs;
    apply list_elem_of_In; cbn; tauto.
Qed.

(** X7: the classifier always answers one of the seventeen kinds. *)
Theorem determineMessageType_range evt text :
  determineMessageType evt text ∈ messageKinds.
Proof. apply determineMessageType_in_kinds. Qed.

(** An event with an audio message is a voice message when the audio is
    marked push-to-talk and an audio message otherwise, whatever else the
    event carries. *)
Theorem determineMessageType_audio_first evt text audio :
  Audio (Msg evt) = Some audio ->
  determineMessageType evt text
  = if audioPTT audio then "voice_message" else "audio_message".
Proof. intros Ha. unfold determineMessageType. cbv zeta. by rewrite Ha. Qed.

(** X8: the classifier answers unknown exactly when none of the variants it
    looks at is populated, the conversation is empty and the multi-contact
    rule does not apply. *)
Theorem determineMessageType_unknown_iff evt text :
  determineMessageType evt text = "unknown"
  <-> reachesTextRule evt = true
      /\ Conversation (Msg evt) = EmptyString
      /\ ExtendedText (Msg evt) = None.
Proof.
  unfold determineMessageType, reachesTextRule. cbv zeta.
  rewrite negb_true_iff.
  destruct (Audio (Msg evt)) as [audio|].
  { cbn. split; [destruct (audioPTT audio); discriminate|]. intros [? _]. discriminate. }
  cbn [notNil orb].
  destruct (notNil (Image (Msg evt))); [cbn; split; [discriminate|by intros [? _]]|].
  destruct (notNil (Video (Msg evt))); [cbn; split; [discriminate|by intros [? _]]|].
  destruct (notNil (Document (Msg evt))); [cbn; split; [discriminate|by intros [? _]]|].
  destruct (notNil (Sticker (Msg evt))); [cbn; split; [discriminate|by intros [? _]]|].
  destruct (notNil (Contact (Msg evt))); [cbn; split; [discriminate|by intros [? _]]|].
  destruct (multiContactInMedia evt); [cbn; split; [discriminate|by intros [? _]]|].
  destruct (notNil (Location (Msg evt))); [cbn; split; [discriminate|by intros [? _]]|].
  destruct (notNil (LiveLocation (Msg evt))); [cbn; split; [discriminate|by intros [? _]]|].
  destruct (notNil (List (Msg evt))); [cbn; split; [discriminate|by intros [? _]]|].
  destruct (notNil (Order (Msg evt))); [cbn; split; [discriminate|by intros [? _]]|].
  destruct (notNil (PaymentInvite (Msg evt))); [cbn; split; [discriminate|by intros [? _]]|].
  destruct (notNil (PollCreationV3 (Msg evt))); [cbn; split; [discriminate|by intros [? _]]|].
  destruct (notNil (PollCreationV4 (Msg evt))); [cbn; split; [discriminate|by intros [? _]]|].
  destruct (notNil (PollCreationV5 (Msg evt))); [cbn; split; [discriminate|by intros [? _]]|].
  destruct (notNil (PollUpdate (Msg evt))); [cbn; split; [discriminate|by intros [? _]]|].
  destruct (notNil (Reaction (Msg evt))); [cbn; split; [discriminate|by intros [? _]]|].
  cbn [orb].
  destruct (nonEmpty (Conversation (Msg evt))) eqn:Hc;
    destruct (ExtendedText (Msg evt)) as [e|] eqn:He; cbn [notNil orb].
  - split; [destruct (urlRegexMatchString text); discriminate|]. by intros (_ & _ & ?).
  - split; [destruct (urlRegexMatchString text); discriminate|].
    intros (_ & Hempty & _). apply nonEmpty_false in Hempty. congruence.
  - split; [destruct (urlRegexMatchString text); discriminate|]. by intros (_ & _ & ?).
  - split; [|reflexivity]. intros _. split; [reflexivity|].
    split; [by apply nonEmpty_false|reflexivity].
Qed.

(** The text handed to the classifier matters only for an event that
    reaches its text rule, and link_message is answered only there and only
    for a text that matches the URL pattern. *)
Theorem determineMessageType_text_only_at_text_rule evt :
  (reachesTextRule evt = false ->
   forall text1 text2, determineMessageType evt text1 = determineMessageType evt text2)
  /\ (forall text, determineMessageType evt text = "link_message" ->
                   reachesTextRule evt = true /\ urlRegexMatchString text = true).
Proof.
  unfold determineMessageType, reachesTextRule. cbv zeta.
  destruct (Audio (Msg evt)) as [audio|].
  { split; [reflexivity|]. intros text. destruct (audioPTT audio); discriminate. }
  cbn [notNil orb].
  destruct (notNil (Image (Msg evt))); [by split|].
  destruct (notNil (Video (Msg evt))); [by split|].
  destruct (notNil (Document (Msg evt))); [by split|].
  destruct (notNil (Sticker (Msg evt))); [by split|].
  destruct (notNil (Contact (Msg evt))); [by split|].
  destruct (multiContactInMedia evt); [by split|].
  destruct (notNil (Location (Msg evt))); [by split|].
  destruct (notNil (LiveLocation (Msg evt))); [by split|].
  destruct (notNil (List (Msg evt))); [by split|].
  destruct (notNil (Order (Msg evt))); [by split|].
  destruct (notNil (PaymentInvite (Msg evt))); [by split|].
  destruct (notNil (PollCreationV3 (Msg evt))); [by split|].
  destruct (notNil (PollCreationV4 (Msg evt))); [by split|].
  destruct (notNil (PollCreationV5 (Msg evt))); [by split|].
  destruct (notNil (PollUpdate (Msg evt))); [by split|].
  destruct (notNil (Reaction (Msg evt))); [by split|].
  cbn. split; [discriminate|]. intros text.
  destruct (nonEmpty (Conversation (Msg evt)) || notNil (ExtendedText (Msg evt)));
    [|discriminate].
  by destruct (urlRegexMatchString text).
Qed.

(** X9: for an event with exactly one populated variant to which the
    multi-contact rule does not apply, the classifier answers the kind of
    that variant; a multi-contact variant on its own has no rule and is
    unknown. *)
Theorem determineMessageType_one_variant evt text :
  populated (Msg evt) = 1%nat ->
  multiContactInMedia evt = false ->
  exists v,
    Msg evt = ofVariant v
    /\ determineMessageType evt text = kindOfVariant v text
    /\ (forall m, v = VarContactsArray m -> determineMessageType evt text = "unknown").
Proof.
  intros Hpop Hmc. destruct (one_variant_inv _ Hpop) as [v Hv]. exists v.
  split; [exact Hv|].
  assert (Hk : determineMessageType evt text = kindOfVariant v text).
  { unfold determineMessageType. cbv zeta. rewrite Hmc, Hv.
    destruct v; cbn; try reflexivity.
    by destruct (nonEmpty s). }
  split; [exact Hk|]. intros m ->. exact Hk.
Qed.

End ClassifierFacts.

Lemma determineMessageType_audio_first_witness :
  @determineMessageType sampleCollaborators
    (variantEvent "5511888@s.whatsapp.net" "media" (VarAudio voiceNote)) EmptyString
  = "voice_message".
Proof.
  exact (@determineMessageType_audio_first sampleCollaborators
           (variantEvent "5511888@s.whatsapp.net" "media" (VarAudio voiceNote))
           EmptyString voiceNote eq_refl).
Defined.

Lemma determineMessageType_one_variant_witness :
  @determineMessageType sampleCollaborators
    (variantEvent "5511888@s.whatsapp.net" "text" (VarContactsArray twoContacts)) EmptyString
  = "unknown".
Proof.
  destruct (@determineMessageType_one_variant sampleCollaborators
              (variantEvent "5511888@s.whatsapp.net" "text" (VarContactsArray twoContacts))
              EmptyString eq_refl eq_refl)
    as (v & Hv & Hk & _).
  rewrite Hk. cbn in Hv. destruct v; try discriminate Hv. reflexivity.
Defined.

(** ** More about the payload *)

Section PayloadMore.
Context `{!Collaborators}.

Lemma buildIdentity_Port evt jid body :
  buildIdentity evt jid body !! "Port" = Some (VString (AppPort config)).
Proof.
  unfold buildIdentity. cbv zeta.
  destruct (multiContactInMedia evt); destruct (Contact (Msg evt)); by lookup_literal.
Qed.

Lemma buildIdentity_MyNumber evt jid body :
  buildIdentity evt jid body !! "MyNumber"
  = Some (VBool match GetWaCli with
                | Some waCli =>
                    match StoreID waCli with
                    | Some id =>
                        String.eqb (extractPhoneNumber (SourceString (Info evt)))
                                   (extractPhoneNumber (jidString id))
                    | None => false
                    end
                | None => false
                end).
Proof.
  unfold buildIdentity. cbv zeta.
  destruct (multiContactInMedia evt); destruct (Contact (Msg evt)); by lookup_literal.
Qed.

Lemma buildIdentity_GroupName evt jid body :
  body !! "GroupName" = None ->
  buildIdentity evt jid body !! "GroupName"
  = if Contains (jidString (Chat (Info evt))) "@g.us"
    then match GetGroupName jid with
         | Ok name => if nonEmpty name then Some (VString name) else None
         | Err _ => None
         end
    else None.
Proof.
  intros Hb. unfold buildIdentity. cbv zeta.
  destruct (multiContactInMedia evt);
    destruct (Contact (Msg evt));
    rewrite ?lookup_insert_ne by discriminate;
    (destruct (Contains (jidString (Chat (Info evt))) "@g.us");
     [destruct (GetGroupName jid) as [name|]; [destruct (nonEmpty name)|]|]);
    rewrite ?lookup_insert_eq, ?lookup_insert_ne by discriminate; done.
Qed.

Lemma buildIdentity_contact_value evt jid body :
  body !! "contact" = None ->
  buildIdentity evt jid body !! "contact"
  = if multiContactInMedia evt
    then Some (VContacts (contactsOfMatches (contactsFindAll (fmtMessage (Msg evt)))))
    else match Contact (Msg evt) with
         | Some c => Some (VContacts [(contactDisplayName c, contactVcard c)])
         | None => None
         end.
Proof.
  intros Hb. unfold buildIdentity. cbv zeta.
  destruct (multiContactInMedia evt);
    destruct (Contact (Msg evt));
    rewrite ?lookup_insert_ne by discriminate; rewrite ?lookup_insert_eq; try reflexivity.
  destruct (Contains (jidString (Chat (Info evt))) "@g.us");
    [destruct (GetGroupName jid) as [name|]; [destruct (nonEmpty name)|]|];
    by rewrite ?lookup_insert_ne by discriminate.
Qed.

Lemma buildHeader_optional evt :
  buildHeader evt !! "PushName"
  = (if nonEmpty (PushName (Info evt)) then Some (VString (PushName (Info evt))) else None)
  /\ buildHeader evt !! "reaction"
     = (if nonEmpty (reactMessage (buildEventReaction evt))
        then Some (VReaction (buildEventReaction evt)) else None)
  /\ buildHeader evt !! "view_once" = (if IsViewOnce evt then Some (VBool true) else None)
  /\ buildHeader evt !! "forwarded" = (if buildForwarded evt then Some (VBool true) else None)
  /\ buildHeader evt !! "timestamp"
     = (if nonEmpty (formatRFC3339 (Timestamp (Info evt)))
        then Some (VString (formatRFC3339 (Timestamp (Info evt)))) else None).
Proof.
  unfold buildHeader. cbv zeta.
  destruct (nonEmpty (SourceString (Info evt))), (nonEmpty (PushName (Info evt))),
    (nonEmpty (reactMessage (buildEventReaction evt))), (IsViewOnce evt),
    (buildForwarded evt), (nonEmpty (formatRFC3339 (Timestamp (Info evt))));
    repeat split; by lookup_literal.
Qed.

(** A body the content stage returned, step by step. *)
Lemma download_Ok {A} key what (ref : A -> Downloadable) o body body' :
  download key what ref o body = Ok body' ->
  (forall k, k <> key -> body' !! k = body !! k)
  /\ match o with
     | Some m => exists path, ExtractMedia (PathMedia config) (ref m) = Ok path
                              /\ body' !! key = Some (VString path)
     | None => body' !! key = body !! key
     end.
Proof.
  unfold download. destruct o as [m|].
  - destruct (ExtractMedia (PathMedia config) (ref m)) as [path|err] eqn:E; [|discriminate].
    intros [= <-]. split.
    + intros k Hk. by apply lookup_insert_ne.
    + exists path. split; [reflexivity|apply lookup_insert_eq].
  - intros [= <-]. by split.
Qed.

Lemma passThrough_value {A} key (val : A -> value) o body :
  passThrough key val o body !! key
  = match o with Some m => Some (val m) | None => body !! key end.
Proof. destruct o; cbn; [apply lookup_insert_eq|reflexivity]. Qed.

Lemma bind_Ok_inv {A B} (r : result A) (f : A -> result B) b :
  r ≫= f = Ok b -> exists a, r = Ok a /\ f a = Ok b.
Proof. destruct r as [a|]; [eauto|discriminate]. Qed.

Lemma attachContent_values evt body body' :
  attachContent evt body = Ok body' ->
  body !! "audio" = None -> body !! "document" = None -> body !! "image" = None ->
  body !! "list" = None -> body !! "live_location" = None -> body !! "location" = None ->
  body !! "order" = None -> body !! "sticker" = None -> body !! "video" = None ->
  let extracted {A} (ref : A -> Downloadable) (o : option A) (key : string) :=
    match o with
    | Some m => exists path, ExtractMedia (PathMedia config) (ref m) = Ok path
                             /\ body' !! key = Some (VString path)
    | None => body' !! key = None
    end in
  extracted DAudio (Audio (Msg evt)) "audio"
  /\ extracted DDocument (Document (Msg evt)) "document"
  /\ extracted DImage (Image (Msg evt)) "image"
  /\ extracted DSticker (Sticker (Msg evt)) "sticker"
  /\ extracted DVideo (Video (Msg evt)) "video"
  /\ body' !! "list" = VList <$> List (Msg evt)
  /\ body' !! "live_location" = VLiveLocation <$> LiveLocation (Msg evt)
  /\ body' !! "location" = VLocation <$> Location (Msg evt)
  /\ body' !! "order" = VOrder <$> Order (Msg evt).
Proof.
  rewrite attachContent_steps. intros Hatt Na Nd Ni Nl Nll Nlo No Ns Nv extracted.
  apply bind_Ok_inv in Hatt as (b1 & E1 & Hatt).
  apply bind_Ok_inv in Hatt as (b2 & E2 & Hatt).
  apply bind_Ok_inv in Hatt as (b3 & E3 & Hatt).
  apply bind_Ok_inv in Hatt as (b8 & E8 & E9).
  apply download_Ok in E1 as [O1 V1]. apply download_Ok in E2 as [O2 V2].
  apply download_Ok in E3 as [O3 V3]. apply download_Ok in E8 as [O8 V8].
  apply download_Ok in E9 as [O9 V9].
  set (b4 := passThrough "list" VList (List (Msg evt)) b3) in *.
  set (b5 := passThrough "live_location" VLiveLocation (LiveLocation (Msg evt)) b4) in *.
  set (b6 := passThrough "location" VLocation (Location (Msg evt)) b5) in *.
  set (b7 := passThrough "order" VOrder (Order (Msg evt)) b6) in *.
  assert (H4 : forall k, k <> "list" -> b4 !! k = b3 !! k)
    by (intros; by apply passThrough_lookup_ne).
  assert (H5 : forall k, k <> "live_location" -> b5 !! k = b4 !! k)
    by (intros; by apply passThrough_lookup_ne).
  assert (H6 : forall k, k <> "location" -> b6 !! k = b5 !! k)
    by (intros; by apply passThrough_lookup_ne).
  assert (H7 : forall k, k <> "order" -> b7 !! k = b6 !! k)
    by (intros; by apply passThrough_lookup_ne).
  assert (P4 := passThrough_value "list" VList (List (Msg evt)) b3).
  assert (P5 := passThrough_value "live_location" VLiveLocation (LiveLocation (Msg evt)) b4).
  assert (P6 := passThrough_value "location" VLocation (Location (Msg evt)) b5).
  assert (P7 := passThrough_value "order" VOrder (Order (Msg evt)) b6).
  fold b4 in P4. fold b5 in P5. fold b6 in P6. fold b7 in P7.
  clearbody b4 b5 b6 b7. subst extracted. cbv beta.
  repeat split.
  - rewrite O9, O8, H7, H6, H5, H4, O3, O2 by discriminate.
    destruct (Audio (Msg evt)); [exact V1|congruence].
  - rewrite O9, O8, H7, H6, H5, H4, O3 by discriminate.
    destruct (Document (Msg evt)); [exact V2|]. rewrite V2, O1 by discriminate. exact Nd.
  - rewrite O9, O8, H7, H6, H5, H4 by discriminate.
    destruct (Image (Msg evt)); [exact V3|].
    rewrite V3, O2, O1 by discriminate. exact Ni.
  - rewrite O9 by discriminate.
    destruct (Sticker (Msg evt)); [exact V8|].
    rewrite V8, H7, H6, H5, H4, O3, O2, O1 by discriminate. exact Ns.
  - destruct (Video (Msg evt)); [exact V9|].
    rewrite V9, O8, H7, H6, H5, H4, O3, O2, O1 by discriminate. exact Nv.
  - rewrite O9, O8, H7, H6, H5, P4 by discriminate.
    destruct (List (Msg evt)); [reflexivity|].
    rewrite O3, O2, O1 by discriminate. exact Nl.
  - rewrite O9, O8, H7, H6, P5 by discriminate.
    destruct (LiveLocation (Msg evt)); [reflexivity|].
    rewrite H4, O3, O2, O1 by discriminate. exact Nll.
  - rewrite O9, O8, H7, P6 by discriminate.
    destruct (Location (Msg evt)); [reflexivity|].
    rewrite H5, H4, O3, O2, O1 by discriminate. exact Nlo.
  - rewrite O9, O8, P7 by discriminate.
    destruct (Order (Msg evt)); [reflexivity|].
    rewrite H6, H5, H4, O3, O2, O1 by discriminate. exact No.
Qed.

Lemma base_lookup_none evt jid k :
  k <> "IsGroup" -> k <> "GroupName" -> k <> "MyNumber" -> k <> "Type" ->
  k <> "Port" -> k <> "contact" ->
  k <> "SenderNumber" -> k <> "message" -> k <> "PushName" -> k <> "reaction" ->
  k <> "view_once" -> k <> "forwarded" -> k <> "timestamp" ->
  buildIdentity evt jid (buildHeader evt) !! k = None.
Proof.
  intros. rewrite buildIdentity_other by assumption. by apply buildHeader_fresh.
Qed.

End PayloadMore.

(** ** Strings *)

Section StringFacts.

Lemma string_length_app (a b : string) :
  String.length (a +:+ b) = (String.length a + String.length b)%nat.
Proof.
  induction a as [|x a IH]; [reflexivity|]. rewrite string_app_cons. cbn. by rewrite IH.
Qed.

Lemma string_app_inv_head (a b c : string) : a +:+ b = a +:+ c -> b = c.
Proof.
  induction a as [|x a IH]; [done|]. rewrite !string_app_cons. intros [= E]. by apply IH.
Qed.

(** [strings.Contains]: the substring occurs somewhere. *)
Lemma Contains_spec sub : forall s,
  Contains s sub = true <-> exists before after, s = before +:+ sub +:+ after.
Proof.
  induction s as [|c s IH].
  - cbn [Contains]. rewrite orb_false_r, HasPrefix_spec. split.
    + intros [rest E]. by exists EmptyString, rest.
    + intros (before & after & E). destruct before; [by exists after|discriminate].
  - cbn [Contains]. rewrite orb_true_iff, HasPrefix_spec, IH. split.
    + intros [[rest E]|(before & after & E)].
      * by exists EmptyString, rest.
      * exists (String c before), after. by rewrite E.
    + intros (before & after & E). destruct before as [|b before].
      * left. by exists after.
      * right. injection E as _ E. by exists before, after.
Qed.

Lemma substring_split s : forall n,
  (n <= String.length s)%nat ->
  s = substring 0 n s +:+ substring n (String.length s - n) s.
Proof.
  induction s as [|c s IH]; intros n Hn.
  - destruct n; cbn in *; [reflexivity|lia].
  - destruct n as [|n].
    + cbn. by rewrite substring_all.
    + cbn in Hn. cbn. rewrite string_app_cons. f_equal. apply IH. lia.
Qed.

(** [strings.HasSuffix]: the string ends with the suffix. *)
Lemma HasSuffix_spec s suffix :
  HasSuffix s suffix = true <-> exists before, s = before +:+ suffix.
Proof.
  unfold HasSuffix. rewrite andb_true_iff, Nat.leb_le, String.eqb_eq. split.
  - intros [Hl E].
    exists (substring 0 (String.length s - String.length suffix) s).
    pose proof (substring_split s (String.length s - String.length suffix)) as Hs.
    replace (String.length s - (String.length s - String.length suffix))%nat
      with (String.length suffix) in Hs by lia.
    rewrite E in Hs. apply Hs. lia.
  - intros [before ->]. rewrite string_length_app. split; [lia|].
    replace (String.length before + String.length suffix - String.length suffix)%nat
      with (String.length before) by lia.
    pose proof (substring_after before suffix) as E.
    rewrite string_length_app in E.
    by replace (String.length before + String.length suffix - String.length before)%nat
      with (String.length suffix) in E by lia.
Qed.

Lemma HasSuffix_Contains s suffix : HasSuffix s suffix = true -> Contains s suffix = true.
Proof.
  rewrite HasSuffix_spec, Contains_spec. intros [before ->].
  exists before, EmptyString. by rewrite string_app_nil_r.
Qed.

End StringFacts.

(** ** What a built payload holds *)

Section PayloadExtras.
Context `{!Collaborators}.

(** The body handed to the content stage has none of the content keys. *)
Lemma createPayload_stages evt body :
  createPayload evt = Ok body ->
  exists jid base,
    ParseJID (jidString (Chat (Info evt))) = Ok jid
    /\ base = buildIdentity evt jid (buildHeader evt)
    /\ attachContent evt base = Ok body
    /\ (forall k, k <> "audio" -> k <> "document" -> k <> "image" -> k <> "list" ->
                  k <> "live_location" -> k <> "location" -> k <> "order" ->
                  k <> "sticker" -> k <> "video" -> body !! k = base !! k).
Proof.
  intros Hok. destruct (createPayload_Ok _ _ Hok) as (jid & Hjid & _ & Hatt).
  exists jid, (buildIdentity evt jid (buildHeader evt)).
  split; [exact Hjid|]. split; [reflexivity|]. split; [exact Hatt|].
  destruct (attachContent_outcome evt (buildIdentity evt jid (buildHeader evt)))
    as [[_ [msg Hm]]|[_ (body' & Hb & Hother & _)]]; [congruence|].
  assert (body' = body) as -> by congruence. exact Hother.
Qed.

(** X10: every payload built has a [Type] that is one of the seventeen kinds,
    the configured [Port], and a boolean [MyNumber] that is false when the
    client is not initialised or has no identity and otherwise says whether
    the normalised sender and own numbers are equal. *)
Theorem createPayload_fixed_keys evt body :
  createPayload evt = Ok body ->
  (exists kind, body !! "Type" = Some (VString kind) /\ kind ∈ messageKinds)
  /\ body !! "Port" = Some (VString (AppPort config))
  /\ exists mine,
       body !! "MyNumber" = Some (VBool mine)
       /\ (GetWaCli = None -> mine = false)
       /\ (forall waCli, GetWaCli = Some waCli -> StoreID waCli = None -> mine = false)
       /\ (forall waCli id,
             GetWaCli = Some waCli -> StoreID waCli = Some id ->
             mine = String.eqb (extractPhoneNumber (SourceString (Info evt)))
                               (extractPhoneNumber (jidString id))).
Proof.
  intros Hok. destruct (createPayload_stages _ _ Hok) as (jid & base & _ & -> & _ & Hk).
  split; [|split].
  - eexists. rewrite Hk by discriminate. split; [apply buildIdentity_Type|].
    destruct (multiContactInMedia evt); [|apply determineMessageType_in_kinds].
    apply list_elem_of_In. cbn. tauto.
  - rewrite Hk by discriminate. apply buildIdentity_Port.
  - eexists. rewrite Hk by discriminate. split; [apply buildIdentity_MyNumber|].
    split; [by intros ->|]. split.
    + by intros waCli -> ->.
    + by intros waCli id -> ->.
Qed.

(** X11: a payload has [GroupName] only for a chat identity that contains
    the group marker, and then only when the lookup succeeded with a name
    that is not empty; that name is the value. *)
Theorem createPayload_GroupName evt body jid :
  createPayload evt = Ok body ->
  ParseJID (jidString (Chat (Info evt))) = Ok jid ->
  body !! "GroupName"
  = if Contains (jidString (Chat (Info evt))) "@g.us"
    then match GetGroupName jid with
         | Ok name => if nonEmpty name then Some (VString name) else None
         | Err _ => None
         end
    else None.
Proof.
  intros Hok Hjid.
  destruct (createPayload_stages _ _ Hok) as (jid' & base & Hjid' & -> & _ & Hk).
  assert (jid' = jid) as -> by congruence.
  rewrite Hk by discriminate. apply buildIdentity_GroupName.
  apply buildHeader_fresh; discriminate.
Qed.

(** X12: in a payload that was built, each media key is present exactly for
    a populated media variant and holds the path its extraction returned,
    and each of [list], [live_location], [location] and [order] holds the
    event's object unchanged. *)
Theorem createPayload_content evt body :
  createPayload evt = Ok body ->
  let extracted {A} (ref : A -> Downloadable) (o : option A) (key : string) :=
    match o with
    | Some m => exists path, ExtractMedia (PathMedia config) (ref m) = Ok path
                             /\ body !! key = Some (VString path)
    | None => body !! key = None
    end in
  extracted DAudio (Audio (Msg evt)) "audio"
  /\ extracted DDocument (Document (Msg evt)) "document"
  /\ extracted DImage (Image (Msg evt)) "image"
  /\ extracted DSticker (Sticker (Msg evt)) "sticker"
  /\ extracted DVideo (Video (Msg evt)) "video"
  /\ body !! "list" = VList <$> List (Msg evt)
  /\ body !! "live_location" = VLiveLocation <$> LiveLocation (Msg evt)
  /\ body !! "location" = VLocation <$> Location (Msg evt)
  /\ body !! "order" = VOrder <$> Order (Msg evt).
Proof.
  intros Hok. destruct (createPayload_stages _ _ Hok) as (jid & base & _ & -> & Hatt & _).
  apply (attachContent_values evt _ body Hatt); apply base_lookup_none; discriminate.
Qed.

(** X13: the optional keys [PushName], [reaction], [view_once], [forwarded]
    and [timestamp] are left out, not sent empty or false: each is present
    exactly when its source is a non-empty string or a true flag. *)
Theorem createPayload_optional_keys evt body :
  createPayload evt = Ok body ->
  body !! "PushName"
  = (if nonEmpty (PushName (Info evt)) then Some (VString (PushName (Info evt))) else None)
  /\ body !! "reaction"
     = (if nonEmpty (reactMessage (buildEventReaction evt))
        then Some (VReaction (buildEventReaction evt)) else None)
  /\ body !! "view_once" = (if IsViewOnce evt then Some (VBool true) else None)
  /\ body !! "forwarded" = (if buildForwarded evt then Some (VBool true) else None)
  /\ body !! "timestamp"
     = (if nonEmpty (formatRFC3339 (Timestamp (Info evt)))
        then Some (VString (formatRFC3339 (Timestamp (Info evt)))) else None).
Proof.
  intros Hok. destruct (createPayload_stages _ _ Hok) as (jid & base & _ & -> & _ & Hk).
  rewrite !Hk by discriminate. rewrite !buildIdentity_other by discriminate.
  apply buildHeader_optional.
Qed.

(** X14: the [contact] key of a payload: under the multi-contact rule it is
    the list read from the formatted message, also when a single contact is
    populated; otherwise it is the one populated contact, or absent. *)
Theorem createPayload_contact evt body :
  createPayload evt = Ok body ->
  body !! "contact"
  = if multiContactInMedia evt
    then Some (VContacts (contactsOfMatches (contactsFindAll (fmtMessage (Msg evt)))))
    else match Contact (Msg evt) with
         | Some c => Some (VContacts [(contactDisplayName c, contactVcard c)])
         | None => None
         end.
Proof.
  intros Hok. destruct (createPayload_stages _ _ Hok) as (jid & base & _ & -> & _ & Hk).
  rewrite Hk by discriminate. apply buildIdentity_contact_value.
  apply buildHeader_fresh; discriminate.
Qed.

Lemma buildMessageData_fresh evt message k :
  k <> "ID" -> k <> "MessageOrigin" -> k <> "RepliedId" -> k <> "TextMessage" ->
  k <> "TitleLink" -> k <> "LinkDescription" -> k <> "PollUpdate" ->
  buildMessageData evt message !! k = None.
Proof.
  intros. unfold buildMessageData. cbv zeta.
  destruct (PollUpdate (Msg evt)) as [p|];
    (destruct (ExtendedText (Msg evt)) as [e|];
     [destruct (urlRegexMatchString (extText e))|]);
    rewrite ?lookup_insert_ne by congruence;
    rewrite ?lookup_if_insert_ne by congruence;
    rewrite ?lookup_insert_ne by congruence; apply lookup_empty.
Qed.

(** X15: the nested message of a payload always has [TextMessage]: the
    extended text when there is one matching the URL pattern, else the
    resolved text. It has [TitleLink] and [LinkDescription] only for such an
    extended text, when its title or description is not empty, and
    [PollUpdate] exactly for a poll update, with the identifier of the poll
    and no selected options. It has no key besides these and [ID],
    [MessageOrigin] and [RepliedId]. *)
Theorem createPayload_message_data evt body :
  createPayload evt = Ok body ->
  exists messageData,
    body !! "message" = Some (VMessageData messageData)
    /\ messageData !! "TextMessage"
       = Some (MString match ExtendedText (Msg evt) with
                       | Some e => if urlRegexMatchString (extText e) then extText e
                                   else msgText (buildEventMessage evt)
                       | None => msgText (buildEventMessage evt)
                       end)
    /\ messageData !! "TitleLink"
       = match ExtendedText (Msg evt) with
         | Some e => if urlRegexMatchString (extText e) && nonEmpty (extTitle e)
                     then Some (MString (extTitle e)) else None
         | None => None
         end
    /\ messageData !! "LinkDescription"
       = match ExtendedText (Msg evt) with
         | Some e => if urlRegexMatchString (extText e) && nonEmpty (extDescription e)
                     then Some (MString (extDescription e)) else None
         | None => None
         end
    /\ messageData !! "PollUpdate"
       = (fun p => MPollUpdate (GetID (pollCreationMessageKey p)) []) <$> PollUpdate (Msg evt)
    /\ (forall k, is_Some (messageData !! k) -> k ∈ messageDataKeys).
Proof.
  intros Hok. destruct (createPayload_stages _ _ Hok) as (jid & base & _ & -> & _ & Hk).
  exists (buildMessageData evt (buildEventMessage evt)). split.
  { rewrite Hk by discriminate. rewrite buildIdentity_other by discriminate.
    apply buildHeader_message. }
  split; [|split; [|split; [|split]]].
  5: { intros k [v Hv]. destruct (decide (k ∈ messageDataKeys)) as [Hin|Hout]; [exact Hin|].
       exfalso. unfold messageDataKeys in Hout. rewrite !not_elem_of_cons in Hout.
       destruct Hout as (? & ? & ? & ? & ? & ? & ? & _).
       rewrite buildMessageData_fresh in Hv by assumption. discriminate. }
  all: unfold buildMessageData; cbv zeta;
    destruct (PollUpdate (Msg evt)) as [p|];
    (destruct (ExtendedText (Msg evt)) as [e|];
     [destruct (urlRegexMatchString (extText e));
      [destruct (nonEmpty (extTitle e)); destruct (nonEmpty (extDescription e))|]|]);
    cbn [fmap option_fmap option_map andb]; by lookup_literal.
Qed.

(** X16: a chat identity that ends in the group suffix is always flagged as
    a group. *)
Theorem createPayload_group_suffix evt body :
  createPayload evt = Ok body ->
  HasSuffix (jidString (Chat (Info evt))) "@g.us" = true ->
  body !! "IsGroup" = Some (VBool true).
Proof.
  intros Hok Hs. destruct (createPayload_stages _ _ Hok) as (jid & base & _ & -> & _ & Hk).
  rewrite Hk by discriminate. rewrite buildIdentity_IsGroup.
  by rewrite (HasSuffix_Contains _ _ Hs).
Qed.

(** X17: a payload never has a key outside the twenty-two the builder
    writes. *)
Theorem createPayload_keys evt body k :
  createPayload evt = Ok body -> is_Some (body !! k) -> k ∈ payloadKeys.
Proof.
  intros Hok [v Hv]. destruct (decide (k ∈ payloadKeys)) as [Hin|Hout]; [exact Hin|].
  exfalso. unfold payloadKeys in Hout. rewrite !not_elem_of_cons in Hout.
  destruct Hout as (? & ? & ? & ? & ? & ? & ? & ? & ? & ? & ? & ? & ? & ? & ? & ? & ? & ?
                    & ? & ? & ? & ? & _).
  destruct (createPayload_stages _ _ Hok) as (jid & base & _ & -> & _ & Hk).
  rewrite Hk in Hv by assumption. rewrite base_lookup_none in Hv by assumption.
  discriminate.
Qed.

End PayloadExtras.

Lemma createPayload_fixed_keys_witness :
  exists body,
    @createPayload sampleCollaborators (textEvent "5511999@s.whatsapp.net" "text" "hello")
    = Ok body
    /\ body !! "Port" = Some (VString "3000")
    /\ body !! "MyNumber" = Some (VBool true).
Proof.
  destruct (@createPayload_computes sampleCollaborators
              (textEvent "5511999@s.whatsapp.net" "text" "hello") (fun _ => True))
    as (body & Hok & _); [vm_compute; exact I|].
  exists body. split; [exact Hok|].
  destruct (@createPayload_fixed_keys sampleCollaborators _ body Hok)
    as (_ & Hport & mine & Hmine & _ & _ & Heq).
  split; [exact Hport|]. rewrite Hmine. by rewrite (Heq _ _ eq_refl eq_refl).
Defined.

Lemma createPayload_GroupName_witness :
  exists body,
    @createPayload sampleCollaborators (textEvent "120363@g.us" "text" "hello") = Ok body
    /\ body !! "GroupName" = Some (VString "Family").
Proof.
  destruct (@createPayload_computes sampleCollaborators
              (textEvent "120363@g.us" "text" "hello") (fun _ => True))
    as (body & Hok & _); [vm_compute; exact I|].
  exists body. split; [exact Hok|].
  exact (@createPayload_GroupName sampleCollaborators _ body
           {| jidString := "120363@g.us" |} Hok eq_refl).
Defined.

Lemma createPayload_content_witness :
  exists body,
    @createPayload sampleCollaborators
      (imageEvent "5511888@s.whatsapp.net" "media" "https://mmg.example/1" "holiday")
    = Ok body
    /\ body !! "audio" = None
    /\ exists path, body !! "image" = Some (VString path).
Proof.
  destruct (@createPayload_computes sampleCollaborators
              (imageEvent "5511888@s.whatsapp.net" "media" "https://mmg.example/1" "holiday")
              (fun _ => True))
    as (body & Hok & _); [vm_compute; exact I|].
  exists body. split; [exact Hok|].
  destruct (@createPayload_content sampleCollaborators _ body Hok)
    as (Ha & _ & (path & _ & Hi) & _).
  split; [exact Ha|]. by exists path.
Defined.

Lemma createPayload_optional_keys_witness :
  exists body,
    @createPayload sampleCollaborators (textEvent "5511888@s.whatsapp.net" "text" "hello")
    = Ok body
    /\ body !! "PushName" = Some (VString "Ana")
    /\ body !! "view_once" = None.
Proof.
  destruct (@createPayload_computes sampleCollaborators
              (textEvent "5511888@s.whatsapp.net" "text" "hello") (fun _ => True))
    as (body & Hok & _); [vm_compute; exact I|].
  exists body. split; [exact Hok|].
  destruct (@createPayload_optional_keys sampleCollaborators _ body Hok)
    as (Hp & _ & Hv & _).
  split; [exact Hp|exact Hv].
Defined.

Lemma createPayload_contact_witness :
  exists body,
    @createPayload sampleCollaborators
      (variantEvent "5511888@s.whatsapp.net" "text"
         (VarContact {| contactDisplayName := "Ana"; contactVcard := "BEGIN:VCARD" |}))
    = Ok body
    /\ body !! "contact" = Some (VContacts [("Ana", "BEGIN:VCARD")]).
Proof.
  destruct (@createPayload_computes sampleCollaborators
              (variantEvent "5511888@s.whatsapp.net" "text"
                 (VarContact {| contactDisplayName := "Ana"; contactVcard := "BEGIN:VCARD" |}))
              (fun _ => True))
    as (body & Hok & _); [vm_compute; exact I|].
  exists body. split; [exact Hok|].
  exact (@createPayload_contact sampleCollaborators _ body Hok).
Defined.

Lemma createPayload_message_data_witness :
  exists body messageData,
    @createPayload sampleCollaborators
      (variantEvent "5511888@s.whatsapp.net" "text"
         (VarExtendedText {| extText := "see https://example.com"; extTitle := "Example";
                             extDescription := EmptyString |}))
    = Ok body
    /\ body !! "message" = Some (VMessageData messageData)
    /\ messageData !! "TitleLink" = Some (MString "Example")
    /\ messageData !! "LinkDescription" = None.
Proof.
  destruct (@createPayload_computes sampleCollaborators
              (variantEvent "5511888@s.whatsapp.net" "text"
                 (VarExtendedText {| extText := "see https://example.com";
                                     extTitle := "Example";
                                     extDescription := EmptyString |}))
              (fun _ => True))
    as (body & Hok & _); [vm_compute; exact I|].
  destruct (@createPayload_message_data sampleCollaborators _ body Hok)
    as (messageData & Hm & _ & Ht & Hd & _).
  exists body, messageData. split; [exact Hok|]. split; [exact Hm|].
  split; [exact Ht|exact Hd].
Defined.

Lemma createPayload_group_suffix_witness :
  exists body,
    @createPayload sampleCollaborators (textEvent "120363@g.us" "text" "hello") = Ok body
    /\ body !! "IsGroup" = Some (VBool true).
Proof.
  destruct (@createPayload_computes sampleCollaborators
              (textEvent "120363@g.us" "text" "hello") (fun _ => True))
    as (body & Hok & _); [vm_compute; exact I|].
  exists body. split; [exact Hok|].
  exact (@createPayload_group_suffix sampleCollaborators _ body Hok eq_refl).
Defined.

Lemma createPayload_keys_witness :
  exists body,
    @createPayload sampleCollaborators (textEvent "120363@g.us" "text" "hello") = Ok body
    /\ "Port" ∈ payloadKeys.
Proof.
  destruct (@createPayload_computes sampleCollaborators
              (textEvent "120363@g.us" "text" "hello") (fun _ => True))
    as (body & Hok & _); [vm_compute; exact I|].
  exists body. split; [exact Hok|].
  apply (@createPayload_keys sampleCollaborators _ body "Port" Hok).
  destruct (@createPayload_stages sampleCollaborators _ _ Hok)
    as (jid & base & _ & -> & _ & Hk).
  rewrite Hk by discriminate. rewrite buildIdentity_Port. by eexists.
Defined.

(** ** More about the call-ended handler *)

Section CallExtras.
Context `{!Collaborators} `{!CallCollaborators}.

Lemma expire_due t key (l : list (Z * string)) : forall m : gmap string Z,
  (exists timer, timer ∈ l /\ due t timer = true /\ snd timer = key) ->
  fold_left (fun m timer => if due t timer then Delete m (snd timer) else m) l m !! key
  = None.
Proof.
  induction l as [|timer l IH]; intros m (timer' & Hin & Hdue & Hkey).
  - by apply elem_of_nil in Hin.
  - cbn [fold_left]. apply elem_of_cons in Hin as [->|Hin].
    + rewrite Hdue, Hkey. apply expire_absent. unfold Delete. apply lookup_delete_eq.
    + apply IH. eauto.
Qed.

(** X18: a request the handler refuses with status 400, and any request
    while the client is not initialised, changes nothing: the cache, the
    pending evictions, the reject-call log and the notifications are as
    before. *)
Theorem callEnded_refused_request_changes_nothing now body w resp w' :
  callEnded now body w = (resp, w') ->
  Status resp = StatusBadRequest \/ GetWaCli = None ->
  w' = w /\ is_Some (JSON resp !! "error").
Proof.
  unfold callEnded. intros Hrun Hwhy.
  destruct body as [request|]; [|injection Hrun as <- <-; split; [reflexivity|by eexists]].
  destruct (String.eqb (CallID request) EmptyString || String.eqb (Phone request) EmptyString);
    [injection Hrun as <- <-; split; [reflexivity|by eexists]|].
  destruct GetWaCli as [waCli|]; [|injection Hrun as <- <-; split; [reflexivity|by eexists]].
  destruct (whatsappParseJID (Phone request)) as [jid|err];
    [|injection Hrun as <- <-; split; [reflexivity|by eexists]].
  destruct Hwhy as [Hstatus|Hnone]; [|discriminate].
  unfold LoadOrStore in Hrun.
  destruct (callWebhookCache w !! _) as [v|].
  - injection Hrun as <- <-. discriminate Hstatus.
  - destruct (RejectCall (rejected w) jid (CallID request));
      injection Hrun as <- <-; discriminate Hstatus.
Qed.

(** X19: one request invokes the reject-call action at most once and
    starts at most one notification; a notification is started only when
    the reject-call action was invoked in the same request and succeeded,
    the answer is the plain success, and at least one subscriber URL is
    configured. *)
Theorem callEnded_effects now body w resp w' :
  callEnded now body w = (resp, w') ->
  (rejected w' = rejected w
   \/ exists request jid,
        body = Some request
        /\ rejected w' = (rejected w ++ [(jid, CallID request)])%list
        /\ callWebhookCache w !! cacheKeyOf request = None)
  /\ (notifications w' = notifications w
      \/ exists request jid,
           body = Some request
           /\ notifications w'
              = (notifications w
                   ++ [{| jobPhone := Phone request; jobCallID := CallID request |}])%list
           /\ RejectCall (rejected w) jid (CallID request) = None
           /\ rejected w' = (rejected w ++ [(jid, CallID request)])%list
           /\ JSON resp !! "status" = Some "call rejected"
           /\ WhatsappWebhook config <> []).
Proof.
  unfold callEnded. intros Hrun.
  destruct body as [request|]; [|injection Hrun as <- <-; by split; left].
  destruct (String.eqb (CallID request) EmptyString || String.eqb (Phone request) EmptyString);
    [injection Hrun as <- <-; by split; left|].
  destruct GetWaCli as [waCli|]; [|injection Hrun as <- <-; by split; left].
  destruct (whatsappParseJID (Phone request)) as [jid|err];
    [|injection Hrun as <- <-; by split; left].
  unfold LoadOrStore in Hrun. fold (cacheKeyOf request) in Hrun.
  destruct (callWebhookCache w !! cacheKeyOf request) as [v|] eqn:Hkey.
  { injection Hrun as <- <-. by split; left. }
  destruct (RejectCall (rejected w) jid (CallID request)) as [err|] eqn:Hrej.
  - injection Hrun as <- <-. cbn. split; [right; by exists request, jid|by left].
  - injection Hrun as <- <-. cbn. split; [right; by exists request, jid|].
    destruct (WhatsappWebhook config) as [|url urls] eqn:Hurls; cbn; [by left|].
    right. exists request, jid. by repeat split.
Qed.

(** X20: once the TTL has elapsed after a successful first observation, the
    key has been evicted and the same event is handled as new: the
    reject-call action is invoked a second time and the answer is not the
    already-processed one. *)
Theorem callEnded_after_ttl_is_new t1 t2 request w waCli jid :
  CallID request <> EmptyString -> Phone request <> EmptyString ->
  GetWaCli = Some waCli ->
  whatsappParseJID (Phone request) = Ok jid ->
  callWebhookCache w !! cacheKeyOf request = None ->
  RejectCall (rejected w) jid (CallID request) = None ->
  t1 + cacheTTL <= t2 ->
  exists r1 w1 r2 w2,
    observe t1 (Some request) w = (r1, w1)
    /\ observe t2 (Some request) w1 = (r2, w2)
    /\ callWebhookCache w1 !! cacheKeyOf request = Some t1
    /\ rejected w2
       = (rejected w ++ [(jid, CallID request); (jid, CallID request)])%list
    /\ alreadyProcessed r2 = false.
Proof.
  intros Hc Hp Hcli Hjid Hkey Hrej Ht. unfold observe.
  assert (Hkey1 : callWebhookCache (fireTimers t1 w) !! cacheKeyOf request = None)
    by (by apply expire_absent).
  rewrite (callEnded_first_observer t1 _ _ _ _ Hc Hp Hcli Hjid Hkey1).
  change (rejected (fireTimers t1 w)) with (rejected w). rewrite Hrej.
  set (w1 := {| callWebhookCache := _ |}).
  assert (Hkey2 : callWebhookCache (fireTimers t2 w1) !! cacheKeyOf request = None).
  { cbn [fireTimers callWebhookCache]. apply expire_due.
    exists (t1 + cacheTTL, cacheKeyOf request). split; [|split; [|reflexivity]].
    - change (timers w1) with
        (timers (fireTimers t1 w) ++ [(t1 + cacheTTL, cacheKeyOf request)])%list.
      apply elem_of_app. right. apply list_elem_of_singleton. reflexivity.
    - unfold due. cbn. apply Z.leb_le. lia. }
  pose proof (callEnded_first_observer t2 _ _ _ _ Hc Hp Hcli Hjid Hkey2) as Hsecond.
  change (rejected (fireTimers t2 w1))
    with (rejected w ++ [(jid, CallID request)])%list in Hsecond.
  destruct (RejectCall (rejected w ++ [(jid, CallID request)])%list jid (CallID request));
    eexists _, w1, _, _; (split; [reflexivity|]); (split; [exact Hsecond|]);
    (split; [apply lookup_insert_eq|]); cbn;
    (split; [by rewrite <- app_assoc|]);
    unfold alreadyProcessed; apply bool_decide_eq_false; cbn; by lookup_literal.
Qed.

(** X21: the eviction timer of a failed attempt is not cancelled. When the
    first observation fails at [t0], a retry succeeds at [t1] and the event
    arrives again at [t2] with [t0 + cacheTTL <= t2 < t1 + cacheTTL], the
    timer of the failed attempt has evicted the key of the retry, so the
    third observation invokes the reject-call action again although less
    than the TTL has passed since the successful one. *)
Theorem callEnded_stale_timer_evicts_retry t0 t1 t2 request w waCli jid err :
  CallID request <> EmptyString -> Phone request <> EmptyString ->
  GetWaCli = Some waCli ->
  whatsappParseJID (Phone request) = Ok jid ->
  callWebhookCache w !! cacheKeyOf request = None ->
  RejectCall (rejected w) jid (CallID request) = Some err ->
  RejectCall (rejected w ++ [(jid, CallID request)])%list jid (CallID request) = None ->
  t0 <= t1 < t0 + cacheTTL ->
  t0 + cacheTTL <= t2 < t1 + cacheTTL ->
  exists r0 w0 r1 w1 r2 w2,
    observe t0 (Some request) w = (r0, w0)
    /\ observe t1 (Some request) w0 = (r1, w1)
    /\ observe t2 (Some request) w1 = (r2, w2)
    /\ JSON r1 !! "status" = Some "call rejected"
    /\ alreadyProcessed r2 = false
    /\ length (rejected w2) = (length (rejected w) + 3)%nat.
Proof.
  intros Hc Hp Hcli Hjid Hkey Hrej0 Hrej1 Ht1 Ht2. unfold observe.
  assert (Hk0 : callWebhookCache (fireTimers t0 w) !! cacheKeyOf request = None)
    by (by apply expire_absent).
  rewrite (callEnded_first_observer t0 _ _ _ _ Hc Hp Hcli Hjid Hk0).
  change (rejected (fireTimers t0 w)) with (rejected w). rewrite Hrej0.
  set (w0 := {| callWebhookCache := _ |}).
  assert (Hk1 : callWebhookCache (fireTimers t1 w0) !! cacheKeyOf request = None).
  { cbn [fireTimers callWebhookCache]. apply expire_absent.
    unfold Delete. apply lookup_delete_eq. }
  pose proof (callEnded_first_observer t1 _ _ _ _ Hc Hp Hcli Hjid Hk1) as Hsecond.
  change (rejected (fireTimers t1 w0))
    with (rejected w ++ [(jid, CallID request)])%list in Hsecond.
  rewrite Hrej1 in Hsecond.
  set (w1 := {| callWebhookCache := _ |}) in Hsecond.
  assert (Hk2 : callWebhookCache (fireTimers t2 w1) !! cacheKeyOf request = None).
  { cbn [fireTimers callWebhookCache]. apply expire_due.
    exists (t0 + cacheTTL, cacheKeyOf request). split; [|split; [|reflexivity]].
    - change (timers w1) with
        (timers (fireTimers t1 w0) ++ [(t1 + cacheTTL, cacheKeyOf request)])%list.
      apply elem_of_app. left. cbn [fireTimers timers].
      apply list_elem_of_In, filter_In. split.
      + apply list_elem_of_In. change (timers w0) with
          (timers (fireTimers t0 w) ++ [(t0 + cacheTTL, cacheKeyOf request)])%list.
        apply elem_of_app. right. apply list_elem_of_singleton. reflexivity.
      + unfold due. cbn. apply negb_true_iff, Z.leb_gt. lia.
    - unfold due. cbn. apply Z.leb_le. lia. }
  pose proof (callEnded_first_observer t2 _ _ _ _ Hc Hp Hcli Hjid Hk2) as Hthird.
  change (rejected (fireTimers t2 w1))
    with ((rejected w ++ [(jid, CallID request)]) ++ [(jid, CallID request)])%list
    in Hthird.
  destruct (RejectCall ((rejected w ++ [(jid, CallID request)])
                          ++ [(jid, CallID request)])%list jid (CallID request));
    eexists _, w0, _, w1, _, _;
    (split; [reflexivity|]); (split; [exact Hsecond|]); (split; [exact Hthird|]);
    (split; [cbn; by lookup_literal|]);
    (split; [unfold alreadyProcessed; apply bool_decide_eq_false; cbn; by lookup_literal|]);
    cbn; rewrite !length_app; cbn; lia.
Qed.

Lemma colon_split (a b c d : string) :
  hasChar ":" a = false -> hasChar ":" c = false ->
  a +:+ ":" +:+ b = c +:+ ":" +:+ d -> a = c /\ b = d.
Proof.
  revert c. induction a as [|x a IH]; intros c Ha Hc E.
  - destruct c as [|y c].
    + by injection E.
    + rewrite string_app_cons in E. injection E as <- _.
      cbn in Hc. discriminate.
  - destruct c as [|y c].
    + rewrite string_app_cons in E. injection E as -> _. cbn in Ha. discriminate.
    + rewrite !string_app_cons in E. injection E as -> E.
      cbn in Ha, Hc. apply orb_false_iff in Ha as [_ Ha], Hc as [_ Hc].
      destruct (IH c Ha Hc E) as [-> ->]. by split.
Qed.

(** X22: the cache key tells events apart as long as call identifiers have
    no colon: two requests with colon-free identifiers and the same key are
    the same request. Identifiers with a colon can make two different
    events share a key. *)
Theorem cacheKey_injective_without_colon :
  (forall r1 r2,
      hasChar ":" (CallID r1) = false -> hasChar ":" (CallID r2) = false ->
      CallID r1 +:+ ":" +:+ Phone r1 = CallID r2 +:+ ":" +:+ Phone r2 -> r1 = r2)
  /\ (exists r1 r2,
        r1 <> r2
        /\ CallID r1 +:+ ":" +:+ Phone r1 = CallID r2 +:+ ":" +:+ Phone r2).
Proof.
  split.
  - intros [c1 p1] [c2 p2] H1 H2 E. cbn in *.
    destruct (colon_split _ _ _ _ H1 H2 E) as [-> ->]. reflexivity.
  - exists {| CallID := "A:B"; Phone := "+1" |}, {| CallID := "A"; Phone := "B:+1" |}.
    split; [discriminate|reflexivity].
Qed.

End CallExtras.

Lemma callEnded_refused_request_changes_nothing_witness :
  exists resp,
    @callEnded sampleCollaborators sampleCalls 7
      (Some {| CallID := EmptyString; Phone := "+1555" |}) emptyWorld
    = (resp, emptyWorld)
    /\ is_Some (JSON resp !! "error").
Proof.
  eexists. split; [reflexivity|].
  eapply (@callEnded_refused_request_changes_nothing sampleCollaborators sampleCalls 7
            (Some {| CallID := EmptyString; Phone := "+1555" |}) emptyWorld);
    [reflexivity|by left].
Defined.

Lemma callEnded_effects_witness :
  exists resp w',
    @callEnded sampleCollaborators sampleCalls 7 (Some callRequest) emptyWorld = (resp, w')
    /\ (rejected w' = []
        \/ exists request jid,
             Some callRequest = Some request
             /\ rejected w' = [(jid, CallID request)]
             /\ (∅ : gmap string Z) !! cacheKeyOf request = None).
Proof.
  eexists _, _. split; [reflexivity|].
  exact (proj1 (@callEnded_effects sampleCollaborators sampleCalls 7 (Some callRequest)
                  emptyWorld _ _ eq_refl)).
Defined.

Lemma callEnded_after_ttl_is_new_witness :
  exists r1 w1 r2 w2,
    @observe sampleCollaborators sampleCalls 0 (Some callRequest) emptyWorld = (r1, w1)
    /\ @observe sampleCollaborators sampleCalls cacheTTL (Some callRequest) w1 = (r2, w2)
    /\ length (rejected w2) = 2%nat
    /\ alreadyProcessed r2 = false.
Proof.
  destruct (@callEnded_after_ttl_is_new sampleCollaborators sampleCalls 0 cacheTTL
              callRequest emptyWorld _ _
              ltac:(discriminate) ltac:(discriminate) eq_refl eq_refl eq_refl eq_refl)
    as (r1 & w1 & r2 & w2 & H1 & H2 & _ & Hrej & Hnot).
  - reflexivity.
  - exists r1, w1, r2, w2. split; [exact H1|]. split; [exact H2|].
    split; [by rewrite Hrej|exact Hnot].
Defined.

Lemma callEnded_stale_timer_evicts_retry_witness :
  exists r0 w0 r1 w1 r2 w2,
    @observe sampleCollaborators recoveringCalls 0 (Some callRequest) emptyWorld = (r0, w0)
    /\ @observe sampleCollaborators recoveringCalls (4 * Minute) (Some callRequest) w0
       = (r1, w1)
    /\ @observe sampleCollaborators recoveringCalls (5 * Minute) (Some callRequest) w1
       = (r2, w2)
    /\ JSON r1 !! "status" = Some "call rejected"
    /\ alreadyProcessed r2 = false
    /\ length (rejected w2) = 3%nat.
Proof.
  destruct (@callEnded_stale_timer_evicts_retry sampleCollaborators recoveringCalls
              0 (4 * Minute) (5 * Minute) callRequest emptyWorld _ _ _
              ltac:(discriminate) ltac:(discriminate) eq_refl eq_refl eq_refl eq_refl eq_refl)
    as (r0 & w0 & r1 & w1 & r2 & w2 & H0 & H1 & H2 & Hs & Hn & Hl).
  - unfold cacheTTL, Minute, Second, Nanosecond. lia.
  - unfold cacheTTL, Minute, Second, Nanosecond. lia.
  - exists r0, w0, r1, w1, r2, w2. by repeat split.
Defined.

(** ** MIME types *)

Section MimeFacts.
Context `{!Library}.

Lemma hasChar_lower c s :
  c = "."%char \/ c = "/"%char ->
  hasChar c (mapBytes lowerByte s) = hasChar c s.
Proof.
  intros Hc. induction s as [|a s IH]; [reflexivity|]. cbn. rewrite IH. f_equal.
  destruct Hc as [-> | ->];
    destruct a as [[] [] [] [] [] [] [] []]; reflexivity.
Qed.

(** A tail without dot or separator decides nothing. *)
Lemma extScan_plain s :
  hasChar "." s = false -> hasChar "/" s = false -> extScan s = None.
Proof.
  induction s as [|c s IH]; [reflexivity|]. cbn.
  intros Hd Hs. apply orb_false_iff in Hd as [Hd Hd'], Hs as [Hs Hs'].
  rewrite IH by assumption. unfold isPathSeparator. by rewrite Hd, Hs.
Qed.

Lemma extScan_app_decided base s e : extScan s = Some e -> extScan (base +:+ s) = Some e.
Proof.
  intros Hs. induction base as [|c base IH]; [exact Hs|].
  rewrite string_app_cons. cbn. by rewrite IH.
Qed.

Lemma Ext_last_extension base e :
  hasChar "." e = false -> hasChar "/" e = false ->
  Ext (base +:+ "." +:+ e) = "." +:+ e.
Proof.
  intros Hd Hs. unfold Ext.
  rewrite (extScan_app_decided base ("." +:+ e) ("." +:+ e)); [reflexivity|].
  change ("." +:+ e) with (String "." e). cbn. by rewrite (extScan_plain e Hd Hs).
Qed.

Lemma Ext_no_extension dir name :
  hasChar "." name = false -> hasChar "/" name = false ->
  Ext (dir +:+ "/" +:+ name) = EmptyString /\ Ext name = EmptyString.
Proof.
  intros Hd Hs. unfold Ext. split; [|by rewrite (extScan_plain name Hd Hs)].
  rewrite (extScan_app_decided dir ("/" +:+ name) EmptyString); [reflexivity|].
  change ("/" +:+ name) with (String "/" name). cbn. by rewrite (extScan_plain name Hd Hs).
Qed.

Lemma TrimPrefix_dot e : TrimPrefix ("." +:+ e) "." = e.
Proof.
  unfold TrimPrefix. change ("." +:+ e) with (String "." e). cbn.
  replace (HasPrefix e EmptyString) with true by (by destruct e).
  by rewrite Nat.sub_0_r, substring_all.
Qed.

Lemma isASCII_lower s : isASCII s = true -> ToLower s = mapBytes lowerByte s.
Proof. unfold ToLower. by intros ->. Qed.

Lemma ToLower_lowered e :
  isASCII e = true -> ToLower (mapBytes lowerByte e) = mapBytes lowerByte e.
Proof.
  intros Ha. unfold ToLower.
  assert (Hasc : isASCII (mapBytes lowerByte e) = true).
  { induction e as [|c e IH]; [reflexivity|]. cbn in *.
    apply andb_true_iff in Ha as [Hc He]. rewrite (IH He), andb_true_r.
    destruct c as [[] [] [] [] [] [] [] []]; try reflexivity;
      vm_compute in Hc; discriminate Hc. }
  rewrite Hasc. clear. induction e as [|c e IH]; [reflexivity|]. cbn. rewrite IH. f_equal.
  destruct c as [[] [] [] [] [] [] [] []]; reflexivity.
Qed.

(** The type found for a name that ends in a dot and [e]. *)
Lemma determineMimeType_suffix base e :
  hasChar "." e = false -> hasChar "/" e = false -> isASCII e = true ->
  determineMimeType (base +:+ "." +:+ e) = determineMimeType ("." +:+ mapBytes lowerByte e).
Proof.
  intros Hd Hs Ha. unfold determineMimeType. cbv zeta.
  rewrite (Ext_last_extension base e Hd Hs).
  assert (Hdot : Ext ("." +:+ mapBytes lowerByte e) = "." +:+ mapBytes lowerByte e).
  { apply (Ext_last_extension EmptyString (mapBytes lowerByte e));
      by rewrite hasChar_lower by auto. }
  rewrite Hdot, !TrimPrefix_dot. rewrite (isASCII_lower e Ha).
  rewrite (ToLower_lowered e Ha).
  reflexivity.
Qed.

(** X23: only the last extension of a name counts, and its case does not:
    a name that ends in a dot followed by any ASCII spelling of a known
    extension gets the type of that extension, whatever comes before. *)
Theorem determineMimeType_known_extension base e ext mime :
  (ext, mime) ∈ knownExtensions ->
  isASCII e = true ->
  mapBytes lowerByte e = ext ->
  determineMimeType (base +:+ "." +:+ e) = mime.
Proof.
  intros Hin Ha Hl.
  assert (Hplain : hasChar "." e = false /\ hasChar "/" e = false).
  { rewrite <- (hasChar_lower "." e), <- (hasChar_lower "/" e) by auto. rewrite Hl.
    unfold knownExtensions in Hin. rewrite !elem_of_cons in Hin.
    destruct Hin as [[= -> _]|[[= -> _]|[[= -> _]|[[= -> _]|[[= -> _]|[[= -> _]|[[= -> _]|
      [[= -> _]|[[= -> _]|[[= -> _]|[[= -> _]|[[= -> _]|[[= -> _]|[[= -> _]|[[= -> _]|Hin
      ]]]]]]]]]]]]]]]; try (by split). by apply elem_of_nil in Hin. }
  destruct Hplain as [Hd Hs].
  rewrite (determineMimeType_suffix base e Hd Hs Ha), Hl.
  unfold knownExtensions in Hin. rewrite !elem_of_cons in Hin.
  destruct Hin as [[= -> ->]|[[= -> ->]|[[= -> ->]|[[= -> ->]|[[= -> ->]|[[= -> ->]|
    [[= -> ->]|[[= -> ->]|[[= -> ->]|[[= -> ->]|[[= -> ->]|[[= -> ->]|[[= -> ->]|
    [[= -> ->]|[[= -> ->]|Hin]]]]]]]]]]]]]]]; try reflexivity.
  by apply elem_of_nil in Hin.
Qed.

(** X24: a name whose last path element has no dot gets no type, also when
    a directory before it has one. *)
Theorem determineMimeType_no_extension dir name :
  hasChar "." name = false -> hasChar "/" name = false ->
  determineMimeType (dir +:+ "/" +:+ name) = EmptyString
  /\ determineMimeType name = EmptyString.
Proof.
  intros Hd Hs. destruct (Ext_no_extension dir name Hd Hs) as [E1 E2].
  unfold determineMimeType. cbv zeta. rewrite E1, E2. by split.
Qed.

(** X25: the audio endpoint sends a file with a known audio extension as the
    canonical type of that extension (an opus file as audio/ogg) and refuses
    a file with the extension of another known type, without looking at the
    bytes; and the type it sends is always one of four and is itself
    accepted unchanged. *)
Theorem audio_file_mime base e ext sent data :
  (ext, sent) ∈ audioSentAs ->
  isASCII e = true ->
  mapBytes lowerByte e = ext ->
  normalizeAudioMime (fileMimeType (base +:+ "." +:+ e) data) = sent
  /\ (forall mimeType canonical,
        normalizeAudioMime mimeType = Some canonical ->
        canonical ∈ ["audio/ogg"; "audio/mpeg"; "audio/wav"; "audio/aac"]
        /\ normalizeAudioMime canonical = Some canonical).
Proof.
  intros Hin Ha Hl. split.
  - assert (Hplain : hasChar "." e = false /\ hasChar "/" e = false).
    { rewrite <- (hasChar_lower "." e), <- (hasChar_lower "/" e) by auto. rewrite Hl.
      unfold audioSentAs in Hin. rewrite !elem_of_cons in Hin.
      destruct Hin as [[= -> _]|[[= -> _]|[[= -> _]|[[= -> _]|[[= -> _]|[[= -> _]|[[= -> _]|
        [[= -> _]|[[= -> _]|[[= -> _]|[[= -> _]|[[= -> _]|[[= -> _]|[[= -> _]|[[= -> _]|Hin
        ]]]]]]]]]]]]]]]; try (by split). by apply elem_of_nil in Hin. }
    destruct Hplain as [Hd Hs]. unfold fileMimeType. cbv zeta.
    rewrite (determineMimeType_suffix base e Hd Hs Ha), Hl.
    unfold audioSentAs in Hin. rewrite !elem_of_cons in Hin.
    destruct Hin as [[= -> ->]|[[= -> ->]|[[= -> ->]|[[= -> ->]|[[= -> ->]|[[= -> ->]|
      [[= -> ->]|[[= -> ->]|[[= -> ->]|[[= -> ->]|[[= -> ->]|[[= -> ->]|[[= -> ->]|
      [[= -> ->]|[[= -> ->]|Hin]]]]]]]]]]]]]]]; try reflexivity.
    by apply elem_of_nil in Hin.
  - intros mimeType canonical Hn. unfold normalizeAudioMime in Hn.
    repeat match type of Hn with
           | context [if ?b then _ else _] => destruct b
           end;
      try discriminate Hn; injection Hn as <-;
      (split; [apply list_elem_of_In; cbn; tauto|reflexivity]).
Qed.

End MimeFacts.

Lemma determineMimeType_known_extension_witness :
  @determineMimeType plainLibrary "/srv/media/Take.2.final.MP3" = "audio/mpeg".
Proof.
  exact (@determineMimeType_known_extension plainLibrary "/srv/media/Take.2.final"
           "MP3" "mp3" "audio/mpeg" ltac:(apply list_elem_of_In; cbn; tauto) eq_refl eq_refl).
Defined.

Lemma determineMimeType_no_extension_witness :
  @determineMimeType plainLibrary "/srv/v1.2/README" = EmptyString.
Proof.
  exact (proj1 (@determineMimeType_no_extension plainLibrary "/srv/v1.2" "README"
                  eq_refl eq_refl)).
Defined.

Lemma audio_file_mime_witness :
  @normalizeAudioMime (@fileMimeType plainLibrary "/srv/media/note.Opus" "OggS")
  = Some "audio/ogg".
Proof.
  exact (proj1 (@audio_file_mime plainLibrary "/srv/media/note" "Opus" "opus"
                  (Some "audio/ogg") "OggS"
                  ltac:(apply list_elem_of_In; cbn; tauto) eq_refl eq_refl)).
Defined.

(** ** Inline audio and poll option titles *)

Section InlineFacts.

Lemma hasChar_app c (a b : string) : hasChar c (a +:+ b) = hasChar c a || hasChar c b.
Proof.
  induction a as [|x a IH]; [reflexivity|]. rewrite string_app_cons. cbn.
  by rewrite IH, orb_assoc.
Qed.

Lemma Contains_char c s : Contains s (String c EmptyString) = hasChar c s.
Proof.
  induction s as [|a s IH]; [reflexivity|]. cbn [Contains hasChar HasPrefix].
  rewrite IH. by replace (HasPrefix s EmptyString) with true by (by destruct s);
    rewrite andb_true_r.
Qed.

Lemma cut_found sep (a b : string) :
  hasChar sep a = false -> cut sep (a +:+ String sep b) = (a, Some b).
Proof.
  induction a as [|x a IH]; intros Ha.
  - change (EmptyString +:+ String sep b) with (String sep b). cbn.
    by rewrite Ascii.eqb_refl.
  - rewrite string_app_cons. cbn in *. apply orb_false_iff in Ha as [Hx Ha].
    by rewrite Hx, (IH Ha).
Qed.

Lemma cut_absent sep (s : string) : hasChar sep s = false -> cut sep s = (s, None).
Proof.
  induction s as [|x s IH]; intros Hs; [reflexivity|].
  cbn in *. apply orb_false_iff in Hs as [Hx Hs]. by rewrite Hx, (IH Hs).
Qed.

Lemma cut_present sep (s : string) :
  hasChar sep s = true -> exists a b, cut sep s = (a, Some b).
Proof.
  induction s as [|x s IH]; intros Hs; [discriminate|]. cbn in *.
  destruct (Ascii.eqb x sep); [by eexists _, _|].
  destruct (IH Hs) as (a & b & ->). by eexists _, _.
Qed.

Lemma TrimPrefix_app prefix rest : TrimPrefix (prefix +:+ rest) prefix = rest.
Proof.
  unfold TrimPrefix.
  replace (HasPrefix (prefix +:+ rest) prefix) with true
    by (symmetry; apply HasPrefix_spec; by exists rest).
  apply substring_after.
Qed.

(** X26: what the audio endpoint takes as inline data. A data URI with a
    type, parameters and a comma yields exactly that type and the text
    after the first comma; any text with a comma is treated as inline data
    and never as a file path; a text without comma is a file path, unless
    it starts like an audio data URI, in which case it is refused. *)
Theorem audioMediaSource_cases :
  (forall mimeType params base64,
      hasChar ";" mimeType = false -> hasChar "," mimeType = false ->
      hasChar "," params = false ->
      audioMediaSource ("data:" +:+ mimeType +:+ ";" +:+ params +:+ "," +:+ base64)
      = Inline mimeType base64)
  /\ (forall media, hasChar "," media = true ->
                    exists mimeType base64, audioMediaSource media = Inline mimeType base64)
  /\ (forall media, hasChar "," media = false ->
                    audioMediaSource media
                    = if HasPrefix media "data:audio/" then InvalidInline else FromFile media).
Proof.
  split; [|split].
  - intros m params b Hm1 Hm2 Hp. unfold audioMediaSource.
    assert (E : "data:" +:+ m +:+ ";" +:+ params +:+ "," +:+ b
                = ("data:" +:+ m +:+ ";" +:+ params) +:+ String "," b).
    { by rewrite !string_app_assoc. }
    rewrite E.
    assert (Hcomma : hasChar "," (("data:" +:+ m +:+ ";" +:+ params) +:+ String "," b) = true).
    { rewrite hasChar_app. cbn. by rewrite orb_true_r. }
    rewrite Contains_char, Hcomma, orb_true_r.
    rewrite cut_found by (rewrite !hasChar_app, Hm2, Hp; reflexivity).
    assert (E2 : "data:" +:+ m +:+ ";" +:+ params = ("data:" +:+ m) +:+ String ";" params).
    { by rewrite !string_app_assoc. }
    rewrite E2, cut_found by (rewrite hasChar_app, Hm1; reflexivity).
    cbn [fst]. by rewrite TrimPrefix_app.
  - intros media Hc. unfold audioMediaSource. rewrite Contains_char, Hc, orb_true_r.
    destruct (cut_present _ _ Hc) as (a & b & ->). by eexists _, _.
  - intros media Hc. unfold audioMediaSource. rewrite Contains_char, Hc, orb_false_r.
    rewrite (cut_absent _ _ Hc). reflexivity.
Qed.

Lemma hex_pair_back c :
  ascii_of_nat (16 * unhexDigit (hexDigit (nat_of_ascii c / 16))
                + unhexDigit (hexDigit (nat_of_ascii c mod 16))) = c.
Proof. destruct c as [[] [] [] [] [] [] [] []]; vm_compute; reflexivity. Qed.

Lemma parse_fmt_x bytes : parse_x (fmt_x bytes) = bytes.
Proof.
  induction bytes as [|c rest IH]; [reflexivity|].
  cbn [fmt_x parse_x]. by rewrite hex_pair_back, IH.
Qed.

Lemma fmt_x_length bytes : String.length (fmt_x bytes) = (2 * String.length bytes)%nat.
Proof. induction bytes as [|c rest IH]; [reflexivity|]. cbn [fmt_x String.length]. lia. Qed.

(** X27: the title of a poll option determines the option: the option bytes
    can be read back from the hexadecimal digits after the prefix, so two
    different options never get the same title, and the title has seven
    characters more than twice the number of bytes. *)
Theorem getPollOptionTitle_injective :
  (forall option, parse_x (TrimPrefix (getPollOptionTitle option) "Option_") = option)
  /\ (forall option1 option2,
        getPollOptionTitle option1 = getPollOptionTitle option2 -> option1 = option2)
  /\ (forall option,
        String.length (getPollOptionTitle option) = (7 + 2 * String.length option)%nat).
Proof.
  unfold getPollOptionTitle. split; [|split].
  - intros option. by rewrite TrimPrefix_app, parse_fmt_x.
  - intros o1 o2 E. apply string_app_inv_head in E.
    rewrite <- (parse_fmt_x o1), <- (parse_fmt_x o2). by rewrite E.
  - intros option. rewrite string_length_app, fmt_x_length. reflexivity.
Qed.

End InlineFacts.

Lemma audioMediaSource_cases_witness :
  audioMediaSource "data:audio/ogg;codecs=opus;base64,T2dnUw" = Inline "audio/ogg" "T2dnUw".
Proof.
  destruct audioMediaSource_cases as [Hdata _].
  exact (Hdata "audio/ogg" "codecs=opus;base64" "T2dnUw" eq_refl eq_refl eq_refl).
Defined.

(** ** The send-message, delete-message and mark-read handlers *)

Section HandlerFacts.
Context `{!Collaborators} `{!CallCollaborators} `{!ClientAPI}.

Lemma connected_inv :
  negb IsConnected || negb IsLoggedIn = false -> IsConnected = true /\ IsLoggedIn = true.
Proof. destruct IsConnected, IsLoggedIn; cbn; intros; by split. Qed.

(** X28: what [/send/message] sends. It calls the client at most once, and
    only for a non-empty message while the client is initialised, connected
    and logged in; the destination is the parsed [Jid] when one is given and
    the parsed [Phone] otherwise; a reply carries the quoted identifier and,
    as participant, the destination itself or, in a group, the parsed
    [Phone], which is then required. The answer is a success exactly when
    the client accepted the message. *)
Theorem sendMessage_what_is_sent request resp calls :
  sendMessage (Some request) = (resp, calls) ->
  (calls = [] /\ Status resp <> StatusOK)
  \/ exists jid msg,
       calls = [CallSendMessage jid msg]
       /\ GetWaCli <> None /\ IsConnected = true /\ IsLoggedIn = true
       /\ whatsappParseJID (if nonEmpty (smJid request)
                            then smJid request else smPhone request) = Ok jid
       /\ outText msg = smMessage request /\ smMessage request <> EmptyString
       /\ (Status resp = StatusOK <-> SendMessage jid msg = None)
       /\ match outContextInfo msg with
          | None => smReplyMessageID request = EmptyString
          | Some ctx =>
              StanzaID ctx = smReplyMessageID request
              /\ smReplyMessageID request <> EmptyString
              /\ QuotedConversation ctx = EmptyString
              /\ if Contains (jidString jid) "@g.us"
                 then smPhone request <> EmptyString
                      /\ exists senderJID,
                           whatsappParseJID (smPhone request) = Ok senderJID
                           /\ Participant ctx = jidString senderJID
                 else Participant ctx = jidString jid
          end.
Proof.
  unfold sendMessage. intros Hrun.
  destruct (String.eqb (smPhone request) EmptyString && String.eqb (smJid request) EmptyString);
    [injection Hrun as <- <-; by left|].
  destruct (String.eqb_spec (smMessage request) EmptyString) as [|Hmsg];
    [injection Hrun as <- <-; by left|].
  destruct GetWaCli as [waCli|] eqn:Hcli; [|injection Hrun as <- <-; by left].
  destruct (negb IsConnected || negb IsLoggedIn) eqn:Hconn;
    [injection Hrun as <- <-; by left|].
  apply connected_inv in Hconn as [Hc Hl].
  cbv zeta in Hrun.
  assert (Hparsed : exists r,
    (if nonEmpty (smJid request)
     then match whatsappParseJID (smJid request) with
          | Ok jid => inr jid
          | Err err => inl (errorResponse StatusBadRequest ("Jid inválido: " +:+ Error err))
          end
     else match whatsappParseJID (smPhone request) with
          | Ok jid => inr jid
          | Err err => inl (errorResponse StatusBadRequest ("Phone inválido: " +:+ Error err))
          end) = r
    /\ match r with
       | inl response => Status response <> StatusOK
       | inr jid => whatsappParseJID (if nonEmpty (smJid request)
                                     then smJid request else smPhone request) = Ok jid
       end).
  { eexists. split; [reflexivity|].
    destruct (nonEmpty (smJid request));
      [destruct (whatsappParseJID (smJid request)) as [jid|err] eqn:E
      |destruct (whatsappParseJID (smPhone request)) as [jid|err] eqn:E];
      first [reflexivity|exact E|(cbn; discriminate)]. }
  destruct Hparsed as (r & Er & Hr). rewrite Er in Hrun. clear Er.
  destruct r as [response|jid]; [injection Hrun as <- <-; by left|].
  destruct (nonEmpty (smReplyMessageID request)) eqn:Hreply.
  - assert (Hne : smReplyMessageID request <> EmptyString).
    { intros E. apply nonEmpty_false in E. congruence. }
    destruct (Contains (jidString jid) "@g.us") eqn:Hgroup.
    + destruct (String.eqb_spec (smPhone request) EmptyString) as [|Hphone];
        [injection Hrun as <- <-; by left|].
      destruct (whatsappParseJID (smPhone request)) as [senderJID|err] eqn:Hs;
        [|injection Hrun as <- <-; by left].
      right. eexists jid, _.
      destruct (SendMessage jid _) eqn:Hsend; injection Hrun as <- <-;
        (split; [reflexivity|]); (split; [discriminate|]); (split; [exact Hc|]);
        (split; [exact Hl|]); (split; [exact Hr|]); (split; [reflexivity|]);
        (split; [exact Hmsg|]); (split; [cbn; rewrite Hsend; split; discriminate || done|]);
        cbn; rewrite Hgroup; repeat split; try done; by exists senderJID.
    + right. eexists jid, _.
      destruct (SendMessage jid _) eqn:Hsend; injection Hrun as <- <-;
        (split; [reflexivity|]); (split; [discriminate|]); (split; [exact Hc|]);
        (split; [exact Hl|]); (split; [exact Hr|]); (split; [reflexivity|]);
        (split; [exact Hmsg|]); (split; [cbn; rewrite Hsend; split; discriminate || done|]);
        cbn; rewrite Hgroup; by repeat split.
  - apply nonEmpty_false in Hreply. right. eexists jid, _.
    destruct (SendMessage jid _) eqn:Hsend; injection Hrun as <- <-;
      (split; [reflexivity|]); (split; [discriminate|]); (split; [exact Hc|]);
      (split; [exact Hl|]); (split; [exact Hr|]); (split; [reflexivity|]);
      (split; [exact Hmsg|]); (split; [cbn; rewrite Hsend; split; discriminate || done|]);
      exact Hreply.
Qed.

(** X29: [/chat/delete-message] asks the client to revoke at most once, and
    only a well-formed request while the client is initialised, connected
    and logged in. A client error that mentions that the message is too old
    or that the deletion is not allowed is answered with status 400 and a
    fixed text; any other client error with status 500 and the error text;
    success with the identifier of the deleted message. *)
Theorem deleteMessage_outcome request resp calls :
  deleteMessage (Some request) = (resp, calls) ->
  (calls = [] /\ Status resp <> StatusOK)
  \/ exists jid,
       calls = [CallRevokeMessage jid (dmMessageID request)]
       /\ GetWaCli <> None /\ IsConnected = true /\ IsLoggedIn = true
       /\ whatsappParseJID (dmPhone request) = Ok jid
       /\ dmMessageID request <> EmptyString
       /\ match RevokeMessage jid (dmMessageID request) with
          | None =>
              Status resp = StatusOK
              /\ JSON resp !! "status"
                 = Some ("Message " +:+ dmMessageID request +:+ " deleted")
          | Some err =>
              if Contains (Error err) "too old" || Contains (Error err) "not allowed"
              then Status resp = StatusBadRequest
                   /\ JSON resp !! "error"
                      = Some "Message deletion not allowed: likely too old or not sent by you"
              else Status resp = StatusInternalServerError
                   /\ JSON resp !! "error"
                      = Some ("Failed to revoke message: " +:+ Error err)
          end.
Proof.
  unfold deleteMessage. intros Hrun.
  destruct (String.eqb_spec (dmPhone request) EmptyString) as [|Hphone];
    [injection Hrun as <- <-; by left|].
  destruct (String.eqb_spec (dmMessageID request) EmptyString) as [|Hid];
    [injection Hrun as <- <-; by left|].
  cbn [orb] in Hrun.
  destruct GetWaCli as [waCli|] eqn:Hcli; [|injection Hrun as <- <-; by left].
  destruct (negb IsConnected || negb IsLoggedIn) eqn:Hconn;
    [injection Hrun as <- <-; by left|].
  apply connected_inv in Hconn as [Hc Hl].
  destruct (whatsappParseJID (dmPhone request)) as [jid|err] eqn:Hjid;
    [|injection Hrun as <- <-; by left].
  right. exists jid. cbv zeta in Hrun.
  destruct (RevokeMessage jid (dmMessageID request)) as [err|];
    [destruct (Contains (Error err) "too old" || Contains (Error err) "not allowed")|];
    injection Hrun as <- <-; repeat split; try done; apply lookup_singleton_eq.
Qed.

(** X30: [/chat/mark-read] sends at most one receipt, for exactly the one
    message of the request at the time of the request, of type played when
    the request says so and read otherwise. Without a sender it sends
    nothing for a chat identity that contains the group marker, and uses
    the empty identity as sender for any other chat. *)
Theorem markRead_receipt now request resp calls :
  markRead now (Some request) = (resp, calls) ->
  (calls = [] /\ Status resp <> StatusOK)
  \/ exists chatJID senderJID,
       calls = [CallMarkRead [mrMessageID request] now chatJID senderJID
                  [if mrPlayed request then ReceiptTypePlayed else ReceiptTypeRead]]
       /\ GetWaCli <> None /\ IsConnected = true /\ IsLoggedIn = true
       /\ whatsappParseJID (mrPhone request) = Ok chatJID
       /\ (if nonEmpty (mrSender request)
           then whatsappParseJID (mrSender request) = Ok senderJID
           else senderJID = zeroJID /\ Contains (jidString chatJID) "@g.us" = false)
       /\ (Status resp = StatusOK
           <-> MarkRead [mrMessageID request] now chatJID senderJID
                 [if mrPlayed request then ReceiptTypePlayed else ReceiptTypeRead] = None).
Proof.
  unfold markRead. intros Hrun.
  destruct (String.eqb (mrPhone request) EmptyString
            || String.eqb (mrMessageID request) EmptyString);
    [injection Hrun as <- <-; by left|].
  destruct GetWaCli as [waCli|] eqn:Hcli; [|injection Hrun as <- <-; by left].
  destruct (negb IsConnected || negb IsLoggedIn) eqn:Hconn;
    [injection Hrun as <- <-; by left|].
  apply connected_inv in Hconn as [Hc Hl].
  destruct (whatsappParseJID (mrPhone request)) as [chatJID|err] eqn:Hjid;
    [|injection Hrun as <- <-; by left].
  cbv zeta in Hrun.
  destruct (nonEmpty (mrSender request)) eqn:Hsender.
  - destruct (whatsappParseJID (mrSender request)) as [senderJID|err] eqn:Hs;
      [|injection Hrun as <- <-; by left].
    right. exists chatJID, senderJID.
    destruct (mrPlayed request);
      (destruct (MarkRead _ now chatJID senderJID _) eqn:Hmark; injection Hrun as <- <-;
       repeat split; try done; discriminate).
  - destruct (Contains (jidString chatJID) "@g.us") eqn:Hgroup;
      [injection Hrun as <- <-; by left|].
    right. exists chatJID, zeroJID.
    destruct (mrPlayed request);
      (destruct (MarkRead _ now chatJID zeroJID _) eqn:Hmark; injection Hrun as <- <-;
       repeat split; try done; discriminate).
Qed.

End HandlerFacts.

Lemma sendMessage_what_is_sent_witness :
  exists resp msg ctx,
    @sendMessage sampleCollaborators restCalls sampleClient (Some groupReply)
    = (resp, [CallSendMessage {| jidString := "120363@g.us" |} msg])
    /\ outContextInfo msg = Some ctx
    /\ StanzaID ctx = "3EB0A1".
Proof.
  eexists _, _, _. split; [reflexivity|].
  destruct (@sendMessage_what_is_sent sampleCollaborators restCalls sampleClient
              groupReply _ _ eq_refl)
    as [[Hnil _]|(jid & msg & Hcalls & _ & _ & _ & _ & _ & _ & _ & Hctx)];
    [discriminate Hnil|].
  injection Hcalls as <- <-. split; [reflexivity|]. exact (proj1 Hctx).
Defined.

Lemma deleteMessage_outcome_witness :
  exists resp calls,
    @deleteMessage sampleCollaborators restCalls sampleClient
      (Some {| dmPhone := "+55 11 888"; dmMessageID := "OLD" |}) = (resp, calls)
    /\ Status resp = StatusBadRequest.
Proof.
  eexists _, _. split; [reflexivity|].
  destruct (@deleteMessage_outcome sampleCollaborators restCalls sampleClient
              {| dmPhone := "+55 11 888"; dmMessageID := "OLD" |} _ _ eq_refl)
    as [[Hnil _]|(jid & Hcalls & _ & _ & _ & Hjid & _ & Hout)];
    [discriminate Hnil|].
  injection Hjid as <-. exact (proj1 Hout).
Defined.

Lemma markRead_receipt_witness :
  exists resp calls,
    @markRead sampleCollaborators restCalls sampleClient 7
      (Some {| mrPhone := "+55 11 888"; mrMessageID := "3EB0A1";
               mrSender := EmptyString; mrPlayed := true |}) = (resp, calls)
    /\ calls = [CallMarkRead ["3EB0A1"] 7 {| jidString := "5511888@s.whatsapp.net" |}
                 zeroJID [ReceiptTypePlayed]].
Proof.
  eexists _, _. split; [reflexivity|].
  destruct (@markRead_receipt sampleCollaborators restCalls sampleClient 7
              {| mrPhone := "+55 11 888"; mrMessageID := "3EB0A1";
                 mrSender := EmptyString; mrPlayed := true |} _ _ eq_refl)
    as [[Hnil _]|(chatJID & senderJID & Hcalls & _ & _ & _ & Hjid & [-> _] & _)];
    [discriminate Hnil|].
  injection Hjid as <-. reflexivity.
Defined.
